(** * Hello-Pulse AI services: access filters, registries, retrieval, agents

    A shallow embedding of the Python sources under [ai-services/] and the
    properties of the specification that can be settled on it.

    Python dictionaries with string keys are [gmap string _]; the untyped
    values stored in them are the JSON-like type [value]; nested dictionaries
    inside a value are association lists.  Functions that can raise return an
    [outcome].  The first half of the file holds the definitions, one module
    per source file; the second half holds the lemmas and theorems. *)

From Stdlib Require Import ZArith QArith String List Permutation Lia.
From stdpp Require Import base option list strings pretty gmap fin_maps.

Set Warnings "-register-all".

Local Open Scope string_scope.
Local Open Scope list_scope.
Local Open Scope nat_scope.

(** ** Python values *)

Inductive value : Type :=
| VNone
| VInt (n : Z)
| VStr (s : string)
| VList (vs : list value)
| VDict (kvs : list (string * value)).

(** [==] on values.  Lists are compared element by element, nested
    dictionaries entry by entry. *)
Fixpoint value_eqb (a b : value) {struct a} : bool :=
  match a, b with
  | VNone, VNone => true
  | VInt x, VInt y => Z.eqb x y
  | VStr x, VStr y => String.eqb x y
  | VList xs, VList ys =>
      (fix go (xs ys : list value) {struct xs} : bool :=
         match xs, ys with
         | [], [] => true
         | x :: xs', y :: ys' => value_eqb x y && go xs' ys'
         | _, _ => false
         end) xs ys
  | VDict xs, VDict ys =>
      (fix go (xs ys : list (string * value)) {struct xs} : bool :=
         match xs, ys with
         | [], [] => true
         | (k, x) :: xs', (k', y) :: ys' =>
             String.eqb k k' && value_eqb x y && go xs' ys'
         | _, _ => false
         end) xs ys
  | _, _ => false
  end.

(** Exceptions the modelled code can raise. *)
Inductive exn : Type :=
| TypeError | KeyError | IndexError | ValueError | AttributeError
| JSONDecodeError | BackendError.

Inductive outcome (A : Type) : Type :=
| Ret (a : A)
| Raise (e : exn).
Arguments Ret {A} a.
Arguments Raise {A} e.

(** [dict.get(key)] and [dict.get(key, fallback)] *)
Definition dict_get (d : gmap string value) (k : string) : value :=
  default VNone (d !! k).

Definition dict_get_or (d : gmap string value) (k : string) (fallback : value)
  : value :=
  default fallback (d !! k).

(** [for key, value in src.items(): dst[key] = value] *)
Definition dict_update (dst src : gmap string value) : gmap string value :=
  map_fold (fun k v acc => <[k := v]> acc) dst src.

(** Truth value of a dictionary: empty is false. *)
Definition dict_truthy {V : Type} (d : gmap string V) : bool :=
  match map_to_list d with [] => false | _ :: _ => true end.

(** [sep.join(parts)] *)
Fixpoint join (sep : string) (parts : list string) : string :=
  match parts with
  | [] => ""
  | [p] => p
  | p :: rest => p +:+ sep +:+ join sep rest
  end.

(** Embedding vectors are opaque to the code studied here; rationals stand in
    for the floats. *)
Definition embedding_vector : Type := list Q.

(** ** utils/filtering.py *)

Module Filtering.

(** [class Visibility(str, Enum)] *)
Definition PRIVATE : string := "private".
Definition SHARED : string := "shared".
Definition PUBLIC : string := "public".

Definition own_documents (user_id : string) : value :=
  VDict [("user_id", VStr user_id)].

Definition visibility_in (levels : list string) : value :=
  VDict [("visibility", VDict [("$in", VList (VStr <$> levels))])].

(** The body of [get_access_filters], with [**additional_filters] as the
    dictionary Python collected. *)
Definition get_access_filters (organization_id user_id : string)
    (visibility : option (list string))
    (additional_filters : gmap string value) : gmap string value :=
  let filters : gmap string value :=
    {[ "organization_id" := VStr organization_id ]} in
  let filters :=
    match visibility with
    | None =>
        let visibility_filter := [SHARED; PUBLIC] in
        <[ "$or" := VList [own_documents user_id;
                           visibility_in visibility_filter] ]> filters
    | Some visibility =>
        if bool_decide (PRIVATE ∈ visibility) then
          if length visibility =? 1 then
            <[ "user_id" := VStr user_id ]> filters
          else
            let private_filter := own_documents user_id in
            let other_filter :=
              visibility_in (filter (fun v => v ≠ PRIVATE) visibility) in
            <[ "$or" := VList [private_filter; other_filter] ]> filters
        else
          <[ "visibility" := VDict [("$in", VList (VStr <$> visibility))] ]>
            filters
    end in
  dict_update filters additional_filters.

(** Python binds a keyword to the named parameter of that name, so the
    dictionary behind [**additional_filters] never holds one of the three
    parameter names: passing one twice is a [TypeError] at the call. *)
Definition kwargs_bindable (additional_filters : gmap string value) : bool :=
  bool_decide (additional_filters !! "organization_id" = None) &&
  bool_decide (additional_filters !! "user_id" = None) &&
  bool_decide (additional_filters !! "visibility" = None).

Definition call_get_access_filters (organization_id user_id : string)
    (visibility : option (list string))
    (additional_filters : gmap string value) : outcome (gmap string value) :=
  if kwargs_bindable additional_filters then
    Ret (get_access_filters organization_id user_id visibility
           additional_filters)
  else Raise TypeError.

Definition document_access_check (document_metadata : gmap string value)
    (user_id organization_id : string) : bool :=
  let doc_org_id := dict_get document_metadata "organization_id" in
  if negb (value_eqb doc_org_id (VStr organization_id)) then
    if value_eqb (dict_get document_metadata "visibility") (VStr PUBLIC)
    then true else false
  else
    let doc_user_id := dict_get document_metadata "user_id" in
    let doc_visibility :=
      dict_get_or document_metadata "visibility" (VStr PRIVATE) in
    if value_eqb doc_user_id (VStr user_id) then true
    else if value_eqb doc_visibility (VStr PRIVATE) then false
    else if value_eqb doc_visibility (VStr SHARED) then true
    else if value_eqb doc_visibility (VStr PUBLIC) then true
    else false.

End Filtering.

(** ** How a vector store reads a filter

    The filter dictionaries are interpreted by the vector store, outside the
    Python sources.  The reading below is the one the filter builder and the
    agent manager write for: the top-level entries are conjoined, [$or] and
    [$and] combine sub-filters, [{"$in": [...]}] is membership, and a plain
    value matches a stored field that equals it or is a list containing
    it. *)

Module FilterSemantics.

Definition field_matches (stored : option value) (wanted : value) : bool :=
  match stored with
  | None => false
  | Some x =>
      value_eqb x wanted ||
      match x with
      | VList xs => existsb (fun y => value_eqb y wanted) xs
      | _ => false
      end
  end.

Definition operator_holds (stored : option value) (op : string) (arg : value)
  : bool :=
  if String.eqb op "$in" then
    match arg with
    | VList vs => existsb (field_matches stored) vs
    | _ => false
    end
  else if String.eqb op "$eq" then field_matches stored arg
  else if String.eqb op "$ne" then negb (field_matches stored arg)
  else false.

Fixpoint entry_holds (meta : gmap string value) (k : string) (v : value)
    {struct v} : bool :=
  let all_hold (sub : value) : bool :=
    match sub with
    | VDict kvs => forallb (fun kv => entry_holds meta (fst kv) (snd kv)) kvs
    | _ => false
    end in
  if String.eqb k "$or" then
    match v with VList subs => existsb all_hold subs | _ => false end
  else if String.eqb k "$and" then
    match v with VList subs => forallb all_hold subs | _ => false end
  else
    match v with
    | VDict ops =>
        forallb (fun kv => operator_holds (meta !! k) (fst kv) (snd kv)) ops
    | _ => field_matches (meta !! k) v
    end.

Definition filter_matches (meta : gmap string value)
    (flt : gmap string value) : bool :=
  forallb (fun kv => entry_holds meta (fst kv) (snd kv)) (map_to_list flt).

End FilterSemantics.

(** ** services/rag/retriever.py *)

Module Retriever.

(** One search hit: [{"id", "text", "metadata", "score"}]. *)
Record document : Type := {
  doc_id : string;
  doc_text : string;
  doc_metadata : gmap string value;
  doc_score : Q
}.

Definition security_keys : list string := ["organization_id"; "user_id"; "$or"].

(** Lines 50-61: the access filters, then the guarded merge of
    [filter_dict]. *)
Definition search_filter (organization_id user_id : string)
    (filter_dict : option (gmap string value)) : gmap string value :=
  let access_filters :=
    Filtering.get_access_filters organization_id user_id None ∅ in
  match filter_dict with
  | Some fd =>
      if dict_truthy fd then
        map_fold (fun key value acc =>
                    if bool_decide (key ∉ security_keys)
                    then <[key := value]> acc else acc)
                 access_filters fd
      else access_filters
  | None => access_filters
  end.

Section Retrieve.

(** The resolved providers: [llm_provider.get_embeddings] and
    [vector_db.search].  The function is given as it runs when its log
    calls go through; the calls on [logger] are left out. *)
Variable llm_get_embeddings : list string -> outcome (list embedding_vector).
Variable vector_db_search :
  embedding_vector -> gmap string value -> nat -> outcome (list document).

Definition retrieve_relevant_documents (query organization_id user_id : string)
    (filter_dict : option (gmap string value)) (limit : nat) (rerank : bool)
  : outcome (list document) :=
  match llm_get_embeddings [query] with
  | Raise e => Raise e
  | Ret query_embeddings =>
      match query_embeddings with
      | [] => Raise IndexError
      | query_embedding :: _ =>
          let access_filters :=
            search_filter organization_id user_id filter_dict in
          match vector_db_search query_embedding access_filters
                  (if rerank then limit * 2 else limit) with
          | Raise e => Raise e
          | Ret documents =>
              if rerank && (limit <? length documents)
              then Ret (take limit documents)
              else Ret documents
          end
      end
  end.

End Retrieve.

End Retriever.

(** ** services/rag/generator.py *)

Module Generator.

Import Retriever.

Definition newline : string := String (Ascii.ascii_of_nat 10) EmptyString.

Definition default_system_message : string :=
  "You are a helpful assistant. If you don't know the answer to a question, "
  +:+ "just say that you don't have enough information to provide a reliable answer.".

Definition default_rag_system_message : string :=
  "You are a helpful assistant with access to a knowledge base. "
  +:+ "Answer the user's question based on the provided context. "
  +:+ "If the context doesn't contain the necessary information to answer the question, "
  +:+ "just say that you don't have enough information to provide a reliable answer. "
  +:+ "Don't make up information that's not in the context.".

(** Truth value of [Optional[str]]: [None] and the empty string are false. *)
Definition str_truthy (s : option string) : bool :=
  match s with
  | Some (String _ _) => true
  | _ => false
  end.

(** [a or b] on an optional string and a string. *)
Definition str_or (s : option string) (fallback : string) : string :=
  match s with
  | Some (String c r) => String c r
  | _ => fallback
  end.

Section Generate.

(** [str(value)] as the f-strings apply it to metadata values. *)
Variable py_str : value -> string.

Definition source_info (metadata : gmap string value) : list string :=
  (match metadata !! "title" with
   | Some v => ["Title: " +:+ py_str v] | None => [] end) ++
  (match metadata !! "source" with
   | Some v => ["Source: " +:+ py_str v] | None => [] end) ++
  (match metadata !! "url" with
   | Some v => ["URL: " +:+ py_str v] | None => [] end) ++
  (match metadata !! "date" with
   | Some v => ["Date: " +:+ py_str v] | None => [] end) ++
  (match metadata !! "author" with
   | Some v => ["Author: " +:+ py_str v] | None => [] end).

Definition format_document (i : nat) (doc : document) : string :=
  match source_info (doc_metadata doc) with
  | [] => "Document " +:+ pretty (i + 1) +:+ ":" +:+ newline
          +:+ doc_text doc +:+ newline
  | info => "Document " +:+ pretty (i + 1) +:+ " (" +:+ join " | " info
            +:+ "):" +:+ newline +:+ doc_text doc +:+ newline
  end.

Definition format_documents_for_context (documents : list document) : string :=
  join newline (imap format_document documents).

Definition rag_prompt (query context : string) : string :=
  "I need information about the following question:" +:+ newline
  +:+ query +:+ newline +:+ newline
  +:+ "Here is the relevant context from our knowledge base:" +:+ newline
  +:+ newline +:+ context +:+ newline +:+ newline
  +:+ "Based on this context, please provide a comprehensive answer to the question.".

(** The resolved providers.  [llm_generate prompt system_message temperature
    max_tokens] is [llm_provider.generate]. *)
Variable llm_get_embeddings : list string -> outcome (list embedding_vector).
Variable llm_generate : string -> string -> Q -> option Z -> outcome string.
Variable vector_db_search :
  embedding_vector -> gmap string value -> nat -> outcome (list document).

Definition generate_answer (query organization_id user_id : string)
    (filter_dict : option (gmap string value)) (system_message : option string)
    (temperature : Q) (max_tokens : option Z) (num_documents : nat)
  : outcome (string * list document) :=
  match retrieve_relevant_documents llm_get_embeddings vector_db_search
          query organization_id user_id filter_dict num_documents true with
  | Raise e => Raise e
  | Ret documents =>
      match documents with
      | [] =>
          let default_system := str_or system_message default_system_message in
          match llm_generate query default_system temperature max_tokens with
          | Raise e => Raise e
          | Ret response => Ret (response, [])
          end
      | _ :: _ =>
          let context := format_documents_for_context documents in
          let rag_system_message :=
            if str_truthy system_message
            then default "" system_message
            else default_rag_system_message in
          match llm_generate (rag_prompt query context) rag_system_message
                  temperature max_tokens with
          | Raise e => Raise e
          | Ret response => Ret (response, documents)
          end
      end
  end.

End Generate.

End Generator.

(** ** services/llm_providers/openai.py: [OpenAIProvider.get_embeddings] *)

Module OpenAI.

Section Embeddings.

(** The type of one embedding vector. *)
Variable E : Type.

(** One item of [response.data]. *)
Record embedding_item : Type := { index : nat; embedding : E }.

(** [self.client.embeddings.create(model=..., input=batch_texts)] followed by
    [.data]. *)
Variable embeddings_create : list string -> outcome (list embedding_item).

Definition batch_size : nat := 100.

(** [range(start, stop, step)] for a positive step. *)
Definition py_range (start stop step : nat) : list nat :=
  (fun k => start + k * step) <$> seq 0 ((stop - start + (step - 1)) / step).

(** [sorted(data, key=lambda x: x.index)]: a stable sort on the index. *)
Fixpoint insert_by_index (x : embedding_item) (l : list embedding_item)
  : list embedding_item :=
  match l with
  | [] => [x]
  | y :: l' =>
      if index x <=? index y then x :: y :: l'
      else y :: insert_by_index x l'
  end.

Definition sorted_by_index (data : list embedding_item) : list embedding_item :=
  foldr insert_by_index [] data.

(** The loop over the batches, threading [all_embeddings]. *)
Fixpoint embed_batches (starts : list nat) (texts : list string)
    (all_embeddings : list E) : outcome (list E) :=
  match starts with
  | [] => Ret all_embeddings
  | i :: rest =>
      let batch_texts := take batch_size (drop i texts) in
      match embeddings_create batch_texts with
      | Raise e => Raise e
      | Ret data =>
          let sorted_embeddings := sorted_by_index data in
          let batch_embeddings := embedding <$> sorted_embeddings in
          embed_batches rest texts (all_embeddings ++ batch_embeddings)
      end
  end.

Definition get_embeddings (texts : list string) : outcome (list E) :=
  embed_batches (py_range 0 (length texts) batch_size) texts [].

(** The items of a response in request order: the embeddings [es] of the
    batch, numbered from [k]. *)
Fixpoint numbered_from (k : nat) (es : list E) : list embedding_item :=
  match es with
  | [] => []
  | e :: rest => {| index := k; embedding := e |} :: numbered_from (S k) rest
  end.

End Embeddings.

Arguments index {E} _.
Arguments embedding {E} _.
Arguments Build_embedding_item {E} _ _.
Arguments numbered_from {E} _ _.
Arguments sorted_by_index {E} _.
Arguments insert_by_index {E} _ _.

End OpenAI.

(** ** core/config.py, and the levels of core/logging.py *)

Module Config.

(** A tenant's configuration dictionary: the three keys the registries read,
    and the remaining provider-specific keys. *)
Record company_config : Type := {
  llm_provider : option string;
  vector_db : option string;
  shared_vector_db : option bool;
  provider_options : gmap string value
}.

Record Settings : Type := {
  DEFAULT_LLM_PROVIDER : string;
  DEFAULT_VECTOR_DB : string;
  SHARED_VECTOR_DB : bool;
  OPENAI_API_KEY : option string;
  OPENAI_DEFAULT_MODEL : string;
  OLLAMA_DEFAULT_MODEL : string;
  COMPANY_CONFIGS : gmap string company_config
}.

Definition get_company_config (self : Settings) (organization_id : string)
  : company_config :=
  match COMPANY_CONFIGS self !! organization_id with
  | None =>
      {| llm_provider := Some (DEFAULT_LLM_PROVIDER self);
         vector_db := Some (DEFAULT_VECTOR_DB self);
         shared_vector_db := Some (SHARED_VECTOR_DB self);
         provider_options :=
           {[ "openai_model" := VStr (OPENAI_DEFAULT_MODEL self);
              "ollama_model" := VStr (OLLAMA_DEFAULT_MODEL self) ]} |}
  | Some config => config
  end.

Definition get_llm_provider_for_company (self : Settings)
    (organization_id : string) : string :=
  let company_config := get_company_config self organization_id in
  default (DEFAULT_LLM_PROVIDER self) (llm_provider company_config).

(** The defaults written in the class body. *)
Definition default_settings : Settings :=
  {| DEFAULT_LLM_PROVIDER := "openai";
     DEFAULT_VECTOR_DB := "chroma";
     SHARED_VECTOR_DB := true;
     OPENAI_API_KEY := None;
     OPENAI_DEFAULT_MODEL := "gpt-3.5-turbo";
     OLLAMA_DEFAULT_MODEL := "llama3";
     COMPANY_CONFIGS := ∅ |}.

Inductive level : Type := DEBUG | INFO | WARNING | ERROR.

Definition log_record : Type := level * string.

End Config.

(** ** core/logging.py: [LoggingContext] and the calls on [logger]

    A call [logger.warning(msg, extra={...})] builds a record only when the
    level is enabled for the logger.  [Logger.makeRecord] then asks the
    installed record factory for the record and copies the keys of [extra]
    into it; it raises [KeyError] for a key that is [message] or [asctime]
    or that the record already has.  [LoggingContext.__enter__] installs a
    factory that sets [organization_id] and [user_id] on every record when
    the context was given truthy values for them. *)

Module Logging.

Import Config.

(** The numeric levels of Python's [logging]. *)
Definition levelno (l : level) : nat :=
  match l with
  | DEBUG => 10
  | INFO => 20
  | WARNING => 30
  | ERROR => 40
  end.

(** The logging state a call runs under: the effective level of the logger
    [hello_pulse_ai] and the attributes that the installed record factory
    sets on every record, besides those of [LogRecord] itself. *)
Record state : Type := {
  effective_level : nat;
  factory_attributes : list string
}.

(** Before [setup_logging] runs the logger inherits the root logger's level
    [WARNING], and the record factory is [LogRecord]. *)
Definition python_default : state :=
  {| effective_level := levelno WARNING; factory_attributes := [] |}.

(** [setup_logging()]: the root logger and [hello_pulse_ai] get the level
    that [settings.LOG_LEVEL] names ([INFO] in [core/config.py]). *)
Definition setup_logging (LOG_LEVEL : level) (st : state) : state :=
  {| effective_level := levelno LOG_LEVEL;
     factory_attributes := factory_attributes st |}.

(** The state inside [with LoggingContext(organization_id=..., user_id=...)]:
    the new factory calls the old one and then sets the two attributes
    whose values are truthy, that is, non-empty strings. *)
Definition LoggingContext (organization_id user_id : string) (st : state)
  : state :=
  {| effective_level := effective_level st;
     factory_attributes :=
       factory_attributes st ++
       (if String.eqb organization_id "" then [] else ["organization_id"]) ++
       (if String.eqb user_id "" then [] else ["user_id"]) |}.

(** The attributes [LogRecord.__init__] sets. *)
Definition record_attributes : list string :=
  ["name"; "msg"; "args"; "levelname"; "levelno"; "pathname"; "filename";
   "module"; "exc_info"; "exc_text"; "stack_info"; "lineno"; "funcName";
   "created"; "msecs"; "relativeCreated"; "thread"; "threadName";
   "processName"; "process"; "taskName"].

(** [Logger.makeRecord] with the keys of [extra]. *)
Definition makeRecord (st : state) (extra : list string) : outcome unit :=
  if existsb
       (fun key =>
          bool_decide (key ∈ ["message"; "asctime"]) ||
          bool_decide (key ∈ record_attributes ++ factory_attributes st))
       extra
  then Raise KeyError
  else Ret tt.

(** [logger.info], [logger.warning] and [logger.error] with the keys of
    their [extra] dictionary. *)
Definition log (st : state) (lvl : level) (extra : list string)
  : outcome unit :=
  if effective_level st <=? levelno lvl then makeRecord st extra else Ret tt.

(** A log call followed by [return result]. *)
Definition log_then_return {A : Type} (st : state) (lvl : level)
    (extra : list string) (result : A) : outcome A :=
  match log st lvl extra with
  | Raise e => Raise e
  | Ret _ => Ret result
  end.

(** [try: body / except Exception as e: logger.error(..., extra=...); raise] *)
Definition except_log_raise {A : Type} (st : state) (extra : list string)
    (body : outcome A) : outcome A :=
  match body with
  | Ret a => Ret a
  | Raise e =>
      match log st ERROR extra with
      | Raise e' => Raise e'
      | Ret _ => Raise e
      end
  end.

(** [try: body / except Exception as e: logger.error(..., extra=...);
    return fallback] *)
Definition except_log_return {A : Type} (st : state) (extra : list string)
    (fallback : A) (body : outcome A) : outcome A :=
  match body with
  | Ret a => Ret a
  | Raise _ => log_then_return st ERROR extra fallback
  end.

End Logging.

(** ** services/llm_providers/__init__.py *)

Module LLMProviders.

Import Config.

(** A provider class, as far as the registry sees it: calling it either
    raises or yields a new object. *)
Record provider_class : Type := {
  class_name : string;
  init_raises : string -> company_config -> option exn
}.

(** A provider object.  [instance_id] is its identity: two references are
    the same object exactly when the identities agree. *)
Record provider_instance : Type := {
  instance_id : nat;
  instance_class : provider_class;
  instance_organization_id : string;
  instance_config : company_config
}.

(** The module globals, the allocator and the log. *)
Record registry_state : Type := {
  _PROVIDER_REGISTRY : gmap string provider_class;
  _PROVIDER_INSTANCES : gmap string provider_instance;
  next_object : nat;
  log : list log_record
}.

Definition log_event (st : registry_state) (r : log_record) : registry_state :=
  {| _PROVIDER_REGISTRY := _PROVIDER_REGISTRY st;
     _PROVIDER_INSTANCES := _PROVIDER_INSTANCES st;
     next_object := next_object st;
     log := log st ++ [r] |}.

Definition register_provider (name : string) (cls : provider_class)
    (st : registry_state) : registry_state :=
  log_event
    {| _PROVIDER_REGISTRY := <[name := cls]> (_PROVIDER_REGISTRY st);
       _PROVIDER_INSTANCES := _PROVIDER_INSTANCES st;
       next_object := next_object st;
       log := log st |}
    (INFO, "Registered LLM provider: " +:+ name).

(** The key under which [get_llm_provider] caches the object of a tenant. *)
Definition cache_key (settings : Settings) (organization_id : string) : string :=
  organization_id +:+ ":" +:+ get_llm_provider_for_company settings organization_id.

Definition get_llm_provider (settings : Settings) (organization_id : string)
    (st : registry_state) : outcome provider_instance * registry_state :=
  let provider_name := get_llm_provider_for_company settings organization_id in
  let cache_key := organization_id +:+ ":" +:+ provider_name in
  match _PROVIDER_INSTANCES st !! cache_key with
  | Some cached => (Ret cached, st)
  | None =>
      let '(provider_name, st) :=
        match _PROVIDER_REGISTRY st !! provider_name with
        | None =>
            (DEFAULT_LLM_PROVIDER settings,
             log_event st (ERROR, "LLM provider not found: " +:+ provider_name))
        | Some _ => (provider_name, st)
        end in
      match _PROVIDER_REGISTRY st !! provider_name with
      | None => (Raise KeyError, st)
      | Some cls =>
          let company_config := get_company_config settings organization_id in
          match init_raises cls organization_id company_config with
          | Some e => (Raise e, st)
          | None =>
              let provider_instance :=
                {| instance_id := next_object st;
                   instance_class := cls;
                   instance_organization_id := organization_id;
                   instance_config := company_config |} in
              (Ret provider_instance,
               log_event
                 {| _PROVIDER_REGISTRY := _PROVIDER_REGISTRY st;
                    _PROVIDER_INSTANCES :=
                      <[cache_key := provider_instance]> (_PROVIDER_INSTANCES st);
                    next_object := S (next_object st);
                    log := log st |}
                 (INFO, "Created LLM provider instance"))
          end
      end
  end.

Definition clear_provider_cache (st : registry_state) : registry_state :=
  log_event
    {| _PROVIDER_REGISTRY := _PROVIDER_REGISTRY st;
       _PROVIDER_INSTANCES := ∅;
       next_object := next_object st;
       log := log st |}
    (INFO, "Cleared LLM provider cache").

(** What a caller can do to the registry besides clearing its cache. *)
Inductive call : Type :=
| Resolve (organization_id : string)
| Register (name : string) (cls : provider_class).

Definition run_call (settings : Settings) (c : call) (st : registry_state)
  : registry_state :=
  match c with
  | Resolve organization_id => snd (get_llm_provider settings organization_id st)
  | Register name cls => register_provider name cls st
  end.

Definition run_calls (settings : Settings) (cs : list call)
    (st : registry_state) : registry_state :=
  foldl (fun st c => run_call settings c st) st cs.

(** Every cached object was allocated before [next_object]. *)
Definition allocated_below (st : registry_state) : Prop :=
  forall key inst,
    _PROVIDER_INSTANCES st !! key = Some inst -> instance_id inst < next_object st.

(** The class a call instantiates when nothing is cached under the
    organization's key: the one registered under the configured name and,
    when there is none, the one registered under the default name. *)
Definition resolved_class (settings : Settings) (organization_id : string)
    (st : registry_state) : option provider_class :=
  let provider_name := get_llm_provider_for_company settings organization_id in
  match _PROVIDER_REGISTRY st !! provider_name with
  | Some cls => Some cls
  | None => _PROVIDER_REGISTRY st !! DEFAULT_LLM_PROVIDER settings
  end.

(** There is such a class and its constructor does not raise for the
    organization. *)
Definition constructible (settings : Settings) (organization_id : string)
    (st : registry_state) : bool :=
  match resolved_class settings organization_id st with
  | Some cls =>
      match init_raises cls organization_id
              (get_company_config settings organization_id) with
      | None => true
      | Some _ => false
      end
  | None => false
  end.

(** The two classes of the initial registry.  [OpenAIProvider.__init__]
    raises [ValueError] without an API key; [OllamaProvider.__init__] does
    not raise. *)
Definition value_truthy (v : value) : bool :=
  match v with
  | VNone | VInt 0 | VStr "" | VList [] | VDict [] => false
  | _ => true
  end.

Definition OpenAIProvider (settings : Settings) : provider_class :=
  {| class_name := "OpenAIProvider";
     init_raises := fun organization_id company_config =>
       let api_key :=
         dict_get_or (provider_options company_config) "openai_api_key"
           (from_option VStr VNone (OPENAI_API_KEY settings)) in
       if value_truthy api_key then None else Some ValueError |}.

Definition OllamaProvider : provider_class :=
  {| class_name := "OllamaProvider";
     init_raises := fun _ _ => None |}.

Definition initial_state (settings : Settings) : registry_state :=
  {| _PROVIDER_REGISTRY :=
       {[ "openai" := OpenAIProvider settings; "ollama" := OllamaProvider ]};
     _PROVIDER_INSTANCES := ∅;
     next_object := 0;
     log := [] |}.

End LLMProviders.

(** ** services/vector_databases/__init__.py *)

Module VectorDatabases.

Import Config.

Record vector_db_class : Type := {
  class_name : string;
  init_raises : string -> company_config -> bool -> option exn
}.

(** A vector database object: its identity, its class and the two attributes
    [self.organization_id] and [self.shared] the constructors store. *)
Record vector_db_instance : Type := {
  instance_id : nat;
  instance_class : vector_db_class;
  organization_id : string;
  shared : bool
}.

Record registry_state : Type := {
  _VECTOR_DB_REGISTRY : gmap string vector_db_class;
  _VECTOR_DB_INSTANCES : gmap string vector_db_instance;
  next_object : nat;
  log : list log_record
}.

Definition log_event (st : registry_state) (r : log_record) : registry_state :=
  {| _VECTOR_DB_REGISTRY := _VECTOR_DB_REGISTRY st;
     _VECTOR_DB_INSTANCES := _VECTOR_DB_INSTANCES st;
     next_object := next_object st;
     log := log st ++ [r] |}.

Definition register_vector_db (name : string) (cls : vector_db_class)
    (st : registry_state) : registry_state :=
  log_event
    {| _VECTOR_DB_REGISTRY := <[name := cls]> (_VECTOR_DB_REGISTRY st);
       _VECTOR_DB_INSTANCES := _VECTOR_DB_INSTANCES st;
       next_object := next_object st;
       log := log st |}
    (INFO, "Registered vector database: " +:+ name).

(** The key under which [get_vector_db] caches the object of a tenant. *)
Definition cache_key (settings : Settings) (organization_id : string) : string :=
  let company_config := get_company_config settings organization_id in
  let vector_db_name :=
    default (DEFAULT_VECTOR_DB settings) (vector_db company_config) in
  if default (SHARED_VECTOR_DB settings) (shared_vector_db company_config)
  then "shared:" +:+ vector_db_name
  else organization_id +:+ ":" +:+ vector_db_name.

Definition get_vector_db (settings : Settings) (organization_id : string)
    (st : registry_state) : outcome vector_db_instance * registry_state :=
  let company_config := get_company_config settings organization_id in
  let vector_db_name :=
    default (DEFAULT_VECTOR_DB settings) (vector_db company_config) in
  let shared_vector_db :=
    default (SHARED_VECTOR_DB settings) (shared_vector_db company_config) in
  let cache_key :=
    if shared_vector_db then "shared:" +:+ vector_db_name
    else organization_id +:+ ":" +:+ vector_db_name in
  match _VECTOR_DB_INSTANCES st !! cache_key with
  | Some cached => (Ret cached, st)
  | None =>
      let '(vector_db_name, st) :=
        match _VECTOR_DB_REGISTRY st !! vector_db_name with
        | None =>
            (DEFAULT_VECTOR_DB settings,
             log_event st
               (ERROR, "Vector database not found: " +:+ vector_db_name))
        | Some _ => (vector_db_name, st)
        end in
      match _VECTOR_DB_REGISTRY st !! vector_db_name with
      | None => (Raise KeyError, st)
      | Some cls =>
          match init_raises cls organization_id company_config
                  shared_vector_db with
          | Some e => (Raise e, st)
          | None =>
              let vector_db_instance :=
                {| instance_id := next_object st;
                   instance_class := cls;
                   organization_id := organization_id;
                   shared := shared_vector_db |} in
              (Ret vector_db_instance,
               log_event
                 {| _VECTOR_DB_REGISTRY := _VECTOR_DB_REGISTRY st;
                    _VECTOR_DB_INSTANCES :=
                      <[cache_key := vector_db_instance]>
                        (_VECTOR_DB_INSTANCES st);
                    next_object := S (next_object st);
                    log := log st |}
                 (INFO, "Created vector database instance"))
          end
      end
  end.

Definition clear_vector_db_cache (st : registry_state) : registry_state :=
  log_event
    {| _VECTOR_DB_REGISTRY := _VECTOR_DB_REGISTRY st;
       _VECTOR_DB_INSTANCES := ∅;
       next_object := next_object st;
       log := log st |}
    (INFO, "Cleared vector database cache").

Inductive call : Type :=
| Resolve (organization_id : string)
| Register (name : string) (cls : vector_db_class).

Definition run_call (settings : Settings) (c : call) (st : registry_state)
  : registry_state :=
  match c with
  | Resolve organization_id => snd (get_vector_db settings organization_id st)
  | Register name cls => register_vector_db name cls st
  end.

Definition run_calls (settings : Settings) (cs : list call)
    (st : registry_state) : registry_state :=
  foldl (fun st c => run_call settings c st) st cs.

Definition allocated_below (st : registry_state) : Prop :=
  forall key inst,
    _VECTOR_DB_INSTANCES st !! key = Some inst -> instance_id inst < next_object st.

(** The class a call instantiates when nothing is cached under the key, and
    whether its constructor returns, as for the LLM registry. *)
Definition resolved_class (settings : Settings) (organization_id : string)
    (st : registry_state) : option vector_db_class :=
  let company_config := get_company_config settings organization_id in
  let vector_db_name :=
    default (DEFAULT_VECTOR_DB settings) (vector_db company_config) in
  match _VECTOR_DB_REGISTRY st !! vector_db_name with
  | Some cls => Some cls
  | None => _VECTOR_DB_REGISTRY st !! DEFAULT_VECTOR_DB settings
  end.

Definition constructible (settings : Settings) (organization_id : string)
    (st : registry_state) : bool :=
  let company_config := get_company_config settings organization_id in
  match resolved_class settings organization_id st with
  | Some cls =>
      match init_raises cls organization_id company_config
              (default (SHARED_VECTOR_DB settings)
                 (shared_vector_db company_config)) with
      | None => true
      | Some _ => false
      end
  | None => false
  end.

(** A backend class whose constructor reaches its server. *)
Definition reachable_backend (name : string) : vector_db_class :=
  {| class_name := name; init_raises := fun _ _ _ => None |}.

Definition initial_state : registry_state :=
  {| _VECTOR_DB_REGISTRY :=
       {[ "chroma" := reachable_backend "ChromaDBProvider";
          "qdrant" := reachable_backend "QdrantProvider" ]};
     _VECTOR_DB_INSTANCES := ∅;
     next_object := 0;
     log := [] |}.

End VectorDatabases.

(** ** services/vector_databases/chroma.py *)

Module Chroma.

Import VectorDatabases FilterSemantics.

(** A stored text.  The agent manager stores [json.dumps(agent_metadata)] and
    reads it back with [json.loads]; such a text is kept as the object it
    serialises, every other text as a plain string on which [json.loads]
    raises. *)
Inductive text : Type :=
| PlainText (s : string)
| JsonText (obj : gmap string value).

Definition json_dumps (obj : gmap string value) : text := JsonText obj.

Definition json_loads (t : text) : outcome (gmap string value) :=
  match t with
  | JsonText obj => Ret obj
  | PlainText _ => Raise JSONDecodeError
  end.

(** One record of the collection, and the collection in storage order. *)
Record stored : Type := {
  rec_id : string;
  rec_document : text;
  rec_metadata : gmap string value;
  rec_embedding : embedding_vector
}.

Abbreviation collection := (list stored).

(** *** The collection client

    [collection.get], [collection.update] and [collection.delete] belong to
    the ChromaDB client.  [get(ids=...)] returns the records it finds, in
    storage order, and leaves out the ids it does not find (the provider
    relies on this when it tests [if not results["ids"]]), and refuses an
    empty list of ids, which [delete_documents] below answers in its
    [except] branch; [update] writes the document and the embedding it is
    given and merges the metadata it is given into the stored metadata, key
    by key: a stored key that the new dictionary does not name stays.
    [get(where=...)] is read with [FilterSemantics], the entries of the
    dictionary conjoined, which is what the providers' callers write their
    filters for; a client that validates [where] admits one top-level key
    and refuses the two and three keys the agent manager sends. *)

Definition coll_get_ids (c : collection) (ids : list string) : collection :=
  filter (fun r => rec_id r ∈ ids) c.

Definition coll_get_where (c : collection) (where_clause : gmap string value)
    (limit : option nat) : collection :=
  let hits := filter (fun r => filter_matches (rec_metadata r) where_clause = true) c in
  match limit with
  | Some n => take n hits
  | None => hits
  end.

Definition coll_update (c : collection) (id : string)
    (document : option text) (embedding : option embedding_vector)
    (metadata : option (gmap string value)) : collection :=
  (fun r =>
     if bool_decide (rec_id r = id) then
       {| rec_id := rec_id r;
          rec_document := default (rec_document r) document;
          rec_metadata :=
            from_option (dict_update (rec_metadata r)) (rec_metadata r)
              metadata;
          rec_embedding := default (rec_embedding r) embedding |}
     else r) <$> c.

Definition coll_delete (c : collection) (ids : list string) : collection :=
  filter (fun r => rec_id r ∉ ids) c.

(** The metadata that the client's validation lets through on [add] and
    [update]: a dictionary that is not empty and whose values are strings
    or numbers.  The functions above store whatever they are given;
    statements about what is read back name this condition where they
    depend on it. *)
Definition scalar (v : value) : bool :=
  match v with
  | VStr _ | VInt _ => true
  | VNone | VList _ | VDict _ => false
  end.


(** *** The provider methods.  [self] carries [organization_id] and
    [shared]; the collection is passed in and handed back. *)

(** A document as the provider returns it:
    [{"id", "text", "metadata", "embedding"}]. *)
Record doc : Type := {
  doc_id : string;
  doc_text : text;
  doc_metadata : gmap string value;
  doc_embedding : option embedding_vector
}.

(** The loop of [delete_documents] over [enumerate(results["metadatas"])]. *)
Fixpoint filter_owned (self : vector_db_instance) (document_ids : list string)
    (i : nat) (metadatas : list (gmap string value))
    (filtered_ids : list string) : outcome (list string) :=
  match metadatas with
  | [] => Ret filtered_ids
  | metadata :: rest =>
      if value_eqb (dict_get metadata "organization_id")
                   (VStr (organization_id self))
      then
        match document_ids !! i with
        | Some id => filter_owned self document_ids (S i) rest (filtered_ids ++ [id])
        | None => Raise IndexError
        end
      else filter_owned self document_ids (S i) rest filtered_ids
  end.

Definition delete_documents (self : vector_db_instance) (c : collection)
    (document_ids : list string) : bool * collection :=
  if shared self then
    match document_ids with
    | [] => (false, c)
    | _ :: _ =>
        let results := coll_get_ids c document_ids in
        match filter_owned self document_ids 0 (rec_metadata <$> results) [] with
        | Raise _ => (false, c)
        | Ret [] => (true, c)
        | Ret filtered_ids => (true, coll_delete c filtered_ids)
        end
    end
  else (true, coll_delete c document_ids).

Definition update_document (self : vector_db_instance) (c : collection)
    (document_id : string) (text : option text)
    (embedding : option embedding_vector)
    (metadata : option (gmap string value)) : bool * collection :=
  match coll_get_ids c [document_id] with
  | [] => (false, c)
  | current :: _ =>
      let current_metadata := rec_metadata current in
      if shared self &&
         negb (value_eqb (dict_get current_metadata "organization_id")
                         (VStr (organization_id self)))
      then (false, c)
      else
        let metadata :=
          (fun m =>
             if shared self && bool_decide (m !! "organization_id" = None)
             then <["organization_id" := VStr (organization_id self)]> m
             else m) <$> metadata in
        match text, embedding, metadata with
        | None, None, None => (true, c)
        | _, _, _ => (true, coll_update c document_id text embedding metadata)
        end
  end.

Definition get_document (self : vector_db_instance) (c : collection)
    (document_id : string) : option doc :=
  match coll_get_ids c [document_id] with
  | [] => None
  | found :: _ =>
      let metadata := rec_metadata found in
      if shared self &&
         negb (value_eqb (dict_get metadata "organization_id")
                         (VStr (organization_id self)))
      then None
      else Some {| doc_id := rec_id found;
                   doc_text := rec_document found;
                   doc_metadata := rec_metadata found;
                   doc_embedding := Some (rec_embedding found) |}
  end.

Definition with_organization (self : vector_db_instance)
    (filter_dict : gmap string value) : gmap string value :=
  if shared self && bool_decide (filter_dict !! "organization_id" = None)
  then <["organization_id" := VStr (organization_id self)]> filter_dict
  else filter_dict.

Definition listed (r : stored) : doc :=
  {| doc_id := rec_id r;
     doc_text := rec_document r;
     doc_metadata := rec_metadata r;
     doc_embedding := None |}.

Definition list_documents (self : vector_db_instance) (c : collection)
    (filter_dict : gmap string value) (limit offset : nat) : list doc :=
  let where_clause := with_organization self filter_dict in
  let safe_limit := limit + offset in
  let results := coll_get_where c where_clause (Some safe_limit) in
  listed <$> drop offset (take (Nat.min (length results) safe_limit) results).

Definition count_documents (self : vector_db_instance) (c : collection)
    (filter_dict : gmap string value) : nat :=
  let where_clause := with_organization self filter_dict in
  length (coll_get_where c where_clause None).

End Chroma.

(** ** services/agents/manager.py

    The methods of [AgentManager] over the ChromaDB provider above, as they
    run when their log calls go through: the calls on [logger] are left
    out, so a branch that logs and returns is the return alone.
    [ManagerInContext] further down has [get_agent] and [delete_agent] with
    their log calls, over any vector database. *)

Module AgentManager.

Import VectorDatabases Chroma.

Record RAGAgent : Type := {
  _agent_id : string;
  _agent_name : value;
  _agent_description : value;
  _agent_instructions : value;
  _organization_id : string;
  _user_id : string;
  _metadata : value
}.

(** What the manager's methods read and write: the collection behind the
    resolved vector database and [self._agent_cache]. *)
Record world : Type := {
  store : collection;
  _agent_cache : gmap string RAGAgent
}.

Definition reserved_keys : list string :=
  ["agent_id"; "name"; "description"; "instructions";
   "created_at"; "updated_at"; "created_by"; "organization_id"; "type"].

Definition agent_filter (agent_id organization_id : string)
  : gmap string value :=
  {[ "agent_id" := VStr agent_id;
     "organization_id" := VStr organization_id;
     "document_type" := VStr "agent_metadata" ]}.

Definition associated_docs_filter (agent_id organization_id : string)
  : gmap string value :=
  {[ "associated_agents" := VStr agent_id;
     "organization_id" := VStr organization_id ]}.

Definition get_agent (vector_db : vector_db_instance) (c : collection)
    (agent_id organization_id user_id : string)
  : outcome (option (gmap string value)) :=
  let filter_dict := agent_filter agent_id organization_id in
  match list_documents vector_db c filter_dict 1 0 with
  | [] => Ret None
  | agent_doc :: _ =>
      match json_loads (doc_text agent_doc) with
      | Raise e => Raise e
      | Ret agent_metadata =>
          let document_count :=
            count_documents vector_db c
              (associated_docs_filter agent_id organization_id) in
          let response : gmap string value :=
            {[ "id" := VStr agent_id;
               "name" := dict_get_or agent_metadata "name" (VStr "Unnamed Agent");
               "description" := dict_get agent_metadata "description";
               "instructions" := dict_get_or agent_metadata "instructions" (VStr "");
               "created_at" := dict_get agent_metadata "created_at";
               "updated_at" := dict_get agent_metadata "updated_at";
               "metadata" :=
                 VDict (map_to_list
                          (filter (fun kv => kv.1 ∉ reserved_keys) agent_metadata));
               "document_count" := VInt (Z.of_nat document_count) ]} in
          Ret (Some response)
      end
  end.

(** [x in container] for a string [x]. *)
Definition py_contains (container : value) (x : string) : outcome bool :=
  match container with
  | VList items => Ret (existsb (fun y => value_eqb y (VStr x)) items)
  | VStr s => Ret (bool_decide (is_Some (String.index 0 x s)))
  | VDict kvs => Ret (existsb (fun kv => String.eqb (fst kv) x) kvs)
  | VNone | VInt _ => Raise TypeError
  end.

(** [items.remove(x)]: drops the first element equal to [x]. *)
Fixpoint list_remove (items : list value) (x : string) : list value :=
  match items with
  | [] => []
  | y :: rest => if value_eqb y (VStr x) then rest else y :: list_remove rest x
  end.

(** The body of the loop that removes the agent from one associated
    document (the same text in [delete_agent] and [update_agent]). *)
Definition dissociate (vector_db : vector_db_instance) (agent_id : string)
    (c : collection) (d : doc) : outcome collection :=
  let doc_id := doc_id d in
  let metadata := doc_metadata d in
  match metadata !! "associated_agents" with
  | None => Ret c
  | Some container =>
      match py_contains container agent_id with
      | Raise e => Raise e
      | Ret false => Ret c
      | Ret true =>
          match container with
          | VList agents =>
              let metadata :=
                match list_remove agents agent_id with
                | [] => delete "associated_agents" metadata
                | remaining => <["associated_agents" := VList remaining]> metadata
                end in
              Ret (snd (update_document vector_db c doc_id None None
                          (Some metadata)))
          | _ => Raise AttributeError
          end
      end
  end.

Fixpoint dissociate_all (vector_db : vector_db_instance) (agent_id : string)
    (docs : list doc) (c : collection) : outcome unit * collection :=
  match docs with
  | [] => (Ret tt, c)
  | d :: rest =>
      match dissociate vector_db agent_id c d with
      | Raise e => (Raise e, c)
      | Ret c' => dissociate_all vector_db agent_id rest c'
      end
  end.

(** [if agent_id in self._agent_cache: del self._agent_cache[agent_id]] *)
Definition drop_cached (agent_id : string) (cache : gmap string RAGAgent)
  : gmap string RAGAgent :=
  match cache !! agent_id with
  | Some _ => delete agent_id cache
  | None => cache
  end.

Definition delete_agent (vector_db : vector_db_instance) (w : world)
    (agent_id organization_id user_id : string) : bool * world :=
  let c := store w in
  let filter_dict := agent_filter agent_id organization_id in
  match list_documents vector_db c filter_dict 1 0 with
  | [] => (false, w)
  | agent_doc :: _ =>
      match json_loads (doc_text agent_doc) with
      | Raise _ => (false, w)
      | Ret agent_metadata =>
          let created_by := dict_get agent_metadata "created_by" in
          if negb (value_eqb created_by (VStr user_id)) then (false, w)
          else
            let agent_doc_id := doc_id agent_doc in
            let '(success, c) := delete_documents vector_db c [agent_doc_id] in
            if negb success then
              (false, {| store := c; _agent_cache := _agent_cache w |})
            else
              let associated_docs :=
                list_documents vector_db c
                  (associated_docs_filter agent_id organization_id) 1000 0 in
              match dissociate_all vector_db agent_id associated_docs c with
              | (Raise _, c) =>
                  (false, {| store := c; _agent_cache := _agent_cache w |})
              | (Ret _, c) =>
                  (true, {| store := c;
                            _agent_cache := drop_cached agent_id (_agent_cache w) |})
              end
      end
  end.

(** The body of the loop that associates one document id with the agent. *)
Definition associate (vector_db : vector_db_instance)
    (agent_id organization_id : string) (c : collection) (doc_id : string)
  : outcome collection :=
  match get_document vector_db c doc_id with
  | None => Ret c
  | Some d =>
      let doc_org_id := dict_get (doc_metadata d) "organization_id" in
      if negb (value_eqb doc_org_id (VStr organization_id)) then Ret c
      else
        let updated_metadata := doc_metadata d in
        match updated_metadata !! "associated_agents" with
        | None =>
            Ret (snd (update_document vector_db c doc_id None None
                        (Some (<["associated_agents" := VList [VStr agent_id]]>
                                 updated_metadata))))
        | Some container =>
            match py_contains container agent_id with
            | Raise e => Raise e
            | Ret true =>
                Ret (snd (update_document vector_db c doc_id None None
                            (Some updated_metadata)))
            | Ret false =>
                match container with
                | VList agents =>
                    Ret (snd (update_document vector_db c doc_id None None
                                (Some (<["associated_agents" :=
                                           VList (agents ++ [VStr agent_id])]>
                                         updated_metadata))))
                | _ => Raise AttributeError
                end
            end
        end
  end.

Fixpoint associate_all (vector_db : vector_db_instance)
    (agent_id organization_id : string) (document_ids : list string)
    (c : collection) : outcome unit * collection :=
  match document_ids with
  | [] => (Ret tt, c)
  | doc_id :: rest =>
      match associate vector_db agent_id organization_id c doc_id with
      | Raise e => (Raise e, c)
      | Ret c' => associate_all vector_db agent_id organization_id rest c'
      end
  end.

(** The field updates of [update_agent]: the new [agent_metadata] and the
    [updated] flag. *)
Definition set_field (key : string) (new : option value)
    (acc : gmap string value * bool) : gmap string value * bool :=
  match new with
  | Some v => (<[key := v]> acc.1, true)
  | None => acc
  end.

Definition merge_custom (metadata : option (gmap string value))
    (acc : gmap string value * bool) : gmap string value * bool :=
  match metadata with
  | None => acc
  | Some m =>
      map_fold (fun key value acc =>
                  if bool_decide (key ∉ reserved_keys)
                  then (<[key := value]> acc.1, true) else acc)
               acc m
  end.

(** [now] is [datetime.utcnow().isoformat()]. *)
Definition update_agent (now : string) (vector_db : vector_db_instance)
    (w : world) (agent_id organization_id user_id : string)
    (name instructions description : option string)
    (document_ids : option (list string)) (document_filter : option value)
    (metadata : option (gmap string value))
  : option (gmap string value) * world :=
  let c := store w in
  let cache := _agent_cache w in
  let filter_dict := agent_filter agent_id organization_id in
  match list_documents vector_db c filter_dict 1 0 with
  | [] => (None, w)
  | agent_doc :: _ =>
      match json_loads (doc_text agent_doc) with
      | Raise _ => (None, w)
      | Ret agent_metadata =>
          let created_by := dict_get agent_metadata "created_by" in
          if negb (value_eqb created_by (VStr user_id)) then (None, w)
          else
            let '(agent_metadata, updated) :=
              merge_custom metadata
                (set_field "document_filter" document_filter
                   (set_field "description" (VStr <$> description)
                      (set_field "instructions" (VStr <$> instructions)
                         (set_field "name" (VStr <$> name)
                            (agent_metadata, false))))) in
            let c :=
              if updated then
                let agent_metadata := <["updated_at" := VStr now]> agent_metadata in
                snd (update_document vector_db c (doc_id agent_doc)
                       (Some (json_dumps agent_metadata)) None None)
              else c in
            let '(associations, c) :=
              match document_ids with
              | None => (Ret tt, c)
              | Some document_ids =>
                  let current_docs :=
                    list_documents vector_db c
                      (associated_docs_filter agent_id organization_id) 1000 0 in
                  match dissociate_all vector_db agent_id current_docs c with
                  | (Raise e, c) => (Raise e, c)
                  | (Ret _, c) =>
                      associate_all vector_db agent_id organization_id
                        document_ids c
                  end
              end in
            match associations with
            | Raise _ => (None, {| store := c; _agent_cache := cache |})
            | Ret _ =>
                let cache := drop_cached agent_id cache in
                let w := {| store := c; _agent_cache := cache |} in
                match get_agent vector_db c agent_id organization_id user_id with
                | Raise _ => (None, w)
                | Ret info => (info, w)
                end
            end
      end
  end.

Definition _get_agent_instance (vector_db : vector_db_instance) (w : world)
    (agent_id organization_id user_id : string)
  : outcome (option RAGAgent) * world :=
  let cache_key := organization_id +:+ ":" +:+ agent_id in
  match _agent_cache w !! cache_key with
  | Some cached => (Ret (Some cached), w)
  | None =>
      match get_agent vector_db (store w) agent_id organization_id user_id with
      | Raise e => (Raise e, w)
      | Ret None => (Ret None, w)
      | Ret (Some agent_info) =>
          let agent :=
            {| _agent_id := agent_id;
               _agent_name := dict_get agent_info "name";
               _agent_description := dict_get agent_info "description";
               _agent_instructions := dict_get agent_info "instructions";
               _organization_id := organization_id;
               _user_id := user_id;
               _metadata := dict_get agent_info "metadata" |} in
          (Ret (Some agent),
           {| store := store w;
              _agent_cache := <[cache_key := agent]> (_agent_cache w) |})
      end
  end.

(** *** Notions used to state what the manager achieves *)

(** The document lists the agent: this is the test the filter
    [{"associated_agents": agent_id}] performs. *)
Definition lists_agent (agent_id : string) (metadata : gmap string value)
  : bool :=
  FilterSemantics.field_matches (metadata !! "associated_agents") (VStr agent_id).

(** The record is a metadata document of the agent. *)
Definition is_agent_document (agent_id organization_id : string) (r : stored)
  : bool :=
  FilterSemantics.filter_matches (rec_metadata r)
    (agent_filter agent_id organization_id).

End AgentManager.

(** ** Concrete data used by the examples below *)

Module Examples.

Import Config VectorDatabases Chroma AgentManager.

Definition meta_of (organization_id user_id visibility : string)
  : gmap string value :=
  {[ "organization_id" := VStr organization_id;
     "user_id" := VStr user_id;
     "visibility" := VStr visibility ]}.

(** A private document of alice in org1. *)
Definition alice_private : gmap string value := meta_of "org1" "alice" "private".

(** A public document of carol in org2. *)
Definition carol_public : gmap string value := meta_of "org2" "carol" "public".

(** An extra filter that names the disjunction key. *)
Definition or_override : gmap string value :=
  {[ "$or" := VList [VDict [("visibility", VStr "private")]] ]}.

(** A backend that answers every batch in reverse order; the embedding of
    a text is its length. *)
Definition reversing_backend (batch_texts : list string)
  : outcome (list (OpenAI.embedding_item nat)) :=
  Ret (reverse (OpenAI.numbered_from 0 (String.length <$> batch_texts))).

(** [str] on the values the examples format. *)
Definition show_value (v : value) : string :=
  match v with
  | VStr s => s
  | VInt n => pretty n
  | _ => ""
  end.

(** Providers for the generator: the embedding of any text is the zero
    vector, the search finds nothing, and the completion is empty or a fixed
    sentence. *)
Definition zero_embeddings (texts : list string)
  : outcome (list embedding_vector) :=
  Ret ((fun _ => [0%Q]) <$> texts).

Definition empty_search (query_embedding : embedding_vector)
    (filter_dict : gmap string value) (limit : nat)
  : outcome (list Retriever.document) :=
  Ret [].

Definition silent_llm (prompt system_message : string) (temperature : Q)
    (max_tokens : option Z) : outcome string :=
  Ret "".

Definition echo_llm (prompt system_message : string) (temperature : Q)
    (max_tokens : option Z) : outcome string :=
  Ret ("[" +:+ system_message +:+ "] " +:+ prompt).

(** The shared ChromaDB object as org1 resolves it first. *)
Definition org1_db : vector_db_instance :=
  {| instance_id := 0;
     instance_class := reachable_backend "ChromaDBProvider";
     organization_id := "org1";
     shared := true |}.

Definition plain_record (id body organization_id user_id : string) : stored :=
  {| rec_id := id;
     rec_document := PlainText body;
     rec_metadata := meta_of organization_id user_id "shared";
     rec_embedding := [] |}.

(** A shared collection holding a document of org2 and one of org1. *)
Definition doc_b : stored := plain_record "doc-b" "budget of org2" "org2" "carol".
Definition doc_a : stored := plain_record "doc-a" "notes of org1" "org1" "alice".
Definition two_tenants : list stored := [doc_b; doc_a].

(** The metadata document of agent-1, created by alice in org1. *)
Definition agent_1_document : stored :=
  {| rec_id := "agent-doc";
     rec_document :=
       JsonText {[ "agent_id" := VStr "agent-1";
                   "name" := VStr "Helper";
                   "description" := VNone;
                   "instructions" := VStr "Answer from the handbook.";
                   "created_by" := VStr "alice";
                   "created_at" := VStr "2025-01-01T00:00:00";
                   "organization_id" := VStr "org1";
                   "type" := VStr "rag_agent" ]};
     rec_metadata :=
       {[ "agent_id" := VStr "agent-1";
          "organization_id" := VStr "org1";
          "user_id" := VStr "alice";
          "visibility" := VStr "private";
          "document_type" := VStr "agent_metadata" ]};
     rec_embedding := [] |}.

(** A document of org1 associated with the listed agents. *)
Definition associated_record (id : string) (agents : list string) : stored :=
  {| rec_id := id;
     rec_document := PlainText "handbook";
     rec_metadata :=
       <["associated_agents" := VList (VStr <$> agents)]>
         (meta_of "org1" "alice" "shared");
     rec_embedding := [] |}.

Definition handbook : list stored :=
  [agent_1_document;
   associated_record "doc-1" ["agent-1"];
   associated_record "doc-2" ["agent-2"; "agent-1"]].

(** The manager after alice has chatted with agent-1 once: the instance is
    cached. *)
Definition fresh_manager : world :=
  {| store := handbook; _agent_cache := ∅ |}.

Definition chatted : world :=
  snd (_get_agent_instance org1_db fresh_manager "agent-1" "org1" "alice").

(** A caller filter that names the three security keys and one other key. *)
Definition hostile_filter : gmap string value :=
  {[ "organization_id" := VStr "org2";
     "user_id" := VStr "alice";
     "$or" := VList [];
     "topic" := VStr "tax" ]}.

(** Settings with an API key, under which org1 names an LLM provider and a
    vector database that nobody registered. *)
Definition tenant_settings : Settings :=
  {| DEFAULT_LLM_PROVIDER := "openai";
     DEFAULT_VECTOR_DB := "chroma";
     SHARED_VECTOR_DB := true;
     OPENAI_API_KEY := Some "sk-test";
     OPENAI_DEFAULT_MODEL := "gpt-3.5-turbo";
     OLLAMA_DEFAULT_MODEL := "llama3";
     COMPANY_CONFIGS :=
       {[ "org1" := {| llm_provider := Some "mistral";
                       vector_db := Some "pinecone";
                       shared_vector_db := None;
                       provider_options := ∅ |} ]} |}.

(** The same tenant configuration without an API key. *)
Definition keyless_settings : Settings :=
  {| DEFAULT_LLM_PROVIDER := "openai";
     DEFAULT_VECTOR_DB := "chroma";
     SHARED_VECTOR_DB := true;
     OPENAI_API_KEY := None;
     OPENAI_DEFAULT_MODEL := "gpt-3.5-turbo";
     OLLAMA_DEFAULT_MODEL := "llama3";
     COMPANY_CONFIGS := COMPANY_CONFIGS tenant_settings |}.

End Examples.

(** ** services/agents/manager.py: [get_agent] and [delete_agent] with their
    log calls, over any vector database

    [vector_db] is the object [get_vector_db(organization_id)] returned; the
    manager reaches it through the methods of [BaseVectorDatabase] only.
    [S] is the state that object keeps, and each method runs under the
    logging state in force at the call, since a provider's own log calls are
    made inside the manager's [LoggingContext]. *)

Module ManagerInContext.

Import Config Chroma.

Section Manager.

Variable S : Type.

Variable vdb_list_documents :
  Logging.state -> S -> gmap string value -> nat -> nat -> outcome (list doc).

Variable vdb_count_documents :
  Logging.state -> S -> gmap string value -> outcome nat.

Variable vdb_delete_documents :
  Logging.state -> S -> list string -> outcome bool * S.

Variable vdb_update_document :
  Logging.state -> S -> string -> option text -> option embedding_vector ->
  option (gmap string value) -> outcome bool * S.

(** What the manager's methods read and write: the state behind the
    vector database and [self._agent_cache]. *)
Record world : Type := {
  store : S;
  _agent_cache : gmap string AgentManager.RAGAgent
}.

(** The dictionary [get_agent] returns for the agent it found. *)
Definition response (agent_id : string) (agent_metadata : gmap string value)
    (document_count : nat) : gmap string value :=
  {[ "id" := VStr agent_id;
     "name" := dict_get_or agent_metadata "name" (VStr "Unnamed Agent");
     "description" := dict_get agent_metadata "description";
     "instructions" := dict_get_or agent_metadata "instructions" (VStr "");
     "created_at" := dict_get agent_metadata "created_at";
     "updated_at" := dict_get agent_metadata "updated_at";
     "metadata" :=
       VDict (map_to_list
                (filter (fun kv => kv.1 ∉ AgentManager.reserved_keys)
                   agent_metadata));
     "document_count" := VInt (Z.of_nat document_count) ]}.

Definition get_agent (logging : Logging.state) (s : S)
    (agent_id organization_id user_id : string)
  : outcome (option (gmap string value)) :=
  let logging := Logging.LoggingContext organization_id user_id logging in
  Logging.except_log_raise logging ["agent_id"; "organization_id"; "user_id"]
    (let filter_dict := AgentManager.agent_filter agent_id organization_id in
     match vdb_list_documents logging s filter_dict 1 0 with
     | Raise e => Raise e
     | Ret [] =>
         Logging.log_then_return logging WARNING
           ["agent_id"; "organization_id"; "user_id"] None
     | Ret (agent_doc :: _) =>
         match json_loads (doc_text agent_doc) with
         | Raise e => Raise e
         | Ret agent_metadata =>
             match vdb_count_documents logging s
                     (AgentManager.associated_docs_filter agent_id
                        organization_id) with
             | Raise e => Raise e
             | Ret document_count =>
                 Ret (Some (response agent_id agent_metadata document_count))
             end
         end
     end).

(** The body of the loop that removes the agent from one associated
    document.  The result of [update_document] is not looked at. *)
Definition dissociate (logging : Logging.state) (agent_id : string) (s : S)
    (d : doc) : outcome unit * S :=
  let doc_id := doc_id d in
  let metadata := doc_metadata d in
  match metadata !! "associated_agents" with
  | None => (Ret tt, s)
  | Some container =>
      match AgentManager.py_contains container agent_id with
      | Raise e => (Raise e, s)
      | Ret false => (Ret tt, s)
      | Ret true =>
          match container with
          | VList agents =>
              let metadata :=
                match AgentManager.list_remove agents agent_id with
                | [] => delete "associated_agents" metadata
                | remaining =>
                    <["associated_agents" := VList remaining]> metadata
                end in
              match vdb_update_document logging s doc_id None None
                      (Some metadata) with
              | (Raise e, s) => (Raise e, s)
              | (Ret _, s) => (Ret tt, s)
              end
          | _ => (Raise AttributeError, s)
          end
      end
  end.

Fixpoint dissociate_all (logging : Logging.state) (agent_id : string)
    (docs : list doc) (s : S) : outcome unit * S :=
  match docs with
  | [] => (Ret tt, s)
  | d :: rest =>
      match dissociate logging agent_id s d with
      | (Raise e, s) => (Raise e, s)
      | (Ret _, s) => dissociate_all logging agent_id rest s
      end
  end.

Definition delete_agent (logging : Logging.state) (w : world)
    (agent_id organization_id user_id : string) : outcome bool * world :=
  let logging := Logging.LoggingContext organization_id user_id logging in
  let kept (s : S) := {| store := s; _agent_cache := _agent_cache w |} in
  let '(attempt, w') :=
    let filter_dict := AgentManager.agent_filter agent_id organization_id in
    match vdb_list_documents logging (store w) filter_dict 1 0 with
    | Raise e => (Raise e, w)
    | Ret [] =>
        (Logging.log_then_return logging WARNING
           ["agent_id"; "organization_id"; "user_id"] false, w)
    | Ret (agent_doc :: _) =>
        match json_loads (doc_text agent_doc) with
        | Raise e => (Raise e, w)
        | Ret agent_metadata =>
            let created_by := dict_get agent_metadata "created_by" in
            if negb (value_eqb created_by (VStr user_id)) then
              (Logging.log_then_return logging WARNING
                 ["agent_id"; "organization_id"; "user_id"; "created_by"]
                 false, w)
            else
              let agent_doc_id := doc_id agent_doc in
              match vdb_delete_documents logging (store w) [agent_doc_id] with
              | (Raise e, s) => (Raise e, kept s)
              | (Ret false, s) =>
                  (Logging.log_then_return logging ERROR
                     ["agent_id"; "document_id"; "organization_id"] false,
                   kept s)
              | (Ret true, s) =>
                  match vdb_list_documents logging s
                          (AgentManager.associated_docs_filter agent_id
                             organization_id) 1000 0 with
                  | Raise e => (Raise e, kept s)
                  | Ret associated_docs =>
                      match dissociate_all logging agent_id associated_docs s
                      with
                      | (Raise e, s) => (Raise e, kept s)
                      | (Ret _, s) =>
                          (Logging.log_then_return logging INFO
                             ["agent_id"; "organization_id"; "user_id";
                              "associated_docs_updated"] true,
                           {| store := s;
                              _agent_cache :=
                                AgentManager.drop_cached agent_id
                                  (_agent_cache w) |})
                      end
                  end
              end
        end
    end in
  (Logging.except_log_return logging
     ["agent_id"; "organization_id"; "user_id"] false attempt, w').

End Manager.

Arguments store {S} _.
Arguments _agent_cache {S} _.

End ManagerInContext.

(** ** A vector database held in memory

    A provider as [register_vector_db] accepts it, written out for the
    examples.  It keeps its records in a list in storage order.  Its
    [list_documents] and [count_documents] honour every entry of the filter,
    as the [must] conditions of [QdrantProvider] do; its [update_document]
    merges the metadata it is given into the stored metadata, as
    [set_payload] of [QdrantProvider] and [collection.update] of
    [ChromaDBProvider] do; it writes no log. *)

Module MemoryProvider.

Import FilterSemantics Chroma.

Definition list_documents (logging : Logging.state) (c : collection)
    (filter_dict : gmap string value) (limit offset : nat)
  : outcome (list doc) :=
  Ret (listed <$>
         take limit
           (drop offset
              (filter (fun r => filter_matches (rec_metadata r) filter_dict
                                = true) c))).

Definition count_documents (logging : Logging.state) (c : collection)
    (filter_dict : gmap string value) : outcome nat :=
  Ret (length
         (filter (fun r => filter_matches (rec_metadata r) filter_dict = true)
            c)).

Definition delete_documents (logging : Logging.state) (c : collection)
    (document_ids : list string) : outcome bool * collection :=
  (Ret true, coll_delete c document_ids).

Definition update_document (logging : Logging.state) (c : collection)
    (document_id : string) (text : option text)
    (embedding : option embedding_vector)
    (metadata : option (gmap string value)) : outcome bool * collection :=
  (Ret true, coll_update c document_id text embedding metadata).

(** The agent manager over this provider. *)
Definition get_agent :=
  ManagerInContext.get_agent collection list_documents count_documents.

Definition delete_agent :=
  ManagerInContext.delete_agent collection list_documents delete_documents
    update_document.

End MemoryProvider.

(** ** utils/filtering.py: [sanitize_metadata_for_storage] *)

Module Sanitizing.

Import Filtering Config.

(** [value in [v.value for v in Visibility]] *)
Definition is_visibility_level (v : value) : bool :=
  existsb (fun level => value_eqb v (VStr level)) [PRIVATE; SHARED; PUBLIC].

(** [now] is [int(time.time())].  The result is the sanitized dictionary and
    the warnings the function logs. *)
Definition sanitize_metadata_for_storage (now : Z)
    (metadata : gmap string value) (organization_id user_id : string)
  : gmap string value * list log_record :=
  let sanitized := metadata in
  let sanitized := <["organization_id" := VStr organization_id]> sanitized in
  let sanitized := <["user_id" := VStr user_id]> sanitized in
  let '(sanitized, warnings) :=
    match sanitized !! "visibility" with
    | None => (<["visibility" := VStr PRIVATE]> sanitized, [])
    | Some v =>
        if negb (is_visibility_level v)
        then (<["visibility" := VStr PRIVATE]> sanitized,
              [(WARNING, "Invalid visibility value, defaulting to private")])
        else (sanitized, [])
    end in
  let sanitized :=
    match sanitized !! "timestamp" with
    | None => <["timestamp" := VInt now]> sanitized
    | Some _ => sanitized
    end in
  (sanitized, warnings).

End Sanitizing.

(** ** services/vector_databases/chroma.py: [add_documents] *)

Module ChromaAdd.

Import VectorDatabases Chroma.

(** [collection.add] of the ChromaDB client: one record per id, appended in
    the order given.  The client refuses lists of different lengths, and an
    id that is already stored keeps the record it has. *)
Fixpoint coll_add (c : collection) (ids : list string) (documents : list text)
    (embeddings : list embedding_vector) (metadatas : list (gmap string value))
  : outcome collection :=
  match ids, documents, embeddings, metadatas with
  | [], [], [], [] => Ret c
  | id :: ids, document :: documents, embedding :: embeddings,
    metadata :: metadatas =>
      let c :=
        if bool_decide (id ∈ rec_id <$> c) then c
        else c ++ [{| rec_id := id;
                      rec_document := document;
                      rec_metadata := metadata;
                      rec_embedding := embedding |}] in
      coll_add c ids documents embeddings metadatas
  | _, _, _, _ => Raise ValueError
  end.

(** [ids] is [kwargs["ids"]] when the caller passes it and the list of
    [str(uuid.uuid4())], one per text, otherwise. *)
Definition add_documents (self : vector_db_instance) (c : collection)
    (ids : list string) (texts : list text)
    (embeddings : list embedding_vector) (metadata : list (gmap string value))
  : outcome (list string * collection) :=
  let metadata :=
    if shared self
    then (fun meta => <["organization_id" := VStr (organization_id self)]> meta)
           <$> metadata
    else metadata in
  match coll_add c ids texts embeddings metadata with
  | Raise e => Raise e
  | Ret c => Ret (ids, c)
  end.

End ChromaAdd.

(** ** services/vector_databases/chroma.py: the methods the retriever calls,
    with their log calls

    [store_document] and [delete_document] call the provider inside their
    [LoggingContext]; [logging] is the logging state in force at the call.
    The bodies are those of [Chroma] and [ChromaAdd]; what is added is the
    warning of [get_document] and the handlers. *)

Module ChromaInContext.

Import Config VectorDatabases Chroma.

Section Context.

Variable logging : Logging.state.

Definition add_documents (self : vector_db_instance) (c : collection)
    (ids : list string) (texts : list text)
    (embeddings : list embedding_vector) (metadata : list (gmap string value))
  : outcome (list string * collection) :=
  Logging.except_log_raise logging
    ["collection"; "organization_id"; "document_count"]
    (ChromaAdd.add_documents self c ids texts embeddings metadata).

Definition get_document (self : vector_db_instance) (c : collection)
    (document_id : string) : outcome (option doc) :=
  Logging.except_log_return logging
    ["collection"; "document_id"; "organization_id"] None
    (match coll_get_ids c [document_id] with
     | [] => Ret None
     | found :: _ =>
         let metadata := rec_metadata found in
         if shared self &&
            negb (value_eqb (dict_get metadata "organization_id")
                            (VStr (organization_id self)))
         then
           Logging.log_then_return logging WARNING
             ["collection"; "document_id"; "organization_id"; "owner_org_id"]
             None
         else Ret (Some {| doc_id := rec_id found;
                           doc_text := rec_document found;
                           doc_metadata := rec_metadata found;
                           doc_embedding := Some (rec_embedding found) |})
     end).

Definition delete_documents (self : vector_db_instance) (c : collection)
    (document_ids : list string) : outcome bool * collection :=
  let handled :=
    Logging.log_then_return logging ERROR
      ["collection"; "organization_id"; "document_count"] false in
  if shared self then
    match document_ids with
    | [] => (handled, c)
    | _ :: _ =>
        let results := coll_get_ids c document_ids in
        match filter_owned self document_ids 0 (rec_metadata <$> results) [] with
        | Raise _ => (handled, c)
        | Ret [] => (Ret true, c)
        | Ret filtered_ids => (Ret true, coll_delete c filtered_ids)
        end
    end
  else (Ret true, coll_delete c document_ids).

End Context.

End ChromaInContext.

(** ** services/rag/retriever.py: [store_document] and [delete_document] *)

Module RetrieverStore.

Import Config VectorDatabases Chroma.

Section Store.

Variable llm_get_embeddings : list string -> outcome (list embedding_vector).

(** [py_str] reads a stored text as the string handed to the embedding
    model; [vector_db] is what [get_vector_db(organization_id)] returned and
    [new_id] the uuid that [add_documents] draws.  The collection is handed
    back also when the call raises: the record is stored before the last
    log call is made. *)
Variable py_str : text -> string.

Definition store_document (logging : Logging.state)
    (vector_db : vector_db_instance) (c : collection)
    (new_id : string) (text : text) (metadata : gmap string value)
    (organization_id user_id : string) : outcome string * collection :=
  let logging := Logging.LoggingContext organization_id user_id logging in
  let '(attempt, c') :=
    match llm_get_embeddings [py_str text] with
    | Raise e => (Raise e, c)
    | Ret [] => (Raise IndexError, c)
    | Ret (embedding :: _) =>
        let metadata := <["organization_id" := VStr organization_id]> metadata in
        let metadata := <["user_id" := VStr user_id]> metadata in
        match ChromaInContext.add_documents logging vector_db c [new_id]
                [text] [embedding] [metadata] with
        | Raise e => (Raise e, c)
        | Ret ([], c') => (Raise IndexError, c')
        | Ret (doc_id :: _, c') =>
            (Logging.log_then_return logging INFO
               ["document_id"; "organization_id"; "user_id"; "text_length"]
               doc_id, c')
        end
    end in
  (Logging.except_log_raise logging
     ["organization_id"; "user_id"; "text_length"] attempt, c').

End Store.

(** [is_admin] is the constant [False] in the source. *)
Definition delete_document (logging : Logging.state)
    (vector_db : vector_db_instance) (c : collection)
    (document_id organization_id user_id : string)
  : outcome bool * collection :=
  let logging := Logging.LoggingContext organization_id user_id logging in
  let '(attempt, c') :=
    match ChromaInContext.get_document logging vector_db c document_id with
    | Raise e => (Raise e, c)
    | Ret None =>
        (Logging.log_then_return logging WARNING
           ["document_id"; "organization_id"; "user_id"] false, c)
    | Ret (Some document) =>
        let doc_org_id := dict_get (doc_metadata document) "organization_id" in
        let doc_user_id := dict_get (doc_metadata document) "user_id" in
        if negb (value_eqb doc_org_id (VStr organization_id)) then
          (Logging.log_then_return logging WARNING
             ["document_id"; "organization_id"; "user_id"; "document_org_id"]
             false, c)
        else if negb (value_eqb doc_user_id (VStr user_id)) then
          (Logging.log_then_return logging WARNING
             ["document_id"; "organization_id"; "user_id"; "document_user_id"]
             false, c)
        else
          match ChromaInContext.delete_documents logging vector_db c
                  [document_id] with
          | (Raise e, c') => (Raise e, c')
          | (Ret true, c') =>
              (Logging.log_then_return logging INFO
                 ["document_id"; "organization_id"; "user_id"] true, c')
          | (Ret false, c') => (Ret false, c')
          end
    end in
  (Logging.except_log_return logging
     ["document_id"; "organization_id"; "user_id"] false attempt, c').

End RetrieverStore.

(** ** Further sample data *)

Module Scenarios.

Import FilterSemantics Retriever.

(** A search backend over a fixed list of hits that honours the filter and
    the limit it is given. *)
Definition filtering_search (hits : list document)
    (query_embedding : embedding_vector) (filter_dict : gmap string value)
    (limit : nat) : outcome (list document) :=
  Ret (take limit
         (filter (fun d => filter_matches (doc_metadata d) filter_dict = true)
            hits)).

Definition hit (id visibility organization_id user_id : string) : document :=
  {| doc_id := id;
     doc_text := id;
     doc_metadata := Examples.meta_of organization_id user_id visibility;
     doc_score := 1 |}.

Definition corpus : list document :=
  [hit "a" "private" "org1" "alice";
   hit "b" "shared" "org1" "alice";
   hit "c" "public" "org2" "carol";
   hit "d" "private" "org1" "bob";
   hit "e" "public" "org1" "alice"].

End Scenarios.

(** ** services/agents/personalization.py: [RAGAgent.retrieve_relevant_docs] *)

Module Personalization.

Import Filtering Retriever AgentManager.

(** [metadata or {}] of [RAGAgent.__init__]. *)
Definition metadata_or_empty (metadata : value) : value :=
  if LLMProviders.value_truthy metadata then metadata else VDict [].

(** [d[key]] and [d[key] = v] on a dictionary kept as an association
    list. *)
Definition assoc_get (key : string) (kvs : list (string * value))
  : option value :=
  snd <$> find (fun kv => String.eqb (fst kv) key) kvs.

Fixpoint assoc_set (key : string) (v : value) (kvs : list (string * value))
  : list (string * value) :=
  match kvs with
  | [] => [(key, v)]
  | (k, x) :: rest =>
      if String.eqb k key then (k, v) :: rest
      else (k, x) :: assoc_set key v rest
  end.

(** The dictionary [agent_filter] once [document_filter] is merged in. *)
Definition merged_agent_filter (self : RAGAgent) (filters : gmap string value)
  : outcome (list (string * value)) :=
  let metadata := metadata_or_empty (_metadata self) in
  let agent_filter := [("associated_agents", VStr (_agent_id self))] in
  match py_contains metadata "document_filter" with
  | Raise e => Raise e
  | Ret false => Ret agent_filter
  | Ret true =>
      match metadata with
      | VDict kvs =>
          match assoc_get "document_filter" kvs with
          | None => Raise KeyError
          | Some (VDict doc_filter) =>
              Ret (foldl (fun agent_filter kv =>
                            if bool_decide (filters !! fst kv = None) &&
                               negb (String.eqb (fst kv) "associated_agents")
                            then assoc_set (fst kv) (snd kv) agent_filter
                            else agent_filter)
                         agent_filter doc_filter)
          | Some _ => Raise AttributeError
          end
      | _ => Raise TypeError
      end
  end.

(** The dictionary [filters] handed to [retrieve_relevant_documents]. *)
Definition agent_filters (self : RAGAgent) : outcome (gmap string value) :=
  let filters :=
    get_access_filters (_organization_id self) (_user_id self) None ∅ in
  match merged_agent_filter self filters with
  | Raise e => Raise e
  | Ret agent_filter =>
      match filters !! "$and" with
      | None => Ret (<["$and" := VList [VDict agent_filter]]> filters)
      | Some (VList conjuncts) =>
          Ret (<["$and" := VList (conjuncts ++ [VDict agent_filter])]> filters)
      | Some _ => Raise AttributeError
      end
  end.

Section Retrieve.

Variable llm_get_embeddings : list string -> outcome (list embedding_vector).
Variable vector_db_search :
  embedding_vector -> gmap string value -> nat -> outcome (list document).

Definition retrieve_relevant_docs (self : RAGAgent) (query : string)
    (limit : nat) : outcome (list document) :=
  match agent_filters self with
  | Raise e => Raise e
  | Ret filters =>
      retrieve_relevant_documents llm_get_embeddings vector_db_search query
        (_organization_id self) (_user_id self) (Some filters) limit true
  end.

End Retrieve.

End Personalization.

(** ** Notions used to state what the agent manager leaves alone *)

Module AgentFrame.

Import Chroma.

(** Two records with the same id, text and embedding: they differ in their
    metadata at most. *)
Definition same_content (r r' : stored) : Prop :=
  rec_id r = rec_id r' /\
  rec_document r = rec_document r' /\
  rec_embedding r = rec_embedding r'.

(** Two such records whose metadata agree under every key but
    [associated_agents]. *)
Definition same_but_associations (r r' : stored) : Prop :=
  same_content r r' /\
  forall k, k <> "associated_agents" ->
    rec_metadata r !! k = rec_metadata r' !! k.

End AgentFrame.

(** ** Sample data for the agents *)

Module AgentScenarios.

Import Retriever AgentManager.

(** The instance of agent-1 built for alice, with a document filter that
    also names the organization and the association list. *)
Definition helper_of_alice : RAGAgent :=
  {| _agent_id := "agent-1";
     _agent_name := VStr "Helper";
     _agent_description := VNone;
     _agent_instructions := VStr "Answer from the handbook.";
     _organization_id := "org1";
     _user_id := "alice";
     _metadata :=
       VDict [("document_filter",
               VDict [("topic", VStr "tax");
                      ("organization_id", VStr "org2");
                      ("associated_agents", VStr "agent-2")])] |}.

Definition page (id visibility organization_id user_id topic : string)
    (agents : list string) : document :=
  {| doc_id := id;
     doc_text := id;
     doc_metadata :=
       <["associated_agents" := VList (VStr <$> agents)]>
         (<["topic" := VStr topic]>
            (Examples.meta_of organization_id user_id visibility));
     doc_score := 1 |}.

Definition library : list document :=
  [page "p1" "shared" "org1" "bob" "tax" ["agent-1"];
   page "p2" "shared" "org1" "bob" "tax" ["agent-2"];
   page "p3" "private" "org1" "bob" "tax" ["agent-1"];
   page "p4" "public" "org2" "carol" "tax" ["agent-1"];
   page "p5" "private" "org1" "alice" "law" ["agent-1"];
   page "p6" "private" "org1" "alice" "tax" ["agent-2"; "agent-1"]].

End AgentScenarios.

(** ** core/config.py: [update_company_config] *)

Module ConfigUpdate.

Import Config.

(** [dict.update] on a tenant's configuration: every key the new dictionary
    has replaces the stored one. *)
Definition config_update (stored new : company_config) : company_config :=
  {| llm_provider :=
       match llm_provider new with
       | Some name => Some name | None => llm_provider stored end;
     vector_db :=
       match vector_db new with
       | Some name => Some name | None => vector_db stored end;
     shared_vector_db :=
       match shared_vector_db new with
       | Some flag => Some flag | None => shared_vector_db stored end;
     provider_options :=
       dict_update (provider_options stored) (provider_options new) |}.

(** The dictionary [{}]. *)
Definition empty_config : company_config :=
  {| llm_provider := None;
     vector_db := None;
     shared_vector_db := None;
     provider_options := ∅ |}.

Definition update_company_config (self : Settings) (organization_id : string)
    (config : company_config) : Settings :=
  let stored :=
    match COMPANY_CONFIGS self !! organization_id with
    | None => empty_config
    | Some stored => stored
    end in
  {| DEFAULT_LLM_PROVIDER := DEFAULT_LLM_PROVIDER self;
     DEFAULT_VECTOR_DB := DEFAULT_VECTOR_DB self;
     SHARED_VECTOR_DB := SHARED_VECTOR_DB self;
     OPENAI_API_KEY := OPENAI_API_KEY self;
     OPENAI_DEFAULT_MODEL := OPENAI_DEFAULT_MODEL self;
     OLLAMA_DEFAULT_MODEL := OLLAMA_DEFAULT_MODEL self;
     COMPANY_CONFIGS :=
       <[organization_id := config_update stored config]>
         (COMPANY_CONFIGS self) |}.

(** [get_vector_db_for_company] *)
Definition get_vector_db_for_company (self : Settings)
    (organization_id : string) : string :=
  let company_config := get_company_config self organization_id in
  default (DEFAULT_VECTOR_DB self) (vector_db company_config).

End ConfigUpdate.

(** ** services/agents/manager.py: [list_agents] *)

Module AgentListing.

Import VectorDatabases Chroma AgentManager.

Definition listing_keys : list string := ["organization_id"; "document_type"].

(** [base_filter] once [filter_dict] is merged in. *)
Definition listing_filter (organization_id : string)
    (filter_dict : option (gmap string value)) : gmap string value :=
  let base_filter : gmap string value :=
    {[ "organization_id" := VStr organization_id;
       "document_type" := VStr "agent_metadata" ]} in
  match filter_dict with
  | Some fd =>
      if dict_truthy fd then
        map_fold (fun key value acc =>
                    if bool_decide (key ∉ listing_keys)
                    then <[key := value]> acc else acc)
                 base_filter fd
      else base_filter
  | None => base_filter
  end.

(** The body of the loop over the listed documents; an exception skips the
    document. *)
Definition agent_data (vector_db : vector_db_instance) (c : collection)
    (organization_id : string) (d : doc) : outcome (gmap string value) :=
  match json_loads (doc_text d) with
  | Raise e => Raise e
  | Ret agent_metadata =>
      let agent_id := dict_get agent_metadata "agent_id" in
      let document_count :=
        count_documents vector_db c
          {[ "associated_agents" := agent_id;
             "organization_id" := VStr organization_id ]} in
      Ret {[ "id" := agent_id;
             "name" := dict_get_or agent_metadata "name" (VStr "Unnamed Agent");
             "description" := dict_get agent_metadata "description";
             "instructions" := dict_get_or agent_metadata "instructions" (VStr "");
             "created_at" := dict_get agent_metadata "created_at";
             "updated_at" := dict_get agent_metadata "updated_at";
             "metadata" :=
               VDict (map_to_list
                        (filter (fun kv => kv.1 ∉ reserved_keys) agent_metadata));
             "document_count" := VInt (Z.of_nat document_count) ]}
  end.

Definition list_agents (vector_db : vector_db_instance) (c : collection)
    (organization_id user_id : string)
    (filter_dict : option (gmap string value)) (limit offset : nat)
  : list (gmap string value) * nat :=
  let base_filter := listing_filter organization_id filter_dict in
  let total_count := count_documents vector_db c base_filter in
  let docs := list_documents vector_db c base_filter limit offset in
  let agents :=
    omap (fun d =>
            match agent_data vector_db c organization_id d with
            | Ret data => Some data
            | Raise _ => None
            end) docs in
  (agents, total_count).

End AgentListing.

(** ** services/vector_databases/qdrant.py: [delete_documents] *)

Module Qdrant.

Import VectorDatabases Chroma.

(** A point of the Qdrant collection is kept as a record: its id, its
    payload as the metadata, and its vector. *)

Section Client.

(** [self.client.retrieve(ids=...)]: the points the client finds, in the
    order the client returns them. *)
Variable client_retrieve : collection -> list string -> list stored.

Definition delete_documents (self : vector_db_instance) (c : collection)
    (document_ids : list string) : bool * collection :=
  if shared self then
    let points := client_retrieve c document_ids in
    let filtered_ids :=
      rec_id <$>
        filter (fun point =>
                  value_eqb (dict_get (rec_metadata point) "organization_id")
                    (VStr (organization_id self)) = true) points in
    match filtered_ids with
    | [] => (true, c)
    | _ :: _ => (true, coll_delete c filtered_ids)
    end
  else (true, coll_delete c document_ids).

End Client.

End Qdrant.

(** * Properties *)

(** ** Dictionaries and values *)

Lemma value_eqb_str_r (v : value) (s : string) :
  value_eqb v (VStr s) = true <-> v = VStr s.
Proof.
  destruct v; simpl; split; try discriminate.
  - intros H. apply String.eqb_eq in H. by subst.
  - intros [= ->]. apply String.eqb_refl.
Qed.

Lemma dict_update_lookup (dst src : gmap string value) (k : string) :
  dict_update dst src !! k =
  match src !! k with Some v => Some v | None => dst !! k end.
Proof.
  unfold dict_update. revert k.
  apply (map_fold_weak_ind
           (fun r m => forall k, r !! k =
              match m !! k with Some v => Some v | None => dst !! k end)).
  - intros k. by rewrite lookup_empty.
  - intros i x m r Hi IH k. rewrite !lookup_insert.
    case_decide; [done | apply IH].
Qed.

(** ** The access filter builder *)

Section FilteringFacts.

Import Filtering FilterSemantics.

Lemma kwargs_bindable_spec (extra : gmap string value) :
  kwargs_bindable extra = true <->
  extra !! "organization_id" = None /\ extra !! "user_id" = None /\
  extra !! "visibility" = None.
Proof.
  unfold kwargs_bindable.
  rewrite !andb_true_iff, !bool_decide_eq_true. tauto.
Qed.

(** Whatever the visibility argument and the extra filters, the
    organization conjunct is the caller's. *)
Lemma get_access_filters_organization (organization_id user_id : string)
    (visibility : option (list string)) (extra : gmap string value) :
  kwargs_bindable extra = true ->
  get_access_filters organization_id user_id visibility extra
    !! "organization_id" = Some (VStr organization_id).
Proof.
  intros Hk. apply kwargs_bindable_spec in Hk as (Ho & _ & _).
  unfold get_access_filters. rewrite dict_update_lookup, Ho.
  destruct visibility as [vis|]; [|by simplify_map_eq].
  case_bool_decide; [destruct (length vis =? 1)|]; by simplify_map_eq.
Qed.

Lemma filter_matches_entry (meta flt : gmap string value) (k : string)
    (v : value) :
  filter_matches meta flt = true -> flt !! k = Some v ->
  entry_holds meta k v = true.
Proof.
  unfold filter_matches. rewrite forallb_forall. intros Hall Hk.
  apply (Hall (k, v)). apply list_elem_of_In. by apply elem_of_map_to_list.
Qed.

(** A filter with an organization conjunct rejects a document stamped with
    another organization. *)
Lemma organization_conjunct_isolates (meta flt : gmap string value)
    (stored_org organization_id : string) :
  flt !! "organization_id" = Some (VStr organization_id) ->
  meta !! "organization_id" = Some (VStr stored_org) ->
  stored_org <> organization_id ->
  filter_matches meta flt = false.
Proof.
  intros Hf Hm Hne. apply not_true_is_false. intros Hmatch.
  pose proof (filter_matches_entry _ _ _ _ Hmatch Hf) as He.
  cbn in He. rewrite Hm in He. cbn in He.
  rewrite orb_false_r in He. apply String.eqb_eq in He. done.
Qed.

Lemma get_access_filters_isolates (meta : gmap string value)
    (stored_org organization_id user_id : string)
    (visibility : option (list string)) (extra : gmap string value) :
  kwargs_bindable extra = true ->
  meta !! "organization_id" = Some (VStr stored_org) ->
  stored_org <> organization_id ->
  filter_matches meta
    (get_access_filters organization_id user_id visibility extra) = false.
Proof.
  intros Hk Hm Hne.
  eapply organization_conjunct_isolates; [|done..].
  by apply get_access_filters_organization.
Qed.

(** C1, at the failing input.  With the default visibility, bob of org1
    passes one extra filter under the key [$or].  The call is accepted and
    the builder's own disjunction is replaced by the caller's, so the
    returned filter now accepts alice's private document, which the filter
    built without extras rejects. *)
Theorem get_access_filters_or_is_overridden :
  let default_or :=
    VList [own_documents "bob"; visibility_in [SHARED; PUBLIC]] in
  get_access_filters "org1" "bob" None ∅ !! "$or" = Some default_or /\
  filter_matches Examples.alice_private
    (get_access_filters "org1" "bob" None ∅) = false /\
  exists flt,
    call_get_access_filters "org1" "bob" None Examples.or_override = Ret flt /\
    flt !! "organization_id" = Some (VStr "org1") /\
    flt !! "$or" = Some (VList [VDict [("visibility", VStr "private")]]) /\
    flt !! "$or" <> Some default_or /\
    filter_matches Examples.alice_private flt = true.
Proof.
  cbn zeta. split; [by vm_compute|]. split; [by vm_compute|].
  exists (get_access_filters "org1" "bob" None Examples.or_override).
  split; [reflexivity|].
  split; [by vm_compute|]. split; [by vm_compute|].
  split; [|by vm_compute].
  vm_compute. discriminate.
Qed.

(** C10.  For a document stamped with another organization,
    [document_access_check] answers exactly whether the document is public,
    while no filter that [get_access_filters] builds for the caller matches
    it: a public document of another organization passes the direct check
    and is never returned by a filtered search. *)
Theorem document_access_check_cross_organization
    (meta : gmap string value) (stored_org organization_id user_id : string) :
  meta !! "organization_id" = Some (VStr stored_org) ->
  stored_org <> organization_id ->
  (document_access_check meta user_id organization_id = true <->
   meta !! "visibility" = Some (VStr PUBLIC)) /\
  forall caller visibility extra,
    kwargs_bindable extra = true ->
    filter_matches meta
      (get_access_filters organization_id caller visibility extra) = false.
Proof.
  intros Hm Hne. split.
  - unfold document_access_check, dict_get. rewrite Hm. cbn.
    destruct (String.eqb_spec stored_org organization_id) as [|_]; [done|].
    cbn. destruct (meta !! "visibility") as [v|] eqn:Hv; cbn.
    + destruct (value_eqb v (VStr PUBLIC)) eqn:E.
      * apply value_eqb_str_r in E as ->. done.
      * split; [done|].
        intros [= ->]. by rewrite (proj2 (value_eqb_str_r _ _) eq_refl) in E.
    + done.
  - intros caller visibility extra Hk.
    by eapply get_access_filters_isolates.
Qed.

Lemma document_access_check_cross_organization_witness :
  Examples.carol_public !! "organization_id" = Some (VStr "org2") /\
  "org2" <> "org1" /\
  document_access_check Examples.carol_public "bob" "org1" = true /\
  filter_matches Examples.carol_public
    (get_access_filters "org1" "bob" None ∅) = false.
Proof.
  assert (H1 : Examples.carol_public !! "organization_id" = Some (VStr "org2"))
    by (by vm_compute).
  assert (H2 : "org2" <> "org1") by discriminate.
  destruct (document_access_check_cross_organization
              Examples.carol_public "org2" "org1" "bob" H1 H2)
    as [Hcheck Hfilter].
  split; [exact H1|]. split; [exact H2|]. split.
  - apply Hcheck. by vm_compute.
  - apply Hfilter. by vm_compute.
Defined.

End FilteringFacts.

(** ** The retriever *)

Section RetrieverFacts.

Import Filtering Retriever.

Lemma guarded_merge_lookup (base fd : gmap string value) (k : string) :
  map_fold (fun key value acc =>
              if bool_decide (key ∉ security_keys)
              then <[key := value]> acc else acc) base fd !! k =
  if bool_decide (k ∈ security_keys) then base !! k
  else match fd !! k with Some v => Some v | None => base !! k end.
Proof.
  revert k.
  apply (map_fold_weak_ind
           (fun r m => forall k, r !! k =
              if bool_decide (k ∈ security_keys) then base !! k
              else match m !! k with Some v => Some v | None => base !! k end)).
  - intros k. rewrite lookup_empty. by case_bool_decide.
  - intros i x m r Hi IH k.
    destruct (decide (i = k)) as [->|Hne].
    + rewrite lookup_insert_eq.
      case_bool_decide as Hsec; case_bool_decide as Hk; try done.
      * by rewrite lookup_insert_eq.
      * rewrite IH. by rewrite bool_decide_eq_true_2.
    + rewrite (lookup_insert_ne m) by done.
      case_bool_decide; [rewrite lookup_insert_ne by done|]; apply IH.
Qed.

Lemma dict_truthy_false {V : Type} (d : gmap string V) :
  dict_truthy d = false -> d = ∅.
Proof.
  unfold dict_truthy. destruct (map_to_list d) eqn:E; [|done].
  intros _. by apply map_to_list_empty_iff.
Qed.

Lemma search_filter_lookup (organization_id user_id : string)
    (filter_dict : option (gmap string value)) (k : string) :
  search_filter organization_id user_id filter_dict !! k =
  if bool_decide (k ∈ security_keys)
  then get_access_filters organization_id user_id None ∅ !! k
  else match filter_dict ≫= (fun fd => fd !! k) with
       | Some v => Some v
       | None => get_access_filters organization_id user_id None ∅ !! k
       end.
Proof.
  unfold search_filter. destruct filter_dict as [fd|]; cbn.
  - destruct (dict_truthy fd) eqn:E.
    + apply guarded_merge_lookup.
    + apply dict_truthy_false in E as ->. rewrite lookup_empty.
      by case_bool_decide.
  - by case_bool_decide.
Qed.

(** C3.  The filter that [retrieve_relevant_documents] hands to
    [vector_db.search] is [search_filter].  Under [organization_id],
    [user_id] and [$or] it holds what the access filter builder put there
    (the caller's organization, no [user_id] entry, the default
    disjunction), whatever [filter_dict] holds under these keys; under any
    other key it holds the entry of [filter_dict] when there is one, and the
    builder's entry otherwise. *)
Theorem retrieve_search_filter_keeps_security_keys
    (organization_id user_id : string)
    (filter_dict : option (gmap string value)) :
  let built := get_access_filters organization_id user_id None ∅ in
  let handed := search_filter organization_id user_id filter_dict in
  (forall get_embeddings search query limit rerank,
     retrieve_relevant_documents get_embeddings search query organization_id
       user_id filter_dict limit rerank =
     match get_embeddings [query] with
     | Raise e => Raise e
     | Ret [] => Raise IndexError
     | Ret (query_embedding :: _) =>
         match search query_embedding handed
                 (if rerank then limit * 2 else limit) with
         | Raise e => Raise e
         | Ret documents =>
             if rerank && (limit <? length documents)
             then Ret (take limit documents) else Ret documents
         end
     end) /\
  handed !! "organization_id" = Some (VStr organization_id) /\
  handed !! "user_id" = None /\
  handed !! "$or" =
    Some (VList [own_documents user_id; visibility_in [SHARED; PUBLIC]]) /\
  (forall k, k ∈ security_keys -> handed !! k = built !! k) /\
  (forall k v, k ∉ security_keys ->
     filter_dict ≫= (fun fd => fd !! k) = Some v -> handed !! k = Some v) /\
  (forall k, k ∉ security_keys ->
     filter_dict ≫= (fun fd => fd !! k) = None -> handed !! k = built !! k).
Proof.
  cbn zeta. split; [done|].
  split; [|split; [|split]].
  - rewrite search_filter_lookup. vm_compute. reflexivity.
  - rewrite search_filter_lookup. vm_compute. reflexivity.
  - rewrite search_filter_lookup. vm_compute. reflexivity.
  - split; [|split].
    + intros k Hk. rewrite search_filter_lookup.
      by rewrite bool_decide_eq_true_2.
    + intros k v Hk Hv. rewrite search_filter_lookup.
      rewrite bool_decide_eq_false_2 by done. by rewrite Hv.
    + intros k Hk Hv. rewrite search_filter_lookup.
      rewrite bool_decide_eq_false_2 by done. by rewrite Hv.
Qed.

Lemma retrieve_search_filter_keeps_security_keys_witness :
  let handed := search_filter "org1" "bob" (Some Examples.hostile_filter) in
  handed !! "organization_id" = Some (VStr "org1") /\
  handed !! "user_id" = None /\
  handed !! "$or" =
    Some (VList [own_documents "bob"; visibility_in [SHARED; PUBLIC]]) /\
  handed !! "topic" = Some (VStr "tax").
Proof.
  destruct (retrieve_search_filter_keeps_security_keys "org1" "bob"
              (Some Examples.hostile_filter))
    as (_ & Horg & Huser & Hor & _ & Hadd & _).
  split; [exact Horg|]. split; [exact Huser|]. split; [exact Hor|].
  apply Hadd.
  - apply (bool_decide_unpack _). vm_compute. exact I.
  - vm_compute. reflexivity.
Defined.

End RetrieverFacts.

(** ** Batch embeddings *)

Section EmbeddingFacts.

Import OpenAI.

Context {E : Type}.

Lemma insert_by_index_comm (x y : embedding_item E) (l : list (embedding_item E)) :
  index x <> index y ->
  insert_by_index x (insert_by_index y l) =
  insert_by_index y (insert_by_index x l).
Proof.
  intros Hxy. induction l as [|z l IH]; cbn.
  - destruct (Nat.leb_spec (index x) (index y)),
             (Nat.leb_spec (index y) (index x)); try reflexivity; lia.
  - destruct (Nat.leb_spec (index y) (index z)),
             (Nat.leb_spec (index x) (index z)); cbn;
      repeat match goal with
             | |- context [?a <=? ?b] => destruct (Nat.leb_spec a b)
             end; try reflexivity; try lia.
    by rewrite IH.
Qed.

Lemma sorted_by_index_perm (l1 l2 : list (embedding_item E)) :
  l1 ≡ₚ l2 -> NoDup (index <$> l1) ->
  sorted_by_index l1 = sorted_by_index l2.
Proof.
  unfold sorted_by_index.
  induction 1 as [|x l1 l2 Hp IH|x y l|l1 l2 l3 Hp1 IH1 Hp2 IH2]; intros Hnd.
  - done.
  - cbn. rewrite IH; [done|]. by inversion Hnd.
  - cbn. apply insert_by_index_comm.
    cbn in Hnd. inversion Hnd as [|? ? Hin _]; subst.
    intros Heq. apply Hin. rewrite Heq. by left.
  - rewrite IH1 by done. apply IH2. by rewrite <- Hp1.
Qed.

Lemma numbered_from_indices (k : nat) (es : list E) :
  index <$> numbered_from k es = seq k (length es).
Proof.
  revert k. induction es as [|e es IH]; intros k; cbn; [done|].
  by rewrite IH.
Qed.

Lemma numbered_from_sorted (k : nat) (es : list E) :
  sorted_by_index (numbered_from k es) = numbered_from k es.
Proof.
  unfold sorted_by_index.
  revert k. induction es as [|e es IH]; intros k; cbn; [done|].
  rewrite IH.
  destruct es as [|e' es]; cbn; [done|].
  destruct (Nat.leb_spec k (S k)); [done|lia].
Qed.

Lemma numbered_from_embeddings (k : nat) (es : list E) :
  embedding <$> numbered_from k es = es.
Proof.
  revert k. induction es as [|e es IH]; intros k; cbn; [done|].
  by rewrite IH.
Qed.

(** Sorting a shuffled response by index restores the request order. *)
Lemma sorted_response (data : list (embedding_item E)) (es : list E) :
  data ≡ₚ numbered_from 0 es ->
  embedding <$> sorted_by_index data = es.
Proof.
  intros Hp.
  rewrite (sorted_by_index_perm _ _ Hp).
  - by rewrite numbered_from_sorted, numbered_from_embeddings.
  - rewrite Hp, numbered_from_indices. apply NoDup_seq.
Qed.

Lemma take_take_drop_app {A : Type} (m n : nat) (l : list A) :
  take m l ++ take n (drop m l) = take (m + n) l.
Proof.
  revert l. induction m as [|m IH]; intros [|a l]; cbn; try done.
  - by rewrite take_nil.
  - by rewrite IH.
Qed.

Section Backend.

Variable embed : string -> E.
Variable embeddings_create : list string -> outcome (list (embedding_item E)).

(** The backend answers every batch with the embeddings of its texts,
    each carrying the index of its text, in some order. *)
Hypothesis backend_answers :
  forall batch_texts, exists data,
    embeddings_create batch_texts = Ret data /\
    data ≡ₚ numbered_from 0 (embed <$> batch_texts).

Lemma embed_batches_spec (n a : nat) (texts : list string) (acc : list E) :
  embed_batches E embeddings_create
    ((fun k => 0 + k * batch_size) <$> seq a n) texts acc =
  Ret (acc ++ (embed <$> take (n * batch_size) (drop (a * batch_size) texts))).
Proof.
  revert a acc. induction n as [|n IH]; intros a acc; cbn [seq fmap list_fmap].
  - cbn. by rewrite app_nil_r.
  - cbn [embed_batches]. rewrite Nat.add_0_l.
    destruct (backend_answers (take batch_size (drop (a * batch_size) texts)))
      as (data & -> & Hp).
    rewrite (sorted_response _ _ Hp), IH, <- app_assoc. f_equal. f_equal.
    rewrite <- fmap_app. f_equal.
    replace (S a * batch_size) with (a * batch_size + batch_size) by lia.
    rewrite <- drop_drop.
    replace (S n * batch_size) with (batch_size + n * batch_size) by lia.
    apply take_take_drop_app.
Qed.

(** C8.  When the backend answers each batch with the embeddings of the
    batch in any order, each item carrying the index of its text,
    [get_embeddings] returns exactly one embedding per text, in the order of
    the texts, whatever the number of batches. *)
Theorem get_embeddings_preserves_input_order (texts : list string) :
  exists embeddings,
    get_embeddings E embeddings_create texts = Ret embeddings /\
    embeddings = embed <$> texts /\
    length embeddings = length texts /\
    forall i, embeddings !! i = embed <$> texts !! i.
Proof.
  exists (embed <$> texts). split; [|split; [done|split]].
  - unfold get_embeddings, py_range.
    rewrite embed_batches_spec. cbn [app]. f_equal. f_equal.
    rewrite drop_0. apply take_ge.
    rewrite Nat.sub_0_r. unfold batch_size. cbn [Nat.sub].
    pose proof (Nat.div_mod_eq (length texts + 99) 100).
    pose proof (Nat.mod_upper_bound (length texts + 99) 100). lia.
  - by rewrite length_fmap.
  - intros i. by rewrite list_lookup_fmap.
Qed.

End Backend.

End EmbeddingFacts.

Lemma get_embeddings_preserves_input_order_witness :
  (forall batch_texts, exists data,
     Examples.reversing_backend batch_texts = Ret data /\
     data ≡ₚ OpenAI.numbered_from 0 (String.length <$> batch_texts)) /\
  OpenAI.get_embeddings nat Examples.reversing_backend ["a"; "bb"; "ccc"]
    = Ret [1; 2; 3].
Proof.
  assert (H : forall batch_texts, exists data,
             Examples.reversing_backend batch_texts = Ret data /\
             data ≡ₚ OpenAI.numbered_from 0 (String.length <$> batch_texts)).
  { intros batch_texts. eexists. split; [reflexivity|].
    apply reverse_Permutation. }
  split; [exact H|].
  destruct (get_embeddings_preserves_input_order String.length
              Examples.reversing_backend H ["a"; "bb"; "ccc"])
    as (embeddings & Hret & -> & _).
  exact Hret.
Defined.

(** ** The generator *)

Section GeneratorFacts.

Import Retriever Generator.

(** C9 as stated fails: with a provider whose completion is the empty
    string (the value [OpenAIProvider.generate] returns for an empty
    [content]) and a search that finds nothing, the answer is empty. *)
Lemma generate_answer_may_be_empty :
  retrieve_relevant_documents Examples.zero_embeddings Examples.empty_search
    "What is new?" "org1" "bob" None 5 true = Ret [] /\
  ~ (exists answer,
       generate_answer Examples.show_value Examples.zero_embeddings
         Examples.silent_llm Examples.empty_search
         "What is new?" "org1" "bob" None None 0.7%Q None 5
       = Ret (answer, []) /\ answer <> "").
Proof.
  split; [reflexivity|].
  intros (answer & Heq & Hne). vm_compute in Heq.
  injection Heq as <-. by apply Hne.
Qed.

(** C9, amended.  When retrieval yields no document, [generate_answer]
    hands the query to the provider with the caller's system message when
    that is a non-empty string and the default one otherwise, and returns
    the provider's answer, whatever it is, with an empty document list (or
    raises what the provider raises).  When retrieval yields documents, the
    list returned next to the answer is the retrieved list itself. *)
Theorem generate_answer_documents_used
    (py_str : value -> string)
    (llm_get_embeddings : list string -> outcome (list embedding_vector))
    (llm_generate : string -> string -> Q -> option Z -> outcome string)
    (vector_db_search :
       embedding_vector -> gmap string value -> nat -> outcome (list document))
    (query organization_id user_id : string)
    (filter_dict : option (gmap string value)) (system_message : option string)
    (temperature : Q) (max_tokens : option Z) (num_documents : nat)
    (documents : list document) :
  let result :=
    generate_answer py_str llm_get_embeddings llm_generate vector_db_search
      query organization_id user_id filter_dict system_message temperature
      max_tokens num_documents in
  retrieve_relevant_documents llm_get_embeddings vector_db_search
    query organization_id user_id filter_dict num_documents true
    = Ret documents ->
  (documents = [] ->
   result =
   match llm_generate query (str_or system_message default_system_message)
           temperature max_tokens with
   | Raise e => Raise e
   | Ret response => Ret (response, [])
   end) /\
  (documents <> [] ->
   result =
   match llm_generate
           (rag_prompt query (format_documents_for_context py_str documents))
           (str_or system_message default_rag_system_message)
           temperature max_tokens with
   | Raise e => Raise e
   | Ret response => Ret (response, documents)
   end) /\
  (forall answer used, result = Ret (answer, used) -> used = documents).
Proof.
  intros result Hret. subst result. unfold generate_answer. rewrite Hret.
  split; [|split].
  - intros ->. done.
  - intros Hne. destruct documents as [|d ds]; [done|].
    replace (if str_truthy system_message then default "" system_message
             else default_rag_system_message)
      with (str_or system_message default_rag_system_message)
      by (by destruct system_message as [[|c r]|]).
    done.
  - intros answer used. destruct documents as [|d ds].
    + destruct (llm_generate _ _ _ _); [|done]. by intros [= _ <-].
    + destruct (llm_generate _ _ _ _); [|done]. by intros [= _ <-].
Qed.

Lemma generate_answer_documents_used_witness :
  retrieve_relevant_documents Examples.zero_embeddings Examples.empty_search
    "What is new?" "org1" "bob" None 5 true = Ret [] /\
  generate_answer Examples.show_value Examples.zero_embeddings
    Examples.echo_llm Examples.empty_search
    "What is new?" "org1" "bob" None None 0.7%Q None 5
  = Ret ("[" +:+ default_system_message +:+ "] What is new?", []).
Proof.
  assert (H : retrieve_relevant_documents Examples.zero_embeddings
                Examples.empty_search "What is new?" "org1" "bob" None 5 true
              = Ret []) by reflexivity.
  split; [exact H|].
  destruct (generate_answer_documents_used Examples.show_value
              Examples.zero_embeddings Examples.echo_llm Examples.empty_search
              "What is new?" "org1" "bob" None None 0.7%Q None 5 [] H)
    as (Hnone & _ & _).
  rewrite (Hnone eq_refl). reflexivity.
Defined.

End GeneratorFacts.

(** ** The provider registries *)

Section LLMRegistryFacts.

Import Config LLMProviders.

Variable settings : Settings.

Local Abbreviation llm_cache_key := (LLMProviders.cache_key settings).

(** What one call of [get_llm_provider] does: a hit returns the cached
    object and changes nothing; a miss raises and leaves the cache alone, or
    allocates a new object and caches it under the key. *)
Lemma get_llm_provider_cases (organization_id : string) (st : registry_state) :
  match _PROVIDER_INSTANCES st !! llm_cache_key organization_id with
  | Some cached =>
      get_llm_provider settings organization_id st = (Ret cached, st)
  | None =>
      (exists e st',
          get_llm_provider settings organization_id st = (Raise e, st') /\
          _PROVIDER_INSTANCES st' = _PROVIDER_INSTANCES st /\
          next_object st' = next_object st) \/
      (exists inst st',
          get_llm_provider settings organization_id st = (Ret inst, st') /\
          instance_id inst = next_object st /\
          _PROVIDER_INSTANCES st' =
            <[llm_cache_key organization_id := inst]> (_PROVIDER_INSTANCES st) /\
          next_object st' = S (next_object st))
  end.
Proof.
  unfold get_llm_provider, cache_key.
  destruct (_PROVIDER_INSTANCES st !! _) as [cached|] eqn:Hc; [done|].
  destruct (_PROVIDER_REGISTRY st !! get_llm_provider_for_company settings organization_id)
    as [cls0|] eqn:Hr; cbn.
  - rewrite Hr. destruct (init_raises cls0 _ _) as [e|].
    + left. by eexists _, _.
    + right. by eexists _, _.
  - destruct (_PROVIDER_REGISTRY st !! DEFAULT_LLM_PROVIDER settings) as [cls|].
    + destruct (init_raises cls _ _) as [e|].
      * left. by eexists _, _.
      * right. by eexists _, _.
    + left. by eexists _, _.
Qed.

Lemma get_llm_provider_returned_is_cached (organization_id : string)
    (st st1 : registry_state) (inst : provider_instance) :
  get_llm_provider settings organization_id st = (Ret inst, st1) ->
  _PROVIDER_INSTANCES st1 !! llm_cache_key organization_id = Some inst.
Proof.
  intros Hget. pose proof (get_llm_provider_cases organization_id st) as Hc.
  destruct (_PROVIDER_INSTANCES st !! llm_cache_key organization_id) eqn:E.
  - rewrite Hc in Hget. by injection Hget as <- <-.
  - destruct Hc as [(e & st' & Hc & _)|(i & st' & Hc & _ & Hi & _)];
      rewrite Hc in Hget; [done|].
    injection Hget as <- <-. rewrite Hi. apply lookup_insert_eq.
Qed.

Lemma llm_run_call_keeps_cached (c : call) (st : registry_state)
    (key : string) (inst : provider_instance) :
  _PROVIDER_INSTANCES st !! key = Some inst ->
  _PROVIDER_INSTANCES (run_call settings c st) !! key = Some inst.
Proof.
  intros Hk. destruct c as [organization_id|name cls]; cbn; [|done].
  pose proof (get_llm_provider_cases organization_id st) as Hc.
  destruct (_PROVIDER_INSTANCES st !! llm_cache_key organization_id) eqn:E.
  - by rewrite Hc.
  - destruct Hc as [(e & st' & -> & Hi & _)|(i & st' & -> & _ & Hi & _)];
      cbn; rewrite Hi; [done|].
    rewrite lookup_insert_ne; [done|]. intros <-. congruence.
Qed.

Lemma llm_run_calls_keep_cached (cs : list call) (st : registry_state)
    (key : string) (inst : provider_instance) :
  _PROVIDER_INSTANCES st !! key = Some inst ->
  _PROVIDER_INSTANCES (run_calls settings cs st) !! key = Some inst.
Proof.
  revert st. induction cs as [|c cs IH]; intros st Hk; [done|].
  cbn. apply IH. by apply llm_run_call_keeps_cached.
Qed.

Lemma llm_run_call_allocated (c : call) (st : registry_state) :
  allocated_below st -> allocated_below (run_call settings c st).
Proof.
  intros Hal. destruct c as [organization_id|name cls]; cbn; [|done].
  pose proof (get_llm_provider_cases organization_id st) as Hc.
  destruct (_PROVIDER_INSTANCES st !! llm_cache_key organization_id) eqn:E.
  - by rewrite Hc.
  - destruct Hc as [(e & st' & -> & Hi & Hn)|(i & st' & -> & Hid & Hi & Hn)];
      cbn; intros key inst; rewrite Hi, Hn; [apply Hal|].
    rewrite lookup_insert. case_decide.
    + intros [= <-]. lia.
    + intros Hk. apply Hal in Hk. lia.
Qed.

Lemma llm_run_calls_allocated (cs : list call) (st : registry_state) :
  allocated_below st -> allocated_below (run_calls settings cs st).
Proof.
  revert st. induction cs as [|c cs IH]; intros st Hal; [done|].
  cbn. apply IH. by apply llm_run_call_allocated.
Qed.

(** The LLM half of C6. *)
Lemma get_llm_provider_idempotent (organization_id : string)
    (st st1 : registry_state) (inst : provider_instance) (cs : list call) :
  allocated_below st ->
  get_llm_provider settings organization_id st = (Ret inst, st1) ->
  let st2 := run_calls settings cs st1 in
  get_llm_provider settings organization_id st2 = (Ret inst, st2) /\
  _PROVIDER_INSTANCES (clear_provider_cache st2) = ∅ /\
  fst (get_llm_provider settings organization_id (clear_provider_cache st2))
    <> Ret inst /\
  forall fresh st3,
    get_llm_provider settings organization_id (clear_provider_cache st2)
      = (Ret fresh, st3) ->
    instance_id fresh = next_object st2 /\
    instance_id inst < instance_id fresh.
Proof.
  intros Hal Hget st2.
  pose proof (get_llm_provider_returned_is_cached _ _ _ _ Hget) as Hc1.
  pose proof (llm_run_calls_keep_cached cs _ _ _ Hc1) as Hc2. fold st2 in Hc2.
  assert (Hal1 : allocated_below st1).
  { replace st1 with (run_call settings (Resolve organization_id) st)
      by (cbn; by rewrite Hget).
    by apply llm_run_call_allocated. }
  pose proof (llm_run_calls_allocated cs _ Hal1) as Hal2. fold st2 in Hal2.
  pose proof (Hal2 _ _ Hc2) as Hlt.
  assert (Hfresh : forall fresh st3,
             get_llm_provider settings organization_id (clear_provider_cache st2)
               = (Ret fresh, st3) ->
             instance_id fresh = next_object st2).
  { intros fresh st3 Hg.
    pose proof (get_llm_provider_cases organization_id (clear_provider_cache st2))
      as Hc. cbn in Hc. rewrite lookup_empty in Hc.
    destruct Hc as [(e & st' & Hc & _)|(i & st' & Hc & Hid & _)];
      rewrite Hc in Hg; [done|].
    by injection Hg as <- <-. }
  split; [|split; [done|split]].
  - pose proof (get_llm_provider_cases organization_id st2) as Hc.
    by rewrite Hc2 in Hc.
  - intros Heq.
    specialize (Hfresh inst
      (get_llm_provider settings organization_id (clear_provider_cache st2)).2).
    rewrite <- Heq, <- surjective_pairing in Hfresh.
    specialize (Hfresh eq_refl). lia.
  - intros fresh st3 Hg. apply Hfresh in Hg as Hid. split; [done|lia].
Qed.

(** A miss whose class can be constructed allocates a new object of that
    class for the organization and files it under the key. *)
Lemma get_llm_provider_constructs (organization_id : string)
    (st : registry_state) :
  _PROVIDER_INSTANCES st !! llm_cache_key organization_id = None ->
  constructible settings organization_id st = true ->
  exists inst st1,
    get_llm_provider settings organization_id st = (Ret inst, st1) /\
    instance_id inst = next_object st /\
    instance_organization_id inst = organization_id /\
    resolved_class settings organization_id st = Some (instance_class inst) /\
    _PROVIDER_INSTANCES st1 !! llm_cache_key organization_id = Some inst /\
    next_object st1 = S (next_object st).
Proof.
  intros Hmiss Hcon.
  unfold constructible, resolved_class, get_llm_provider, cache_key in *.
  rewrite Hmiss.
  destruct (_PROVIDER_REGISTRY st
              !! get_llm_provider_for_company settings organization_id)
    as [cls|] eqn:Hr; cbn.
  - rewrite Hr. destruct (init_raises cls _ _); [discriminate Hcon|].
    eexists _, _. split; [reflexivity|]. cbn.
    repeat split; try reflexivity. apply lookup_insert_eq.
  - destruct (_PROVIDER_REGISTRY st !! DEFAULT_LLM_PROVIDER settings)
      as [cls|]; [|discriminate Hcon].
    destruct (init_raises cls _ _); [discriminate Hcon|].
    eexists _, _. split; [reflexivity|]. cbn.
    repeat split; try reflexivity. apply lookup_insert_eq.
Qed.

(** A call whose class can be constructed returns an object. *)
Lemma get_llm_provider_returns (organization_id : string)
    (st : registry_state) :
  constructible settings organization_id st = true ->
  exists inst st1,
    get_llm_provider settings organization_id st = (Ret inst, st1).
Proof.
  intros Hcon.
  destruct (_PROVIDER_INSTANCES st !! llm_cache_key organization_id)
    as [cached|] eqn:E.
  - pose proof (get_llm_provider_cases organization_id st) as Hc.
    rewrite E in Hc. by exists cached, st.
  - destruct (get_llm_provider_constructs _ _ E Hcon)
      as (inst & st1 & Hget & _).
    by exists inst, st1.
Qed.

(** After the cache is cleared, a call whose class can be constructed
    returns a newly allocated object. *)
Lemma get_llm_provider_after_clear (organization_id : string)
    (st : registry_state) :
  constructible settings organization_id st = true ->
  exists fresh st3,
    get_llm_provider settings organization_id (clear_provider_cache st)
      = (Ret fresh, st3) /\
    instance_id fresh = next_object st /\
    _PROVIDER_INSTANCES st3 !! llm_cache_key organization_id = Some fresh.
Proof.
  intros Hcon.
  destruct (get_llm_provider_constructs organization_id
              (clear_provider_cache st))
    as (fresh & st3 & Hget & Hid & _ & _ & Hc & _).
  - cbn. apply lookup_empty.
  - exact Hcon.
  - by exists fresh, st3.
Qed.

(** The LLM half of C7, as the code has it. *)
Lemma get_llm_provider_fallback (organization_id : string)
    (st : registry_state) :
  let name := get_llm_provider_for_company settings organization_id in
  let noted :=
    log_event st (ERROR, "LLM provider not found: " +:+ name) in
  _PROVIDER_REGISTRY st !! name = None ->
  _PROVIDER_INSTANCES st !! llm_cache_key organization_id = None ->
  match _PROVIDER_REGISTRY st !! DEFAULT_LLM_PROVIDER settings with
  | None =>
      get_llm_provider settings organization_id st = (Raise KeyError, noted)
  | Some cls =>
      match init_raises cls organization_id
              (get_company_config settings organization_id) with
      | Some e =>
          get_llm_provider settings organization_id st = (Raise e, noted)
      | None =>
          exists inst st',
            get_llm_provider settings organization_id st = (Ret inst, st') /\
            instance_class inst = cls /\
            instance_organization_id inst = organization_id /\
            instance_id inst = next_object st /\
            _PROVIDER_INSTANCES st' !! llm_cache_key organization_id
              = Some inst /\
            log st' = log st ++
              [(ERROR, "LLM provider not found: " +:+ name);
               (INFO, "Created LLM provider instance")]
      end
  end.
Proof.
  intros name noted Hr Hc. unfold get_llm_provider.
  fold name. unfold cache_key in Hc. fold name in Hc. rewrite Hc, Hr. cbn.
  destruct (_PROVIDER_REGISTRY st !! DEFAULT_LLM_PROVIDER settings) as [cls|];
    [|done].
  destruct (init_raises cls _ _) as [e|]; [done|].
  eexists _, _. split; [done|]. cbn. rewrite lookup_insert_eq.
  by rewrite <- app_assoc.
Qed.

End LLMRegistryFacts.

Section VectorRegistryFacts.

Import Config VectorDatabases.

Variable settings : Settings.

Local Abbreviation vdb_cache_key := (VectorDatabases.cache_key settings).

(** What one call of [get_vector_db] does: a hit returns the cached
    object and changes nothing; a miss raises and leaves the cache alone, or
    allocates a new object and caches it under the key. *)
Lemma get_vector_db_cases (organization_id : string) (st : registry_state) :
  match _VECTOR_DB_INSTANCES st !! vdb_cache_key organization_id with
  | Some cached =>
      get_vector_db settings organization_id st = (Ret cached, st)
  | None =>
      (exists e st',
          get_vector_db settings organization_id st = (Raise e, st') /\
          _VECTOR_DB_INSTANCES st' = _VECTOR_DB_INSTANCES st /\
          next_object st' = next_object st) \/
      (exists inst st',
          get_vector_db settings organization_id st = (Ret inst, st') /\
          instance_id inst = next_object st /\
          _VECTOR_DB_INSTANCES st' =
            <[vdb_cache_key organization_id := inst]> (_VECTOR_DB_INSTANCES st) /\
          next_object st' = S (next_object st))
  end.
Proof.
  unfold get_vector_db, cache_key.
  destruct (_VECTOR_DB_INSTANCES st !! _) as [cached|] eqn:Hc; [done|].
  destruct (_VECTOR_DB_REGISTRY st !! default (DEFAULT_VECTOR_DB settings)
      (vector_db (get_company_config settings organization_id)))
    as [cls0|] eqn:Hr; cbn.
  - rewrite Hr. destruct (init_raises cls0 _ _) as [e|].
    + left. by eexists _, _.
    + right. by eexists _, _.
  - destruct (_VECTOR_DB_REGISTRY st !! DEFAULT_VECTOR_DB settings) as [cls|].
    + destruct (init_raises cls _ _) as [e|].
      * left. by eexists _, _.
      * right. by eexists _, _.
    + left. by eexists _, _.
Qed.

Lemma get_vector_db_returned_is_cached (organization_id : string)
    (st st1 : registry_state) (inst : vector_db_instance) :
  get_vector_db settings organization_id st = (Ret inst, st1) ->
  _VECTOR_DB_INSTANCES st1 !! vdb_cache_key organization_id = Some inst.
Proof.
  intros Hget. pose proof (get_vector_db_cases organization_id st) as Hc.
  destruct (_VECTOR_DB_INSTANCES st !! vdb_cache_key organization_id) eqn:E.
  - rewrite Hc in Hget. by injection Hget as <- <-.
  - destruct Hc as [(e & st' & Hc & _)|(i & st' & Hc & _ & Hi & _)];
      rewrite Hc in Hget; [done|].
    injection Hget as <- <-. rewrite Hi. apply lookup_insert_eq.
Qed.

Lemma vdb_run_call_keeps_cached (c : call) (st : registry_state)
    (key : string) (inst : vector_db_instance) :
  _VECTOR_DB_INSTANCES st !! key = Some inst ->
  _VECTOR_DB_INSTANCES (run_call settings c st) !! key = Some inst.
Proof.
  intros Hk. destruct c as [organization_id|name cls]; cbn; [|done].
  pose proof (get_vector_db_cases organization_id st) as Hc.
  destruct (_VECTOR_DB_INSTANCES st !! vdb_cache_key organization_id) eqn:E.
  - by rewrite Hc.
  - destruct Hc as [(e & st' & -> & Hi & _)|(i & st' & -> & _ & Hi & _)];
      cbn; rewrite Hi; [done|].
    rewrite lookup_insert_ne; [done|]. intros <-. congruence.
Qed.

Lemma vdb_run_calls_keep_cached (cs : list call) (st : registry_state)
    (key : string) (inst : vector_db_instance) :
  _VECTOR_DB_INSTANCES st !! key = Some inst ->
  _VECTOR_DB_INSTANCES (run_calls settings cs st) !! key = Some inst.
Proof.
  revert st. induction cs as [|c cs IH]; intros st Hk; [done|].
  cbn. apply IH. by apply vdb_run_call_keeps_cached.
Qed.

Lemma vdb_run_call_allocated (c : call) (st : registry_state) :
  allocated_below st -> allocated_below (run_call settings c st).
Proof.
  intros Hal. destruct c as [organization_id|name cls]; cbn; [|done].
  pose proof (get_vector_db_cases organization_id st) as Hc.
  destruct (_VECTOR_DB_INSTANCES st !! vdb_cache_key organization_id) eqn:E.
  - by rewrite Hc.
  - destruct Hc as [(e & st' & -> & Hi & Hn)|(i & st' & -> & Hid & Hi & Hn)];
      cbn; intros key inst; rewrite Hi, Hn; [apply Hal|].
    rewrite lookup_insert. case_decide.
    + intros [= <-]. lia.
    + intros Hk. apply Hal in Hk. lia.
Qed.

Lemma vdb_run_calls_allocated (cs : list call) (st : registry_state) :
  allocated_below st -> allocated_below (run_calls settings cs st).
Proof.
  revert st. induction cs as [|c cs IH]; intros st Hal; [done|].
  cbn. apply IH. by apply vdb_run_call_allocated.
Qed.

(** The vector database half of C6. *)
Lemma get_vector_db_idempotent (organization_id : string)
    (st st1 : registry_state) (inst : vector_db_instance) (cs : list call) :
  allocated_below st ->
  get_vector_db settings organization_id st = (Ret inst, st1) ->
  let st2 := run_calls settings cs st1 in
  get_vector_db settings organization_id st2 = (Ret inst, st2) /\
  _VECTOR_DB_INSTANCES (clear_vector_db_cache st2) = ∅ /\
  fst (get_vector_db settings organization_id (clear_vector_db_cache st2))
    <> Ret inst /\
  forall fresh st3,
    get_vector_db settings organization_id (clear_vector_db_cache st2)
      = (Ret fresh, st3) ->
    instance_id fresh = next_object st2 /\
    instance_id inst < instance_id fresh.
Proof.
  intros Hal Hget st2.
  pose proof (get_vector_db_returned_is_cached _ _ _ _ Hget) as Hc1.
  pose proof (vdb_run_calls_keep_cached cs _ _ _ Hc1) as Hc2. fold st2 in Hc2.
  assert (Hal1 : allocated_below st1).
  { replace st1 with (run_call settings (Resolve organization_id) st)
      by (cbn; by rewrite Hget).
    by apply vdb_run_call_allocated. }
  pose proof (vdb_run_calls_allocated cs _ Hal1) as Hal2. fold st2 in Hal2.
  pose proof (Hal2 _ _ Hc2) as Hlt.
  assert (Hfresh : forall fresh st3,
             get_vector_db settings organization_id (clear_vector_db_cache st2)
               = (Ret fresh, st3) ->
             instance_id fresh = next_object st2).
  { intros fresh st3 Hg.
    pose proof (get_vector_db_cases organization_id (clear_vector_db_cache st2))
      as Hc. cbn in Hc. rewrite lookup_empty in Hc.
    destruct Hc as [(e & st' & Hc & _)|(i & st' & Hc & Hid & _)];
      rewrite Hc in Hg; [done|].
    by injection Hg as <- <-. }
  split; [|split; [done|split]].
  - pose proof (get_vector_db_cases organization_id st2) as Hc.
    by rewrite Hc2 in Hc.
  - intros Heq.
    specialize (Hfresh inst
      (get_vector_db settings organization_id (clear_vector_db_cache st2)).2).
    rewrite <- Heq, <- surjective_pairing in Hfresh.
    specialize (Hfresh eq_refl). lia.
  - intros fresh st3 Hg. apply Hfresh in Hg as Hid. split; [done|lia].
Qed.

(** A miss whose class can be constructed allocates a new object of that
    class for the organization and files it under the key. *)
Lemma get_vector_db_constructs (organization_id : string)
    (st : registry_state) :
  _VECTOR_DB_INSTANCES st !! vdb_cache_key organization_id = None ->
  constructible settings organization_id st = true ->
  exists inst st1,
    get_vector_db settings organization_id st = (Ret inst, st1) /\
    instance_id inst = next_object st /\
    VectorDatabases.organization_id inst = organization_id /\
    resolved_class settings organization_id st = Some (instance_class inst) /\
    _VECTOR_DB_INSTANCES st1 !! vdb_cache_key organization_id = Some inst /\
    next_object st1 = S (next_object st).
Proof.
  intros Hmiss Hcon.
  unfold constructible, resolved_class, get_vector_db, cache_key in *.
  cbn zeta in *. rewrite Hmiss.
  destruct (_VECTOR_DB_REGISTRY st
              !! default (DEFAULT_VECTOR_DB settings)
                   (vector_db (get_company_config settings organization_id)))
    as [cls|] eqn:Hr; cbn.
  - rewrite Hr. destruct (init_raises cls _ _ _); [discriminate Hcon|].
    eexists _, _. split; [reflexivity|]. cbn.
    repeat split; try reflexivity. apply lookup_insert_eq.
  - destruct (_VECTOR_DB_REGISTRY st !! DEFAULT_VECTOR_DB settings)
      as [cls|]; [|discriminate Hcon].
    destruct (init_raises cls _ _ _); [discriminate Hcon|].
    eexists _, _. split; [reflexivity|]. cbn.
    repeat split; try reflexivity. apply lookup_insert_eq.
Qed.

(** A call whose class can be constructed returns an object. *)
Lemma get_vector_db_returns (organization_id : string)
    (st : registry_state) :
  constructible settings organization_id st = true ->
  exists inst st1,
    get_vector_db settings organization_id st = (Ret inst, st1).
Proof.
  intros Hcon.
  destruct (_VECTOR_DB_INSTANCES st !! vdb_cache_key organization_id)
    as [cached|] eqn:E.
  - pose proof (get_vector_db_cases organization_id st) as Hc.
    rewrite E in Hc. by exists cached, st.
  - destruct (get_vector_db_constructs _ _ E Hcon)
      as (inst & st1 & Hget & _).
    by exists inst, st1.
Qed.

(** After the cache is cleared, a call whose class can be constructed
    returns a newly allocated object. *)
Lemma get_vector_db_after_clear (organization_id : string)
    (st : registry_state) :
  constructible settings organization_id st = true ->
  exists fresh st3,
    get_vector_db settings organization_id (clear_vector_db_cache st)
      = (Ret fresh, st3) /\
    instance_id fresh = next_object st /\
    _VECTOR_DB_INSTANCES st3 !! vdb_cache_key organization_id = Some fresh.
Proof.
  intros Hcon.
  destruct (get_vector_db_constructs organization_id
              (clear_vector_db_cache st))
    as (fresh & st3 & Hget & Hid & _ & _ & Hc & _).
  - cbn. apply lookup_empty.
  - exact Hcon.
  - by exists fresh, st3.
Qed.

(** The vector database half of C7, as the code has it. *)
Lemma get_vector_db_fallback (organization_id : string)
    (st : registry_state) :
  let company_config := get_company_config settings organization_id in
  let name :=
    default (DEFAULT_VECTOR_DB settings) (vector_db company_config) in
  let shared_vector_db :=
    default (SHARED_VECTOR_DB settings) (shared_vector_db company_config) in
  let noted :=
    log_event st (ERROR, "Vector database not found: " +:+ name) in
  _VECTOR_DB_REGISTRY st !! name = None ->
  _VECTOR_DB_INSTANCES st !! vdb_cache_key organization_id = None ->
  match _VECTOR_DB_REGISTRY st !! DEFAULT_VECTOR_DB settings with
  | None =>
      get_vector_db settings organization_id st = (Raise KeyError, noted)
  | Some cls =>
      match init_raises cls organization_id company_config
              shared_vector_db with
      | Some e =>
          get_vector_db settings organization_id st = (Raise e, noted)
      | None =>
          exists inst st',
            get_vector_db settings organization_id st = (Ret inst, st') /\
            instance_class inst = cls /\
            VectorDatabases.organization_id inst = organization_id /\
            VectorDatabases.shared inst = shared_vector_db /\
            instance_id inst = next_object st /\
            _VECTOR_DB_INSTANCES st' !! vdb_cache_key organization_id
              = Some inst /\
            log st' = log st ++
              [(ERROR, "Vector database not found: " +:+ name);
               (INFO, "Created vector database instance")]
      end
  end.
Proof.
  intros company_config name shared_vector_db noted Hr Hc.
  unfold get_vector_db.
  fold company_config. fold name. fold shared_vector_db.
  unfold cache_key in Hc.
  fold company_config in Hc. fold name in Hc. fold shared_vector_db in Hc.
  cbn zeta in Hc. rewrite Hc, Hr. cbn.
  destruct (_VECTOR_DB_REGISTRY st !! DEFAULT_VECTOR_DB settings) as [cls|];
    [|done].
  destruct (init_raises cls _ _ _) as [e|]; [done|].
  eexists _, _. split; [done|]. cbn. rewrite lookup_insert_eq.
  by rewrite <- app_assoc.
Qed.

End VectorRegistryFacts.

Section RegistryClaims.

Import Config.

Lemma llm_initial_state_allocated (settings : Settings) :
  LLMProviders.allocated_below (LLMProviders.initial_state settings).
Proof. intros key inst H. cbn in H. by rewrite lookup_empty in H. Qed.

Lemma vdb_initial_state_allocated :
  VectorDatabases.allocated_below VectorDatabases.initial_state.
Proof. intros key inst H. cbn in H. by rewrite lookup_empty in H. Qed.

(** C6.  Under one and the same settings, a call of [get_llm_provider] (or
    [get_vector_db]) for an organization whose provider class is registered
    and can be constructed returns an object.  Once a call has returned an
    object for an organization, every later call for that organization
    returns that very object and leaves the registry state as it is,
    whatever resolutions and registrations happened in between.  Clearing
    the cache empties it; the next call does not return the old object, an
    object it returns is newly allocated, and it does return one, filed
    under the organization's key, when the class can be constructed at that
    time. *)
Theorem registries_return_the_cached_instance (settings : Settings) :
  (forall organization_id st,
     LLMProviders.constructible settings organization_id st = true ->
     exists inst st1,
       LLMProviders.get_llm_provider settings organization_id st
         = (Ret inst, st1)) /\
  (forall organization_id st st1 inst cs,
     LLMProviders.allocated_below st ->
     LLMProviders.get_llm_provider settings organization_id st = (Ret inst, st1) ->
     let st2 := LLMProviders.run_calls settings cs st1 in
     let cleared := LLMProviders.clear_provider_cache st2 in
     LLMProviders.get_llm_provider settings organization_id st2
       = (Ret inst, st2) /\
     LLMProviders._PROVIDER_INSTANCES cleared = ∅ /\
     fst (LLMProviders.get_llm_provider settings organization_id cleared)
       <> Ret inst /\
     (forall fresh st3,
        LLMProviders.get_llm_provider settings organization_id cleared
          = (Ret fresh, st3) ->
        LLMProviders.instance_id fresh = LLMProviders.next_object st2 /\
        LLMProviders.instance_id inst < LLMProviders.instance_id fresh) /\
     (LLMProviders.constructible settings organization_id st2 = true ->
      exists fresh st3,
        LLMProviders.get_llm_provider settings organization_id cleared
          = (Ret fresh, st3) /\
        LLMProviders.instance_id fresh = LLMProviders.next_object st2 /\
        LLMProviders.instance_id inst < LLMProviders.instance_id fresh /\
        LLMProviders._PROVIDER_INSTANCES st3
          !! LLMProviders.cache_key settings organization_id = Some fresh)) /\
  (forall organization_id st,
     VectorDatabases.constructible settings organization_id st = true ->
     exists inst st1,
       VectorDatabases.get_vector_db settings organization_id st
         = (Ret inst, st1)) /\
  (forall organization_id st st1 inst cs,
     VectorDatabases.allocated_below st ->
     VectorDatabases.get_vector_db settings organization_id st = (Ret inst, st1) ->
     let st2 := VectorDatabases.run_calls settings cs st1 in
     let cleared := VectorDatabases.clear_vector_db_cache st2 in
     VectorDatabases.get_vector_db settings organization_id st2
       = (Ret inst, st2) /\
     VectorDatabases._VECTOR_DB_INSTANCES cleared = ∅ /\
     fst (VectorDatabases.get_vector_db settings organization_id cleared)
       <> Ret inst /\
     (forall fresh st3,
        VectorDatabases.get_vector_db settings organization_id cleared
          = (Ret fresh, st3) ->
        VectorDatabases.instance_id fresh = VectorDatabases.next_object st2 /\
        VectorDatabases.instance_id inst < VectorDatabases.instance_id fresh) /\
     (VectorDatabases.constructible settings organization_id st2 = true ->
      exists fresh st3,
        VectorDatabases.get_vector_db settings organization_id cleared
          = (Ret fresh, st3) /\
        VectorDatabases.instance_id fresh = VectorDatabases.next_object st2 /\
        VectorDatabases.instance_id inst < VectorDatabases.instance_id fresh /\
        VectorDatabases._VECTOR_DB_INSTANCES st3
          !! VectorDatabases.cache_key settings organization_id = Some fresh)).
Proof.
  split; [|split; [|split]].
  - intros organization_id st. apply get_llm_provider_returns.
  - intros organization_id st st1 inst cs Hal Hget st2 cleared.
    destruct (get_llm_provider_idempotent settings organization_id st st1
                inst cs Hal Hget) as (Hsame & Hempty & Hnew & Hfresh).
    split; [exact Hsame|]. split; [exact Hempty|]. split; [exact Hnew|].
    split; [exact Hfresh|]. intros Hcon.
    destruct (get_llm_provider_after_clear settings organization_id st2 Hcon)
      as (fresh & st3 & Hg & Hid & Hc).
    exists fresh, st3. split; [exact Hg|]. split; [exact Hid|].
    split; [exact (proj2 (Hfresh fresh st3 Hg))|exact Hc].
  - intros organization_id st. apply get_vector_db_returns.
  - intros organization_id st st1 inst cs Hal Hget st2 cleared.
    destruct (get_vector_db_idempotent settings organization_id st st1
                inst cs Hal Hget) as (Hsame & Hempty & Hnew & Hfresh).
    split; [exact Hsame|]. split; [exact Hempty|]. split; [exact Hnew|].
    split; [exact Hfresh|]. intros Hcon.
    destruct (get_vector_db_after_clear settings organization_id st2 Hcon)
      as (fresh & st3 & Hg & Hid & Hc).
    exists fresh, st3. split; [exact Hg|]. split; [exact Hid|].
    split; [exact (proj2 (Hfresh fresh st3 Hg))|exact Hc].
Qed.

Lemma registries_return_the_cached_instance_witness :
  let settings := Examples.tenant_settings in
  let llm_calls :=
    [LLMProviders.Resolve "org2";
     LLMProviders.Register "mistral" LLMProviders.OllamaProvider;
     LLMProviders.Resolve "org1"] in
  let vdb_calls :=
    [VectorDatabases.Resolve "org2";
     VectorDatabases.Register "pinecone"
       (VectorDatabases.reachable_backend "PineconeProvider");
     VectorDatabases.Resolve "org1"] in
  (exists inst st1 fresh st3,
     let st2 := LLMProviders.run_calls settings llm_calls st1 in
     LLMProviders.get_llm_provider settings "org1"
       (LLMProviders.initial_state settings) = (Ret inst, st1) /\
     LLMProviders.instance_id inst = 0 /\
     LLMProviders.get_llm_provider settings "org1" st2 = (Ret inst, st2) /\
     LLMProviders.get_llm_provider settings "org1"
       (LLMProviders.clear_provider_cache st2) = (Ret fresh, st3) /\
     LLMProviders.instance_id fresh = 2 /\
     LLMProviders.class_name (LLMProviders.instance_class fresh)
       = "OllamaProvider") /\
  (exists inst st1 fresh st3,
     let st2 := VectorDatabases.run_calls settings vdb_calls st1 in
     VectorDatabases.get_vector_db settings "org1"
       VectorDatabases.initial_state = (Ret inst, st1) /\
     VectorDatabases.instance_id inst = 0 /\
     VectorDatabases.get_vector_db settings "org1" st2 = (Ret inst, st2) /\
     VectorDatabases.get_vector_db settings "org1"
       (VectorDatabases.clear_vector_db_cache st2) = (Ret fresh, st3) /\
     VectorDatabases.instance_id fresh = 2 /\
     VectorDatabases.class_name (VectorDatabases.instance_class fresh)
       = "PineconeProvider").
Proof.
  intros settings llm_calls vdb_calls.
  destruct (registries_return_the_cached_instance settings)
    as (Hllm & Hllm_cached & Hvdb & Hvdb_cached).
  split.
  - assert (Hcon : LLMProviders.constructible settings "org1"
                     (LLMProviders.initial_state settings) = true)
      by (vm_compute; reflexivity).
    destruct (Hllm "org1" (LLMProviders.initial_state settings) Hcon)
      as (inst & st1 & Hget).
    assert (Hcon2 : LLMProviders.constructible settings "org1"
                      (LLMProviders.run_calls settings llm_calls st1) = true).
    { replace st1 with
        (snd (LLMProviders.get_llm_provider settings "org1"
                (LLMProviders.initial_state settings)))
        by (rewrite Hget; reflexivity).
      vm_compute. reflexivity. }
    destruct (Hllm_cached "org1" (LLMProviders.initial_state settings) st1
                inst llm_calls (llm_initial_state_allocated settings) Hget)
      as (Hsame & _ & _ & _ & Hfresh).
    destruct (Hfresh Hcon2) as (fresh & st3 & Hg & Hid & _ & _).
    exists inst, st1, fresh, st3. cbn zeta.
    split; [exact Hget|].
    split; [vm_compute in Hget; by injection Hget as <- _|].
    split; [exact Hsame|]. split; [exact Hg|].
    assert (Hst1 : st1 =
              snd (LLMProviders.get_llm_provider settings "org1"
                     (LLMProviders.initial_state settings)))
      by (rewrite Hget; reflexivity).
    split.
    + rewrite Hid, Hst1. vm_compute. reflexivity.
    + assert (Hf : fresh =
                match fst (LLMProviders.get_llm_provider settings "org1"
                             (LLMProviders.clear_provider_cache
                                (LLMProviders.run_calls settings llm_calls st1)))
                with Ret i => i | Raise _ => fresh end)
        by (rewrite Hg; reflexivity).
      rewrite Hf, Hst1. vm_compute. reflexivity.
  - assert (Hcon : VectorDatabases.constructible settings "org1"
                     VectorDatabases.initial_state = true)
      by (vm_compute; reflexivity).
    destruct (Hvdb "org1" VectorDatabases.initial_state Hcon)
      as (inst & st1 & Hget).
    assert (Hcon2 : VectorDatabases.constructible settings "org1"
                      (VectorDatabases.run_calls settings vdb_calls st1) = true).
    { replace st1 with
        (snd (VectorDatabases.get_vector_db settings "org1"
                VectorDatabases.initial_state))
        by (rewrite Hget; reflexivity).
      vm_compute. reflexivity. }
    destruct (Hvdb_cached "org1" VectorDatabases.initial_state st1
                inst vdb_calls vdb_initial_state_allocated Hget)
      as (Hsame & _ & _ & _ & Hfresh).
    destruct (Hfresh Hcon2) as (fresh & st3 & Hg & Hid & _ & _).
    exists inst, st1, fresh, st3. cbn zeta.
    split; [exact Hget|].
    split; [vm_compute in Hget; by injection Hget as <- _|].
    split; [exact Hsame|]. split; [exact Hg|].
    assert (Hst1 : st1 =
              snd (VectorDatabases.get_vector_db settings "org1"
                     VectorDatabases.initial_state))
      by (rewrite Hget; reflexivity).
    split.
    + rewrite Hid, Hst1. vm_compute. reflexivity.
    + assert (Hf : fresh =
                match fst (VectorDatabases.get_vector_db settings "org1"
                             (VectorDatabases.clear_vector_db_cache
                                (VectorDatabases.run_calls settings vdb_calls st1)))
                with Ret i => i | Raise _ => fresh end)
        by (rewrite Hg; reflexivity).
      rewrite Hf, Hst1. vm_compute. reflexivity.
Defined.

(** C7 as stated fails.  Under settings where org1 names the unregistered
    provider [mistral] (and the unregistered vector database [pinecone]),
    the fallback is logged at error level and no warning is logged; and
    without an OpenAI API key the resolution raises [ValueError]. *)
Lemma registry_fallback_logs_error_and_may_raise :
  let st := LLMProviders.initial_state Examples.tenant_settings in
  let vst := VectorDatabases.initial_state in
  LLMProviders._PROVIDER_REGISTRY st
    !! get_llm_provider_for_company Examples.tenant_settings "org1" = None /\
  LLMProviders.log
    (snd (LLMProviders.get_llm_provider Examples.tenant_settings "org1" st))
    = [(ERROR, "LLM provider not found: mistral");
       (INFO, "Created LLM provider instance")] /\
  VectorDatabases.log
    (snd (VectorDatabases.get_vector_db Examples.tenant_settings "org1" vst))
    = [(ERROR, "Vector database not found: pinecone");
       (INFO, "Created vector database instance")] /\
  fst (LLMProviders.get_llm_provider Examples.keyless_settings "org1"
         (LLMProviders.initial_state Examples.keyless_settings))
    = Raise ValueError /\
  ~ (exists inst st' message,
       LLMProviders.get_llm_provider Examples.tenant_settings "org1" st
         = (Ret inst, st') /\
       (WARNING, message) ∈ LLMProviders.log st').
Proof.
  cbn zeta. split; [by vm_compute|]. split; [by vm_compute|].
  split; [by vm_compute|]. split; [by vm_compute|].
  intros (inst & st' & message & Hget & Hin).
  assert (Hlog : LLMProviders.log st' =
            [(ERROR, "LLM provider not found: mistral");
             (INFO, "Created LLM provider instance")]).
  { replace st' with
      (snd (LLMProviders.get_llm_provider Examples.tenant_settings "org1"
              (LLMProviders.initial_state Examples.tenant_settings)))
      by (by rewrite Hget).
    by vm_compute. }
  rewrite Hlog in Hin.
  repeat (apply elem_of_cons in Hin as [Hin|Hin]; [discriminate|]).
  by apply elem_of_nil in Hin.
Qed.

(** C7, amended.  When the provider name configured for an organization is
    not registered and nothing is cached under the organization's key,
    [get_llm_provider] (or [get_vector_db]) logs the fallback at error level
    and turns to the default name.  If the default name is registered and
    its constructor succeeds, the call returns a new object of the default's
    class, caches it and logs its creation; if the default name is not
    registered it raises [KeyError]; if the constructor raises, the call
    raises the same exception. *)
Theorem registries_fall_back_to_the_default (settings : Settings) :
  (forall organization_id st,
     let name := get_llm_provider_for_company settings organization_id in
     let noted :=
       LLMProviders.log_event st
         (ERROR, "LLM provider not found: " +:+ name) in
     LLMProviders._PROVIDER_REGISTRY st !! name = None ->
     LLMProviders._PROVIDER_INSTANCES st
       !! LLMProviders.cache_key settings organization_id = None ->
     match LLMProviders._PROVIDER_REGISTRY st
             !! DEFAULT_LLM_PROVIDER settings with
     | None =>
         LLMProviders.get_llm_provider settings organization_id st
           = (Raise KeyError, noted)
     | Some cls =>
         match LLMProviders.init_raises cls organization_id
                 (get_company_config settings organization_id) with
         | Some e =>
             LLMProviders.get_llm_provider settings organization_id st
               = (Raise e, noted)
         | None =>
             exists inst st',
               LLMProviders.get_llm_provider settings organization_id st
                 = (Ret inst, st') /\
               LLMProviders.instance_class inst = cls /\
               LLMProviders.instance_organization_id inst = organization_id /\
               LLMProviders.instance_id inst = LLMProviders.next_object st /\
               LLMProviders._PROVIDER_INSTANCES st'
                 !! LLMProviders.cache_key settings organization_id
                 = Some inst /\
               LLMProviders.log st' = LLMProviders.log st ++
                 [(ERROR, "LLM provider not found: " +:+ name);
                  (INFO, "Created LLM provider instance")]
         end
     end) /\
  (forall organization_id st,
     let company_config := get_company_config settings organization_id in
     let name :=
       default (DEFAULT_VECTOR_DB settings) (vector_db company_config) in
     let shared_vector_db :=
       default (SHARED_VECTOR_DB settings) (shared_vector_db company_config) in
     let noted :=
       VectorDatabases.log_event st
         (ERROR, "Vector database not found: " +:+ name) in
     VectorDatabases._VECTOR_DB_REGISTRY st !! name = None ->
     VectorDatabases._VECTOR_DB_INSTANCES st
       !! VectorDatabases.cache_key settings organization_id = None ->
     match VectorDatabases._VECTOR_DB_REGISTRY st
             !! DEFAULT_VECTOR_DB settings with
     | None =>
         VectorDatabases.get_vector_db settings organization_id st
           = (Raise KeyError, noted)
     | Some cls =>
         match VectorDatabases.init_raises cls organization_id company_config
                 shared_vector_db with
         | Some e =>
             VectorDatabases.get_vector_db settings organization_id st
               = (Raise e, noted)
         | None =>
             exists inst st',
               VectorDatabases.get_vector_db settings organization_id st
                 = (Ret inst, st') /\
               VectorDatabases.instance_class inst = cls /\
               VectorDatabases.organization_id inst = organization_id /\
               VectorDatabases.shared inst = shared_vector_db /\
               VectorDatabases.instance_id inst
                 = VectorDatabases.next_object st /\
               VectorDatabases._VECTOR_DB_INSTANCES st'
                 !! VectorDatabases.cache_key settings organization_id
                 = Some inst /\
               VectorDatabases.log st' = VectorDatabases.log st ++
                 [(ERROR, "Vector database not found: " +:+ name);
                  (INFO, "Created vector database instance")]
         end
     end).
Proof.
  split; intros organization_id st.
  - apply get_llm_provider_fallback.
  - apply get_vector_db_fallback.
Qed.

Lemma registries_fall_back_to_the_default_witness :
  let settings := Examples.tenant_settings in
  let st := LLMProviders.initial_state settings in
  LLMProviders._PROVIDER_REGISTRY st
    !! get_llm_provider_for_company settings "org1" = None /\
  LLMProviders._PROVIDER_INSTANCES st
    !! LLMProviders.cache_key settings "org1" = None /\
  exists inst st',
    LLMProviders.get_llm_provider settings "org1" st = (Ret inst, st') /\
    LLMProviders.instance_class inst = LLMProviders.OpenAIProvider settings /\
    LLMProviders.log st' =
      [(ERROR, "LLM provider not found: mistral");
       (INFO, "Created LLM provider instance")].
Proof.
  intros settings st.
  assert (H1 : LLMProviders._PROVIDER_REGISTRY st
                 !! get_llm_provider_for_company settings "org1" = None)
    by (by vm_compute).
  assert (H2 : LLMProviders._PROVIDER_INSTANCES st
                 !! LLMProviders.cache_key settings "org1" = None)
    by (by vm_compute).
  split; [exact H1|]. split; [exact H2|].
  pose proof (proj1 (registries_fall_back_to_the_default settings)
                "org1" st H1 H2) as H.
  change (LLMProviders._PROVIDER_REGISTRY st !! DEFAULT_LLM_PROVIDER settings)
    with (Some (LLMProviders.OpenAIProvider settings)) in H.
  change (LLMProviders.init_raises (LLMProviders.OpenAIProvider settings) "org1"
            (get_company_config settings "org1")) with (@None exn) in H.
  destruct H as (inst & st' & Hget & Hcls & _ & _ & _ & Hlog).
  exists inst, st'. split; [exact Hget|]. split; [exact Hcls|exact Hlog].
Defined.

End RegistryClaims.

(** ** The shared ChromaDB collection *)

Section ChromaFacts.

Import VectorDatabases Chroma.

(** The record carries another organization than the provider's. *)
Local Abbreviation foreign self r :=
  (value_eqb (dict_get (rec_metadata r) "organization_id")
             (VStr (organization_id self)) = false).

Lemma coll_get_ids_head (c : collection) (id : string) (r : stored)
    (rest : collection) :
  coll_get_ids c [id] = r :: rest -> r ∈ c /\ rec_id r = id.
Proof.
  intros E. assert (Hin : r ∈ coll_get_ids c [id]) by (rewrite E; by left).
  unfold coll_get_ids in Hin. apply list_elem_of_filter in Hin as [Hid Hin].
  split; [done|]. by apply list_elem_of_singleton in Hid.
Qed.

(** [get_document] on the exact id of a foreign document finds nothing. *)
Lemma get_document_foreign (self : vector_db_instance) (c : collection)
    (id : string) :
  shared self = true ->
  (forall r, r ∈ c -> rec_id r = id -> foreign self r) ->
  get_document self c id = None.
Proof.
  intros Hs Hf. unfold get_document.
  destruct (coll_get_ids c [id]) as [|r rest] eqn:E; [done|].
  apply coll_get_ids_head in E as [Hin Hid].
  by rewrite Hs, (Hf r Hin Hid).
Qed.

(** [update_document] on the exact id of a foreign document returns false
    and leaves the collection as it is. *)
Lemma update_document_foreign (self : vector_db_instance) (c : collection)
    (id : string) (text : option text) (embedding : option embedding_vector)
    (metadata : option (gmap string value)) :
  shared self = true ->
  (forall r, r ∈ c -> rec_id r = id -> foreign self r) ->
  update_document self c id text embedding metadata = (false, c).
Proof.
  intros Hs Hf. unfold update_document.
  destruct (coll_get_ids c [id]) as [|r rest] eqn:E; [done|].
  apply coll_get_ids_head in E as [Hin Hid].
  by rewrite Hs, (Hf r Hin Hid).
Qed.

Lemma filter_owned_none (self : vector_db_instance) (ids : list string)
    (i : nat) (metadatas : list (gmap string value)) (acc : list string) :
  Forall (fun m => value_eqb (dict_get m "organization_id")
                     (VStr (organization_id self)) = false) metadatas ->
  filter_owned self ids i metadatas acc = Ret acc.
Proof.
  intros H. revert i. induction H as [|m ms Hm _ IH]; intros i; cbn; [done|].
  by rewrite Hm.
Qed.

(** [delete_documents] called with the exact id of a foreign document, and
    nothing else, deletes nothing. *)
Lemma delete_documents_foreign_alone (self : vector_db_instance)
    (c : collection) (id : string) :
  shared self = true ->
  (forall r, r ∈ c -> rec_id r = id -> foreign self r) ->
  delete_documents self c [id] = (true, c).
Proof.
  intros Hs Hf. unfold delete_documents. rewrite Hs.
  rewrite filter_owned_none; [done|].
  apply Forall_fmap, Forall_forall. intros r Hin. cbn.
  unfold coll_get_ids in Hin. apply list_elem_of_filter in Hin as [Hid Hin].
  apply list_elem_of_singleton in Hid. by apply Hf.
Qed.

(** C2, at the failing input.  The shared collection holds [doc-b] of org2
    and [doc-a] of org1, and the provider is bound to org1.  Reading and
    updating [doc-b] are refused, and so is deleting it on its own; but
    [delete_documents] called with an unknown id, [doc-b] and [doc-a]
    answers true and deletes [doc-b], the document of org2, while [doc-a]
    stays. *)
Theorem delete_documents_deletes_foreign_document :
  let self := Examples.org1_db in
  let c := Examples.two_tenants in
  shared self = true /\
  rec_metadata Examples.doc_b !! "organization_id" = Some (VStr "org2") /\
  get_document self c "doc-b" = None /\
  update_document self c "doc-b" (Some (PlainText "overwritten")) None None
    = (false, c) /\
  delete_documents self c ["doc-b"] = (true, c) /\
  coll_get_ids c ["gone"; "doc-b"; "doc-a"] = [Examples.doc_b; Examples.doc_a] /\
  delete_documents self c ["gone"; "doc-b"; "doc-a"] = (true, [Examples.doc_a]).
Proof.
  cbn zeta. repeat split; vm_compute; reflexivity.
Qed.

End ChromaFacts.

(** ** The agent instance cache *)

Section AgentCacheFacts.

Import VectorDatabases Chroma AgentManager.

Lemma string_length_app (s1 s2 : string) :
  String.length (s1 +:+ s2) = String.length s1 + String.length s2.
Proof.
  induction s1 as [|a s1 IH]; [done|].
  change (S (String.length (s1 +:+ s2)) = S (String.length s1 + String.length s2)).
  by rewrite IH.
Qed.

Lemma cache_key_differs (organization_id agent_id : string) :
  agent_id <> organization_id +:+ ":" +:+ agent_id.
Proof.
  intros H. apply (f_equal String.length) in H.
  rewrite !string_length_app in H. cbn in H. lia.
Qed.

(** Dropping the entry filed under the bare agent id never touches the entry
    [_get_agent_instance] files under [organization_id:agent_id]. *)
Lemma drop_cached_keeps_instance (organization_id agent_id : string)
    (cache : gmap string RAGAgent) :
  drop_cached agent_id cache !! (organization_id +:+ ":" +:+ agent_id)
  = cache !! (organization_id +:+ ":" +:+ agent_id).
Proof.
  unfold drop_cached. destruct (cache !! agent_id); [|done].
  apply lookup_delete_ne, cache_key_differs.
Qed.

(** A successful [delete_agent] leaves the cached instance of the agent in
    the cache. *)
Lemma delete_agent_keeps_instance (vector_db : vector_db_instance) (w w' : world)
    (agent_id organization_id user_id : string) :
  delete_agent vector_db w agent_id organization_id user_id = (true, w') ->
  _agent_cache w' !! (organization_id +:+ ":" +:+ agent_id)
  = _agent_cache w !! (organization_id +:+ ":" +:+ agent_id).
Proof.
  unfold delete_agent.
  destruct (list_documents _ _ _ _ _) as [|agent_doc ?]; [done|].
  destruct (json_loads _) as [agent_metadata|]; [|done].
  destruct (negb _); [done|].
  destruct (delete_documents _ _ _) as [[|] c]; cbn; [|done].
  destruct (dissociate_all _ _ _ _) as [[[]|] c']; [|done].
  intros [= <-]. cbn. apply drop_cached_keeps_instance.
Qed.

(** So does a successful [update_agent]. *)
Lemma update_agent_keeps_instance (now : string)
    (vector_db : vector_db_instance) (w w' : world)
    (agent_id organization_id user_id : string)
    (name instructions description : option string)
    (document_ids : option (list string)) (document_filter : option value)
    (metadata : option (gmap string value)) (info : gmap string value) :
  update_agent now vector_db w agent_id organization_id user_id name
    instructions description document_ids document_filter metadata
    = (Some info, w') ->
  _agent_cache w' !! (organization_id +:+ ":" +:+ agent_id)
  = _agent_cache w !! (organization_id +:+ ":" +:+ agent_id).
Proof.
  unfold update_agent.
  destruct (list_documents _ _ _ _ _) as [|agent_doc ?]; [done|].
  destruct (json_loads _) as [agent_metadata|]; [|done].
  destruct (negb _); [done|].
  destruct (merge_custom _ _) as [agent_metadata' updated].
  match goal with
  | |- context [match ?d with Some _ => _ | None => (Ret tt, ?c) end] =>
      destruct d as [ids|]
  end.
  - destruct (dissociate_all _ _ _ _) as [[[]|] c1].
    + destruct (associate_all _ _ _ _ _) as [[[]|] c2]; [|done].
      destruct (get_agent _ _ _ _ _) as [[i|]|]; try done.
      intros [= _ <-]. cbn. apply drop_cached_keeps_instance.
    + done.
  - destruct (get_agent _ _ _ _ _) as [[i|]|]; try done.
    intros [= _ <-]. cbn. apply drop_cached_keeps_instance.
Qed.

(** C4, at the failing input.  Alice has chatted with agent-1 of org1, so
    the manager caches the instance under [org1:agent-1].  [delete_agent]
    then succeeds and [get_agent] no longer finds the agent, yet the cache
    still holds the instance and [_get_agent_instance] still returns it;
    a successful [update_agent] that renames the agent leaves the instance
    with the old name in the cache as well. *)
Theorem agent_cache_entry_survives_delete_and_update :
  let db := Examples.org1_db in
  let w := Examples.chatted in
  let deleted := delete_agent db w "agent-1" "org1" "alice" in
  let updated :=
    update_agent "2025-02-02T00:00:00" db w "agent-1" "org1" "alice"
      (Some "Guide") None None None None None in
  (_agent_name <$> _agent_cache w !! "org1:agent-1") = Some (VStr "Helper") /\
  fst deleted = true /\
  get_agent db (store (snd deleted)) "agent-1" "org1" "alice" = Ret None /\
  _agent_cache (snd deleted) !! "org1:agent-1"
    = _agent_cache w !! "org1:agent-1" /\
  fst (_get_agent_instance db (snd deleted) "agent-1" "org1" "alice")
    = Ret (_agent_cache w !! "org1:agent-1") /\
  (fun info => info !! "name") <$> fst updated = Some (Some (VStr "Guide")) /\
  _agent_cache (snd updated) !! "org1:agent-1"
    = _agent_cache w !! "org1:agent-1".
Proof.
  cbn zeta. repeat split; vm_compute; reflexivity.
Qed.

End AgentCacheFacts.

(** ** Records, ids and filters of the collection *)

Section CollectionFacts.

Import FilterSemantics VectorDatabases Chroma AgentManager.

Lemma filter_matches_spec (meta flt : gmap string value) :
  filter_matches meta flt = true <->
  forall k v, flt !! k = Some v -> entry_holds meta k v = true.
Proof.
  unfold filter_matches. rewrite forallb_forall. split.
  - intros H k v Hk. apply (H (k, v)).
    apply list_elem_of_In. by apply elem_of_map_to_list.
  - intros H [k v] Hin. apply list_elem_of_In, elem_of_map_to_list in Hin.
    by apply H.
Qed.

Lemma agent_filter_spec (meta : gmap string value)
    (agent_id organization_id : string) :
  filter_matches meta (agent_filter agent_id organization_id) = true <->
  field_matches (meta !! "agent_id") (VStr agent_id) = true /\
  field_matches (meta !! "organization_id") (VStr organization_id) = true /\
  field_matches (meta !! "document_type") (VStr "agent_metadata") = true.
Proof.
  rewrite filter_matches_spec. unfold agent_filter. split.
  - intros H. split; [|split].
    + apply (H "agent_id" (VStr agent_id)). by simplify_map_eq.
    + apply (H "organization_id" (VStr organization_id)). by simplify_map_eq.
    + apply (H "document_type" (VStr "agent_metadata")). by simplify_map_eq.
  - intros (H1 & H2 & H3) k v Hk.
    rewrite !lookup_insert_Some, lookup_singleton_Some in Hk.
    destruct Hk as [[<- <-]|[_ [[<- <-]|[_ [<- <-]]]]]; assumption.
Qed.

Lemma associated_docs_filter_spec (meta : gmap string value)
    (agent_id organization_id : string) :
  filter_matches meta (associated_docs_filter agent_id organization_id) = true
  <->
  lists_agent agent_id meta = true /\
  field_matches (meta !! "organization_id") (VStr organization_id) = true.
Proof.
  rewrite filter_matches_spec. unfold associated_docs_filter. split.
  - intros H. split.
    + apply (H "associated_agents" (VStr agent_id)). by simplify_map_eq.
    + apply (H "organization_id" (VStr organization_id)). by simplify_map_eq.
  - intros (H1 & H2) k v Hk.
    rewrite lookup_insert_Some, lookup_singleton_Some in Hk.
    destruct Hk as [[<- <-]|[_ [<- <-]]]; assumption.
Qed.

(** *** Unique ids *)

Lemma coll_get_ids_absent (c : collection) (id : string) :
  (forall r, r ∈ c -> rec_id r <> id) -> coll_get_ids c [id] = [].
Proof.
  intros H. unfold coll_get_ids. induction c as [|x c IH]; [done|].
  rewrite filter_cons_False.
  - apply IH. intros r Hr. apply H. by right.
  - rewrite list_elem_of_singleton. apply H. by left.
Qed.

Lemma coll_get_ids_unique (c : collection) (r : stored) :
  NoDup (rec_id <$> c) -> r ∈ c -> coll_get_ids c [rec_id r] = [r].
Proof.
  induction c as [|x c IH]; intros Hnd Hin; [by apply elem_of_nil in Hin|].
  cbn in Hnd. apply NoDup_cons in Hnd as [Hx Hnd].
  unfold coll_get_ids in *.
  apply elem_of_cons in Hin as [->|Hin].
  - rewrite filter_cons_True by (by apply list_elem_of_singleton).
    f_equal. apply coll_get_ids_absent.
    intros r Hr Heq. apply Hx. rewrite <- Heq.
    apply list_elem_of_fmap. by exists r.
  - rewrite filter_cons_False; [by apply IH|].
    rewrite list_elem_of_singleton. intros Heq. apply Hx. rewrite Heq.
    apply list_elem_of_fmap. by exists r.
Qed.

Lemma unique_ids_inj (c : collection) (r r' : stored) :
  NoDup (rec_id <$> c) -> r ∈ c -> r' ∈ c -> rec_id r = rec_id r' -> r = r'.
Proof.
  intros Hnd Hr Hr' Heq.
  pose proof (coll_get_ids_unique c r Hnd Hr) as H1.
  pose proof (coll_get_ids_unique c r' Hnd Hr') as H2.
  rewrite Heq in H1. rewrite H1 in H2. by injection H2.
Qed.

(** *** The provider calls the agent manager makes *)

Lemma delete_documents_owned (vector_db : vector_db_instance) (c : collection)
    (a : stored) :
  NoDup (rec_id <$> c) -> a ∈ c ->
  rec_metadata a !! "organization_id"
    = Some (VStr (organization_id vector_db)) ->
  delete_documents vector_db c [rec_id a] = (true, coll_delete c [rec_id a]).
Proof.
  intros Hnd Hin Horg. unfold delete_documents.
  destruct (shared vector_db); [|done].
  rewrite (coll_get_ids_unique c a Hnd Hin). cbn.
  unfold dict_get. rewrite Horg. cbn. by rewrite String.eqb_refl.
Qed.

Lemma list_documents_first (vector_db : vector_db_instance) (c : collection)
    (flt : gmap string value) (n : nat) :
  flt !! "organization_id" <> None ->
  list_documents vector_db c flt n 0 =
  listed <$> take n (filter (fun r => filter_matches (rec_metadata r) flt = true) c).
Proof.
  intros Hf. unfold list_documents, with_organization.
  rewrite bool_decide_eq_false_2 by done. rewrite andb_false_r.
  cbn [coll_get_where]. rewrite Nat.add_0_r, drop_0. f_equal.
  apply take_ge. rewrite length_take. lia.
Qed.

Lemma count_documents_length (vector_db : vector_db_instance) (c : collection)
    (flt : gmap string value) :
  flt !! "organization_id" <> None ->
  count_documents vector_db c flt =
  length (filter (fun r => filter_matches (rec_metadata r) flt = true) c).
Proof.
  intros Hf. unfold count_documents, with_organization.
  rewrite bool_decide_eq_false_2 by done. by rewrite andb_false_r.
Qed.

Lemma coll_delete_elem (c : collection) (id : string) (r : stored) :
  r ∈ coll_delete c [id] <-> r ∈ c /\ rec_id r <> id.
Proof.
  unfold coll_delete. rewrite list_elem_of_filter, list_elem_of_singleton. tauto.
Qed.

Lemma coll_delete_unique_ids (c : collection) (ids : list string) :
  NoDup (rec_id <$> c) -> NoDup (rec_id <$> coll_delete c ids).
Proof.
  intros Hnd. eapply sublist_NoDup; [exact Hnd|].
  apply fmap_sublist, sublist_filter.
Qed.

Lemma agent_filter_has_organization (agent_id organization_id : string) :
  agent_filter agent_id organization_id !! "organization_id" <> None.
Proof. unfold agent_filter. by simplify_map_eq. Qed.

Lemma associated_docs_filter_has_organization (agent_id organization_id : string) :
  associated_docs_filter agent_id organization_id !! "organization_id" <> None.
Proof. unfold associated_docs_filter. by simplify_map_eq. Qed.

Lemma filter_none {A : Type} (P : A -> Prop) `{!forall x, Decision (P x)}
    (l : list A) :
  (forall x, x ∈ l -> ~ P x) -> filter P l = [].
Proof.
  intros Hno. destruct (filter P l) as [|x rest] eqn:E; [done|].
  assert (Hx : x ∈ filter P l) by (rewrite E; by left).
  apply list_elem_of_filter in Hx as [HP Hx]. by destruct (Hno x Hx).
Qed.

End CollectionFacts.

(** ** Log calls inside a [LoggingContext] *)

Section LoggingFacts.

Import Config Logging.

(** Inside a context entered with an organization or a user, no record
    can be made from an [extra] dictionary that names both. *)
Lemma makeRecord_in_context (st : state) (organization_id user_id : string)
    (extra : list string) :
  organization_id <> "" \/ user_id <> "" ->
  "organization_id" ∈ extra -> "user_id" ∈ extra ->
  makeRecord (LoggingContext organization_id user_id st) extra = Raise KeyError.
Proof.
  intros Hid Ho Hu. unfold makeRecord.
  assert (Hex : existsb
            (fun key =>
               bool_decide (key ∈ ["message"; "asctime"]) ||
               bool_decide
                 (key ∈ record_attributes ++
                        factory_attributes
                          (LoggingContext organization_id user_id st)))
            extra = true); [|by rewrite Hex].
  apply existsb_exists. destruct Hid as [Hne|Hne].
  - exists "organization_id". split; [by apply list_elem_of_In|].
    apply orb_true_iff. right. apply bool_decide_eq_true_2.
    apply elem_of_app. right. cbn. apply elem_of_app. right.
    apply elem_of_app. left.
    destruct (String.eqb_spec organization_id ""); [done|]. by left.
  - exists "user_id". split; [by apply list_elem_of_In|].
    apply orb_true_iff. right. apply bool_decide_eq_true_2.
    apply elem_of_app. right. cbn. apply elem_of_app. right.
    apply elem_of_app. right.
    destruct (String.eqb_spec user_id ""); [done|]. by left.
Qed.

(** So a log call with such an [extra] raises [KeyError] when its level is
    enabled, and does nothing when it is not. *)
Lemma log_in_context (st : state) (organization_id user_id : string)
    (lvl : level) (extra : list string) :
  organization_id <> "" \/ user_id <> "" ->
  "organization_id" ∈ extra -> "user_id" ∈ extra ->
  effective_level st <= levelno lvl ->
  log (LoggingContext organization_id user_id st) lvl extra = Raise KeyError.
Proof.
  intros Hid Ho Hu Hlvl. unfold log. cbn [effective_level LoggingContext].
  rewrite (proj2 (Nat.leb_le _ _) Hlvl). by apply makeRecord_in_context.
Qed.

(** One clash is enough: inside a context entered with an organization,
    an enabled log call whose [extra] names [organization_id] raises. *)
Lemma log_names_organization (st : state) (organization_id user_id : string)
    (lvl : level) (extra : list string) :
  organization_id <> "" ->
  "organization_id" ∈ extra ->
  effective_level st <= levelno lvl ->
  log (LoggingContext organization_id user_id st) lvl extra = Raise KeyError.
Proof.
  intros Hne Hin Hlvl. unfold log, makeRecord.
  cbn [effective_level LoggingContext].
  rewrite (proj2 (Nat.leb_le _ _) Hlvl).
  assert (Hex : existsb
            (fun key =>
               bool_decide (key ∈ ["message"; "asctime"]) ||
               bool_decide
                 (key ∈ record_attributes ++
                        factory_attributes
                          (LoggingContext organization_id user_id st)))
            extra = true); [|by rewrite Hex].
  apply existsb_exists. exists "organization_id".
  split; [by apply list_elem_of_In|].
  apply orb_true_iff. right. apply bool_decide_eq_true_2.
  apply elem_of_app. right. cbn. apply elem_of_app. right.
  apply elem_of_app. left.
  destruct (String.eqb_spec organization_id ""); [done|]. by left.
Qed.

(** A log call returns or raises [KeyError]; nothing else. *)
Lemma log_cases (st : state) (lvl : level) (extra : list string) :
  log st lvl extra = Ret tt \/ log st lvl extra = Raise KeyError.
Proof.
  unfold log, makeRecord. destruct (_ <=? _); [|by left].
  destruct (existsb _ _); [by right|by left].
Qed.

Lemma log_then_return_cases {A : Type} (st : state) (lvl : level)
    (extra : list string) (result : A) :
  log_then_return st lvl extra result = Ret result \/
  log_then_return st lvl extra result = Raise KeyError.
Proof.
  unfold log_then_return.
  destruct (log_cases st lvl extra) as [-> | ->]; [by left|by right].
Qed.

Lemma except_log_return_cases {A : Type} (st : state) (extra : list string)
    (fallback : A) (body : outcome A) :
  except_log_return st extra fallback body = body \/
  except_log_return st extra fallback body = Ret fallback \/
  except_log_return st extra fallback body = Raise KeyError.
Proof.
  destruct body as [a|e]; [by left|]. cbn.
  destruct (log_then_return_cases st ERROR extra fallback) as [-> | ->];
    [right; by left|right; by right].
Qed.

(** A log call that raises at one level raises at every higher level. *)
Lemma log_raises_at_higher_level (st : state) (l1 l2 : level)
    (extra : list string) (e : exn) :
  levelno l1 <= levelno l2 ->
  log st l1 extra = Raise e -> log st l2 extra = Raise e.
Proof.
  unfold log. intros Hl.
  destruct (effective_level st <=? levelno l1) eqn:E1; [|discriminate].
  apply Nat.leb_le in E1.
  rewrite (proj2 (Nat.leb_le (effective_level st) (levelno l2))) by lia.
  done.
Qed.

(** The closing [logger.info] of a successful call under its handler: the
    call answers, or both log calls raise. *)
Lemma closing_log_cases {A : Type} (st : state) (keys : list string)
    (result fallback : A) :
  except_log_return st keys fallback (log_then_return st INFO keys result)
    = Ret result \/
  except_log_return st keys fallback (log_then_return st INFO keys result)
    = Raise KeyError.
Proof.
  assert (Hbody : log_then_return st INFO keys result
                  = match log st INFO keys with
                    | Raise e => Raise e
                    | Ret _ => Ret result
                    end) by reflexivity.
  rewrite Hbody. clear Hbody.
  destruct (log st INFO keys) as [u|e] eqn:Hinfo; [by left|right].
  destruct (log_cases st INFO keys) as [H|H]; rewrite H in Hinfo; [done|].
  injection Hinfo as <-. cbn. unfold log_then_return.
  by rewrite (log_raises_at_higher_level st INFO ERROR keys KeyError)
    by (cbn; lia || done).
Qed.

Lemma log_disabled (st : state) (lvl : level) (extra : list string) :
  levelno lvl < effective_level st -> log st lvl extra = Ret tt.
Proof.
  intros Hlvl. unfold log.
  by rewrite (proj2 (Nat.leb_gt _ _) Hlvl).
Qed.

End LoggingFacts.

(** ** Deleting an agent *)

Section AgentDeletionFacts.

Import Config Chroma Logging.

Variable S : Type.

Variable vdb_list_documents :
  Logging.state -> S -> gmap string value -> nat -> nat -> outcome (list doc).

Variable vdb_count_documents :
  Logging.state -> S -> gmap string value -> outcome nat.

Variable vdb_delete_documents :
  Logging.state -> S -> list string -> outcome bool * S.

Variable vdb_update_document :
  Logging.state -> S -> string -> option text -> option embedding_vector ->
  option (gmap string value) -> outcome bool * S.

Local Abbreviation get_agent :=
  (ManagerInContext.get_agent S vdb_list_documents vdb_count_documents).

Local Abbreviation delete_agent :=
  (ManagerInContext.delete_agent S vdb_list_documents vdb_delete_documents
     vdb_update_document).

Local Abbreviation dissociate :=
  (ManagerInContext.dissociate S vdb_update_document).

Local Abbreviation three_keys := ["agent_id"; "organization_id"; "user_id"].

Lemma three_keys_organization : "organization_id" ∈ three_keys.
Proof. right. left. Qed.

Lemma three_keys_user : "user_id" ∈ three_keys.
Proof. right. right. left. Qed.

(** Whatever the vector database answers, when warnings are emitted
    [get_agent] for a named organization or user does not return [None]:
    the warning of the not-found branch raises [KeyError], and so does the
    error logged by the handler. *)
Lemma get_agent_absent_raises (logging : Logging.state) (s : S)
    (agent_id organization_id user_id : string) :
  organization_id <> "" \/ user_id <> "" ->
  effective_level logging <= levelno WARNING ->
  vdb_list_documents (LoggingContext organization_id user_id logging) s
    (AgentManager.agent_filter agent_id organization_id) 1 0 = Ret [] ->
  get_agent logging s agent_id organization_id user_id = Raise KeyError.
Proof.
  intros Hid Hlvl Hlist. unfold ManagerInContext.get_agent.
  rewrite Hlist. unfold log_then_return, except_log_raise.
  rewrite (log_in_context logging organization_id user_id WARNING three_keys
             Hid three_keys_organization three_keys_user Hlvl).
  rewrite (log_in_context logging organization_id user_id ERROR three_keys
             Hid three_keys_organization three_keys_user); [done|].
  cbn in *. lia.
Qed.

Lemma get_agent_never_absent (logging : Logging.state) (s : S)
    (agent_id organization_id user_id : string) :
  organization_id <> "" \/ user_id <> "" ->
  effective_level logging <= levelno WARNING ->
  get_agent logging s agent_id organization_id user_id <> Ret None.
Proof.
  intros Hid Hlvl.
  assert (Herr : log (LoggingContext organization_id user_id logging) ERROR
                   three_keys = Raise KeyError).
  { apply log_in_context;
      [exact Hid|exact three_keys_organization|exact three_keys_user|].
    cbn in *. lia. }
  destruct (vdb_list_documents (LoggingContext organization_id user_id logging)
              s (AgentManager.agent_filter agent_id organization_id) 1 0)
    as [[|agent_doc rest]|e] eqn:Hlist.
  - by rewrite get_agent_absent_raises.
  - unfold ManagerInContext.get_agent. rewrite Hlist.
    destruct (json_loads (doc_text agent_doc)) as [agent_metadata|e];
      [|cbn; by rewrite Herr].
    destruct (vdb_count_documents _ _ _) as [document_count|e];
      [discriminate|cbn; by rewrite Herr].
  - unfold ManagerInContext.get_agent. rewrite Hlist. cbn. by rewrite Herr.
Qed.

(** With warnings switched off the not-found branch returns [None]. *)
Lemma get_agent_absent_quiet (logging : Logging.state) (s : S)
    (agent_id organization_id user_id : string) :
  levelno WARNING < effective_level logging ->
  vdb_list_documents (LoggingContext organization_id user_id logging) s
    (AgentManager.agent_filter agent_id organization_id) 1 0 = Ret [] ->
  get_agent logging s agent_id organization_id user_id = Ret None.
Proof.
  intros Hlvl Hlist. unfold ManagerInContext.get_agent.
  rewrite Hlist. unfold log_then_return.
  by rewrite log_disabled.
Qed.

(** Under the level [setup_logging] sets by default, every path of
    [delete_agent] for a named organization ends in a log call that raises
    [KeyError], the last one in the handler: the call never returns. *)
Lemma delete_agent_raises_when_info_is_logged (logging : Logging.state)
    (w : ManagerInContext.world S) (agent_id organization_id user_id : string) :
  organization_id <> "" ->
  effective_level logging <= levelno INFO ->
  fst (delete_agent logging w agent_id organization_id user_id)
  = Raise KeyError.
Proof.
  intros Ho Hlvl.
  assert (Hlog : forall lvl extra,
             lvl <> DEBUG ->
             "organization_id" ∈ extra ->
             log (LoggingContext organization_id user_id logging) lvl extra
             = Raise KeyError).
  { intros lvl extra Hdebug Hin. apply log_names_organization; [done..|].
    destruct lvl; [done|cbn in *; lia..]. }
  assert (Hret : forall lvl extra (b : bool),
             lvl <> DEBUG ->
             "organization_id" ∈ extra ->
             except_log_return (LoggingContext organization_id user_id logging)
               three_keys false
               (log_then_return
                  (LoggingContext organization_id user_id logging) lvl extra b)
             = Raise KeyError).
  { intros lvl extra b Hdebug Hin. unfold log_then_return, except_log_return.
    rewrite (Hlog lvl extra Hdebug Hin). unfold log_then_return.
    by rewrite (Hlog ERROR three_keys ltac:(done) three_keys_organization). }
  assert (Hexc : forall e,
             except_log_return (LoggingContext organization_id user_id logging)
               three_keys false (Raise e)
             = Raise KeyError).
  { intros e. unfold except_log_return, log_then_return.
    by rewrite (Hlog ERROR three_keys ltac:(done) three_keys_organization). }
  unfold ManagerInContext.delete_agent.
  destruct (vdb_list_documents _ _ _ _ _) as [[|agent_doc rest]|e];
    cbn [fst]; [apply Hret; [done|right; left]|..|apply Hexc].
  destruct (json_loads (doc_text agent_doc)) as [agent_metadata|e];
    cbn [fst]; [|apply Hexc].
  destruct (negb _); cbn [fst]; [apply Hret; [done|right; left]|].
  destruct (vdb_delete_documents _ _ _) as [[[|]|e] s1];
    cbn [fst]; [|apply Hret; [done|right; right; left]|apply Hexc].
  destruct (vdb_list_documents _ s1 _ _ _) as [associated_docs|e];
    cbn [fst]; [|apply Hexc].
  destruct (ManagerInContext.dissociate_all _ _ _ _ _ _) as [[u|e] s2];
    cbn [fst]; [apply Hret; [done|right; left]|apply Hexc].
Qed.

(** The loop hands [update_document] the metadata without the key
    [associated_agents] when the agent was the only one listed; a database
    that merges the keys it is given keeps the stored list. *)
Lemma dissociate_only_agent (logging : Logging.state) (agent_id : string)
    (s : S) (d : doc) :
  doc_metadata d !! "associated_agents" = Some (VList [VStr agent_id]) ->
  dissociate logging agent_id s d
  = match vdb_update_document logging s (doc_id d) None None
            (Some (delete "associated_agents" (doc_metadata d))) with
    | (Raise e, s) => (Raise e, s)
    | (Ret _, s) => (Ret tt, s)
    end.
Proof.
  intros Hm. unfold ManagerInContext.dissociate. rewrite Hm.
  cbn. by rewrite String.eqb_refl.
Qed.

End AgentDeletionFacts.

Section AgentDeletionExamples.

Import Config Chroma.

(** C5, at the failing input.  Python's logging is in its default state
    (level [WARNING]), and the vector database honours filters and merges
    metadata on update.  The collection holds the metadata document of
    agent-1, created by alice in org1, the document doc-1 that lists agent-1
    only and the document doc-2 that lists agent-2 and agent-1.
    [delete_agent] returns true and the metadata document is deleted while
    doc-1 and doc-2 are kept; but doc-1 still lists agent-1 (doc-2 no longer
    does), and [get_agent] raises [KeyError] where the claim has it return
    absent. *)
Theorem delete_agent_then_get_agent_raises :
  let logging := Logging.python_default in
  let w :=
    {| ManagerInContext.store := Examples.handbook;
       ManagerInContext._agent_cache := ∅ |} in
  let deleted := MemoryProvider.delete_agent logging w "agent-1" "org1" "alice" in
  let c := ManagerInContext.store (snd deleted) in
  fst deleted = Ret true /\
  rec_id <$> c = ["doc-1"; "doc-2"] /\
  (fun r => AgentManager.lists_agent "agent-1" (rec_metadata r)) <$> c
    = [true; false] /\
  MemoryProvider.get_agent logging c "agent-1" "org1" "alice" = Raise KeyError.
Proof.
  cbn zeta. repeat split; vm_compute; reflexivity.
Qed.

End AgentDeletionExamples.

(** * Further properties of the code *)

(** ** What the access filters let through *)

Section AccessPolicy.

Import Filtering FilterSemantics.

Lemma filter_matches_empty (meta : gmap string value) :
  filter_matches meta ∅ = true.
Proof. apply filter_matches_spec. intros k v Hk. by rewrite lookup_empty in Hk. Qed.

Lemma filter_matches_insert (meta flt : gmap string value) (k : string)
    (v : value) :
  flt !! k = None ->
  filter_matches meta (<[k := v]> flt)
  = entry_holds meta k v && filter_matches meta flt.
Proof.
  intros Hk. apply Bool.eq_iff_eq_true.
  rewrite andb_true_iff, !filter_matches_spec. split.
  - intros H. split.
    + apply H. apply lookup_insert_eq.
    + intros k' v' Hk'. apply H. rewrite lookup_insert_ne; [exact Hk'|].
      intros <-. rewrite Hk in Hk'. discriminate Hk'.
  - intros [H1 H2] k' v' Hk'. apply lookup_insert_Some in Hk' as [[<- <-]|[_ Hk']].
    + exact H1.
    + by apply H2.
Qed.

Lemma filter_matches_singleton (meta : gmap string value) (k : string)
    (v : value) :
  filter_matches meta {[k := v]} = entry_holds meta k v.
Proof.
  rewrite <- insert_empty, filter_matches_insert by apply lookup_empty.
  by rewrite filter_matches_empty, andb_true_r.
Qed.

Lemma dict_update_empty (dst : gmap string value) : dict_update dst ∅ = dst.
Proof. unfold dict_update. apply map_fold_empty. Qed.

Lemma in_levels (stored : option value) (levels : list string) :
  operator_holds stored "$in" (VList (VStr <$> levels))
  = existsb (fun level => field_matches stored (VStr level)) levels.
Proof.
  cbn. induction levels as [|l ls IH]; [reflexivity|]. cbn. by rewrite IH.
Qed.

Lemma default_access_filter (meta : gmap string value)
    (organization_id user_id : string) :
  filter_matches meta (get_access_filters organization_id user_id None ∅)
  = field_matches (meta !! "organization_id") (VStr organization_id) &&
    (field_matches (meta !! "user_id") (VStr user_id) ||
     existsb (fun level => field_matches (meta !! "visibility") (VStr level))
       [SHARED; PUBLIC]).
Proof.
  unfold get_access_filters. rewrite dict_update_empty.
  rewrite filter_matches_insert, filter_matches_singleton by done.
  cbn. rewrite !orb_false_r, !andb_true_r. apply andb_comm.
Qed.

(** X1.  The filter built without extra filters, read as a policy: the
    stored organization must be the caller's, and then, by the visibility
    argument, the document must be the caller's own or carry one of the
    admitted visibility levels. *)
Theorem access_filter_policy (meta : gmap string value)
    (organization_id user_id : string) (visibility : option (list string)) :
  let own := field_matches (meta !! "user_id") (VStr user_id) in
  let level_in levels :=
    existsb (fun level => field_matches (meta !! "visibility") (VStr level))
      levels in
  filter_matches meta (get_access_filters organization_id user_id visibility ∅)
  = field_matches (meta !! "organization_id") (VStr organization_id) &&
    match visibility with
    | None => own || level_in [SHARED; PUBLIC]
    | Some levels =>
        if bool_decide (PRIVATE ∈ levels) then
          if length levels =? 1 then own
          else own || level_in (filter (fun v => v ≠ PRIVATE) levels)
        else level_in levels
    end.
Proof.
  cbn zeta. destruct visibility as [levels|]; [|apply default_access_filter].
  unfold get_access_filters. rewrite dict_update_empty.
  case_bool_decide.
  - destruct (length levels =? 1).
    + rewrite filter_matches_insert, filter_matches_singleton by done.
      cbn. apply andb_comm.
    + rewrite filter_matches_insert, filter_matches_singleton by done.
      unfold visibility_in, own_documents.
      cbn -[operator_holds]. rewrite in_levels.
      rewrite !andb_true_r, orb_false_r. apply andb_comm.
  - rewrite filter_matches_insert, filter_matches_singleton by done.
    cbn -[operator_holds]. rewrite in_levels.
    rewrite andb_true_r. apply andb_comm.
Qed.

End AccessPolicy.

(** ** The direct check, the filter and sanitized metadata *)

Section AccessAgreement.

Import Filtering FilterSemantics Sanitizing.

(** X2.  Inside the caller's organization the direct check and the default
    filter decide alike: for a document stamped with the caller's
    organization whose [user_id] and [visibility] are not lists,
    [document_access_check] returns what the filter of
    [get_access_filters] evaluates to. *)
Theorem document_access_check_agrees_with_default_filter
    (meta : gmap string value) (organization_id user_id : string) :
  meta !! "organization_id" = Some (VStr organization_id) ->
  (forall items, meta !! "user_id" <> Some (VList items)) ->
  (forall items, meta !! "visibility" <> Some (VList items)) ->
  document_access_check meta user_id organization_id
  = filter_matches meta (get_access_filters organization_id user_id None ∅).
Proof.
  intros Horg Huser Hvis. rewrite default_access_filter.
  unfold document_access_check, dict_get, dict_get_or. rewrite Horg. cbn.
  rewrite String.eqb_refl. cbn.
  destruct (meta !! "user_id") as [[|n|u|items|kvs]|];
    try (by destruct (Huser items)); cbn;
    destruct (meta !! "visibility") as [[|m|v|items'|kvs']|];
    try (by destruct (Hvis items')); cbn;
    try reflexivity;
    try (destruct (String.eqb u user_id); cbn; try reflexivity);
    unfold PRIVATE, SHARED, PUBLIC;
    destruct (String.eqb_spec v "private") as [->|_]; try reflexivity;
    destruct (String.eqb_spec v "shared") as [->|_]; try reflexivity;
    destruct (String.eqb_spec v "public") as [->|_]; reflexivity.
Qed.

Lemma document_access_check_agrees_with_default_filter_witness :
  Examples.alice_private !! "organization_id" = Some (VStr "org1") /\
  document_access_check Examples.alice_private "bob" "org1" = false /\
  filter_matches Examples.alice_private
    (get_access_filters "org1" "bob" None ∅) = false.
Proof.
  assert (H1 : Examples.alice_private !! "organization_id" = Some (VStr "org1"))
    by (vm_compute; reflexivity).
  assert (H2 : forall items,
             Examples.alice_private !! "user_id" <> Some (VList items))
    by (intros items; vm_compute; discriminate).
  assert (H3 : forall items,
             Examples.alice_private !! "visibility" <> Some (VList items))
    by (intros items; vm_compute; discriminate).
  pose proof (document_access_check_agrees_with_default_filter
                Examples.alice_private "org1" "bob" H1 H2 H3) as H.
  split; [exact H1|].
  assert (Hc : document_access_check Examples.alice_private "bob" "org1" = false)
    by (vm_compute; reflexivity).
  split; [exact Hc|]. rewrite <- H. exact Hc.
Defined.

Lemma is_visibility_level_spec (v : value) :
  is_visibility_level v = true <->
  v = VStr PRIVATE \/ v = VStr SHARED \/ v = VStr PUBLIC.
Proof.
  unfold is_visibility_level. cbn [existsb].
  rewrite !orb_true_iff, !value_eqb_str_r. intuition discriminate.
Qed.

Ltac sanitize_cases metadata :=
  unfold sanitize_metadata_for_storage;
  rewrite (lookup_insert_ne _ "user_id" "visibility") by done;
  rewrite (lookup_insert_ne _ "organization_id" "visibility") by done;
  destruct (metadata !! "visibility") as [?v|] eqn:?Hv;
    [destruct (is_visibility_level _) eqn:?Hl|];
    cbn [negb fst snd];
    rewrite ?(lookup_insert_ne _ "visibility" "timestamp") by done;
    rewrite ?(lookup_insert_ne _ "user_id" "timestamp") by done;
    rewrite ?(lookup_insert_ne _ "organization_id" "timestamp") by done;
    destruct (metadata !! "timestamp") as [?t|] eqn:?Ht;
    cbn [default fst snd].

Lemma sanitize_organization (now : Z) (metadata : gmap string value)
    (organization_id user_id : string) :
  fst (sanitize_metadata_for_storage now metadata organization_id user_id)
    !! "organization_id" = Some (VStr organization_id).
Proof. sanitize_cases metadata; by simplify_map_eq. Qed.

Lemma sanitize_user (now : Z) (metadata : gmap string value)
    (organization_id user_id : string) :
  fst (sanitize_metadata_for_storage now metadata organization_id user_id)
    !! "user_id" = Some (VStr user_id).
Proof. sanitize_cases metadata; by simplify_map_eq. Qed.

Lemma sanitize_visibility (now : Z) (metadata : gmap string value)
    (organization_id user_id : string) :
  fst (sanitize_metadata_for_storage now metadata organization_id user_id)
    !! "visibility" =
  match metadata !! "visibility" with
  | Some v => if is_visibility_level v then Some v else Some (VStr PRIVATE)
  | None => Some (VStr PRIVATE)
  end.
Proof. sanitize_cases metadata; by simplify_map_eq. Qed.

Lemma sanitize_timestamp (now : Z) (metadata : gmap string value)
    (organization_id user_id : string) :
  fst (sanitize_metadata_for_storage now metadata organization_id user_id)
    !! "timestamp" = Some (default (VInt now) (metadata !! "timestamp")).
Proof. sanitize_cases metadata; by simplify_map_eq. Qed.

Lemma sanitize_other (now : Z) (metadata : gmap string value)
    (organization_id user_id k : string) :
  k ∉ ["organization_id"; "user_id"; "visibility"; "timestamp"] ->
  fst (sanitize_metadata_for_storage now metadata organization_id user_id) !! k
  = metadata !! k.
Proof.
  intros Hk.
  assert (k <> "organization_id" /\ k <> "user_id" /\ k <> "visibility" /\
          k <> "timestamp") as (? & ? & ? & ?)
    by (repeat split; intros ->; apply Hk; set_solver).
  sanitize_cases metadata; by simplify_map_eq.
Qed.

Lemma sanitize_warnings (now : Z) (metadata : gmap string value)
    (organization_id user_id : string) :
  snd (sanitize_metadata_for_storage now metadata organization_id user_id) <> []
  <-> exists v, metadata !! "visibility" = Some v /\
                is_visibility_level v = false.
Proof.
  sanitize_cases metadata; split; try done.
  - intros (v' & [= <-] & Hf). congruence.
  - intros (v' & [= <-] & Hf). congruence.
  - intros _. by eexists.
  - intros _. by eexists.
  - intros (v' & Hv' & _). discriminate Hv'.
  - intros (v' & Hv' & _). discriminate Hv'.
Qed.

Lemma sanitize_visibility_level (now : Z) (metadata : gmap string value)
    (organization_id user_id : string) :
  exists v,
    fst (sanitize_metadata_for_storage now metadata organization_id user_id)
      !! "visibility" = Some v /\ is_visibility_level v = true.
Proof.
  rewrite sanitize_visibility.
  destruct (metadata !! "visibility") as [v|].
  - destruct (is_visibility_level v) eqn:Hl; eexists; split; try reflexivity.
    exact Hl.
  - eexists; split; reflexivity.
Qed.

(** X3.  What [sanitize_metadata_for_storage] guarantees: the result
    carries the caller's organization and user whatever the input said, a
    visibility that is one of the three levels (the input's when that is
    one, private otherwise, with a warning exactly when the input carried
    something else), a timestamp (the input's when there is one), and every
    other entry of the input unchanged. *)
Theorem sanitize_metadata_for_storage_spec (now : Z)
    (metadata : gmap string value) (organization_id user_id : string) :
  let result :=
    sanitize_metadata_for_storage now metadata organization_id user_id in
  let sanitized := fst result in
  sanitized !! "organization_id" = Some (VStr organization_id) /\
  sanitized !! "user_id" = Some (VStr user_id) /\
  (exists v, sanitized !! "visibility" = Some v /\ is_visibility_level v = true) /\
  sanitized !! "visibility" =
    match metadata !! "visibility" with
    | Some v => if is_visibility_level v then Some v else Some (VStr PRIVATE)
    | None => Some (VStr PRIVATE)
    end /\
  sanitized !! "timestamp" =
    Some (default (VInt now) (metadata !! "timestamp")) /\
  (snd result <> [] <->
   exists v, metadata !! "visibility" = Some v /\ is_visibility_level v = false) /\
  forall k,
    k ∉ ["organization_id"; "user_id"; "visibility"; "timestamp"] ->
    sanitized !! k = metadata !! k.
Proof.
  cbn zeta.
  split; [apply sanitize_organization|]. split; [apply sanitize_user|].
  split; [apply sanitize_visibility_level|].
  split; [apply sanitize_visibility|]. split; [apply sanitize_timestamp|].
  split; [apply sanitize_warnings|]. intros k. apply sanitize_other.
Qed.

(** X4.  Sanitizing is idempotent: sanitizing the result again for the same
    caller, at any later time, returns it unchanged and logs nothing. *)
Theorem sanitize_metadata_for_storage_idempotent (now later : Z)
    (metadata : gmap string value) (organization_id user_id : string) :
  let sanitized :=
    fst (sanitize_metadata_for_storage now metadata organization_id user_id) in
  sanitize_metadata_for_storage later sanitized organization_id user_id
  = (sanitized, []).
Proof.
  cbn zeta.
  pose proof (sanitize_organization now metadata organization_id user_id) as Ho.
  pose proof (sanitize_user now metadata organization_id user_id) as Hu.
  pose proof (sanitize_timestamp now metadata organization_id user_id) as Ht.
  destruct (sanitize_visibility_level now metadata organization_id user_id)
    as (v & Hv & Hl).
  set (s := fst (sanitize_metadata_for_storage now metadata organization_id
                   user_id)) in *.
  unfold sanitize_metadata_for_storage at 1.
  rewrite (insert_id s "organization_id") by exact Ho.
  rewrite (insert_id s "user_id") by exact Hu.
  rewrite Hv, Hl. cbn [negb]. by rewrite Ht.
Qed.

(** X5.  Who can retrieve a sanitized document through the default access
    filter: a requester of organization [org'] and user [user'] gets it
    exactly when the organization is the storing caller's and the requester
    is the storing user or the stored visibility is shared or public. *)
Theorem sanitized_document_access (now : Z) (metadata : gmap string value)
    (organization_id user_id org' user' : string) :
  let sanitized :=
    fst (sanitize_metadata_for_storage now metadata organization_id user_id) in
  filter_matches sanitized (get_access_filters org' user' None ∅) = true <->
  org' = organization_id /\
  (user' = user_id \/
   sanitized !! "visibility" = Some (VStr SHARED) \/
   sanitized !! "visibility" = Some (VStr PUBLIC)).
Proof.
  cbn zeta.
  pose proof (sanitize_organization now metadata organization_id user_id) as Ho.
  pose proof (sanitize_user now metadata organization_id user_id) as Hu.
  destruct (sanitize_visibility_level now metadata organization_id user_id)
    as (v & Hv & Hl).
  set (s := fst (sanitize_metadata_for_storage now metadata organization_id
                   user_id)) in *.
  rewrite default_access_filter. rewrite Ho, Hu, Hv. cbn.
  rewrite !orb_false_r, andb_true_iff, !orb_true_iff.
  rewrite !String.eqb_eq.
  apply is_visibility_level_spec in Hl.
  destruct Hl as [Hl|[Hl|Hl]]; rewrite Hl; cbn;
    intuition (try discriminate; try congruence).
Qed.

End AccessAgreement.

(** ** What retrieval returns *)

Section RetrievalPolicy.

Import Filtering FilterSemantics Retriever.

Lemma default_filter_keys (organization_id user_id k : string) (v : value) :
  get_access_filters organization_id user_id None ∅ !! k = Some v ->
  k ∈ security_keys.
Proof.
  unfold get_access_filters. rewrite dict_update_empty.
  rewrite lookup_insert_Some, lookup_singleton_Some.
  intros [[<- _]|[_ [<- _]]]; unfold security_keys; set_solver.
Qed.

Lemma search_filter_narrows (meta : gmap string value)
    (organization_id user_id : string)
    (filter_dict : option (gmap string value)) :
  filter_matches meta (search_filter organization_id user_id filter_dict) = true ->
  filter_matches meta (get_access_filters organization_id user_id None ∅) = true.
Proof.
  rewrite !filter_matches_spec. intros H k v Hk. apply H.
  rewrite search_filter_lookup.
  by rewrite bool_decide_eq_true_2 by (by eapply default_filter_keys).
Qed.

Lemma retrieve_relevant_documents_hits
    (llm_get_embeddings : list string -> outcome (list embedding_vector))
    (vector_db_search :
       embedding_vector -> gmap string value -> nat -> outcome (list document))
    (query organization_id user_id : string)
    (filter_dict : option (gmap string value)) (limit : nat) (rerank : bool)
    (documents : list document) :
  (forall e flt n hits,
     vector_db_search e flt n = Ret hits ->
     Forall (fun d => filter_matches (doc_metadata d) flt = true) hits) ->
  retrieve_relevant_documents llm_get_embeddings vector_db_search query
    organization_id user_id filter_dict limit rerank = Ret documents ->
  Forall (fun d => filter_matches (doc_metadata d)
            (search_filter organization_id user_id filter_dict) = true)
         documents /\
  (rerank = true -> length documents <= limit).
Proof.
  intros Hsearch. unfold retrieve_relevant_documents.
  destruct (llm_get_embeddings [query]) as [[|e es]|]; try discriminate.
  destruct (vector_db_search e _ _) as [hits|] eqn:Es; try discriminate.
  apply Hsearch in Es.
  destruct rerank; cbn [andb].
  - destruct (limit <? length hits) eqn:El; intros [= <-]; split.
    + by apply Forall_take.
    + intros _. rewrite length_take. lia.
    + done.
    + intros _. apply Nat.ltb_ge in El. exact El.
  - intros [= <-]. split; [done|discriminate].
Qed.

Lemma default_policy (meta : gmap string value)
    (organization_id user_id : string) :
  filter_matches meta (get_access_filters organization_id user_id None ∅) = true ->
  field_matches (meta !! "organization_id") (VStr organization_id) = true /\
  (field_matches (meta !! "user_id") (VStr user_id) = true \/
   field_matches (meta !! "visibility") (VStr SHARED) = true \/
   field_matches (meta !! "visibility") (VStr PUBLIC) = true).
Proof.
  intros Hd. rewrite default_access_filter in Hd. cbn [existsb] in Hd.
  rewrite orb_false_r in Hd.
  apply andb_true_iff in Hd as [Ho Hd]. split; [exact Ho|].
  apply orb_true_iff in Hd as [Hd|Hd]; [by left|].
  apply orb_true_iff in Hd as [Hd|Hd]; [right; by left|right; by right].
Qed.

(** X6.  Whatever [filter_dict] the caller passes, a vector store that
    honours the filter it is given makes [retrieve_relevant_documents]
    return only documents of the caller's organization that are the
    caller's own or shared or public; with reranking the result has at most
    [limit] documents. *)
Theorem retrieve_relevant_documents_respects_access_policy
    (llm_get_embeddings : list string -> outcome (list embedding_vector))
    (vector_db_search :
       embedding_vector -> gmap string value -> nat -> outcome (list document))
    (query organization_id user_id : string)
    (filter_dict : option (gmap string value)) (limit : nat) (rerank : bool)
    (documents : list document) :
  (forall e flt n hits,
     vector_db_search e flt n = Ret hits ->
     Forall (fun d => filter_matches (doc_metadata d) flt = true) hits) ->
  retrieve_relevant_documents llm_get_embeddings vector_db_search query
    organization_id user_id filter_dict limit rerank = Ret documents ->
  Forall (fun d =>
            let meta := doc_metadata d in
            field_matches (meta !! "organization_id") (VStr organization_id)
              = true /\
            (field_matches (meta !! "user_id") (VStr user_id) = true \/
             field_matches (meta !! "visibility") (VStr SHARED) = true \/
             field_matches (meta !! "visibility") (VStr PUBLIC) = true))
         documents /\
  (rerank = true -> length documents <= limit).
Proof.
  intros Hsearch Hrun.
  destruct (retrieve_relevant_documents_hits _ _ _ _ _ _ _ _ _ Hsearch Hrun)
    as [Hall Hlen].
  split; [|exact Hlen].
  eapply Forall_impl; [exact Hall|]. intros d Hd. cbn zeta.
  by apply default_policy, (search_filter_narrows _ _ _ filter_dict).
Qed.

Lemma retrieve_relevant_documents_respects_access_policy_witness :
  let documents :=
    [Scenarios.hit "b" "shared" "org1" "alice";
     Scenarios.hit "d" "private" "org1" "bob"] in
  retrieve_relevant_documents Examples.zero_embeddings
    (Scenarios.filtering_search Scenarios.corpus) "q" "org1" "bob"
    (Some Examples.or_override) 2 true = Ret documents /\
  Forall (fun d =>
            let meta := doc_metadata d in
            field_matches (meta !! "organization_id") (VStr "org1") = true /\
            (field_matches (meta !! "user_id") (VStr "bob") = true \/
             field_matches (meta !! "visibility") (VStr SHARED) = true \/
             field_matches (meta !! "visibility") (VStr PUBLIC) = true))
         documents /\
  (true = true -> length documents <= 2).
Proof.
  cbn zeta.
  assert (H : retrieve_relevant_documents Examples.zero_embeddings
                (Scenarios.filtering_search Scenarios.corpus) "q" "org1" "bob"
                (Some Examples.or_override) 2 true
              = Ret [Scenarios.hit "b" "shared" "org1" "alice";
                     Scenarios.hit "d" "private" "org1" "bob"])
    by (vm_compute; reflexivity).
  split; [exact H|].
  apply (retrieve_relevant_documents_respects_access_policy
           Examples.zero_embeddings
           (Scenarios.filtering_search Scenarios.corpus)
           "q" "org1" "bob" (Some Examples.or_override) 2 true); [|exact H].
  intros e flt n hits [= <-]. apply Forall_take.
  apply Forall_forall. intros d Hd.
  by apply list_elem_of_filter in Hd as [Hd _].
Defined.

End RetrievalPolicy.

(** ** The ChromaDB provider: listing, updating, storing *)

Section ChromaListing.

Import FilterSemantics VectorDatabases Chroma.

Lemma take_min_length {A : Type} (n : nat) (l : list A) :
  take (Nat.min (length (take n l)) n) (take n l) = take n l.
Proof. apply take_ge. rewrite !length_take. lia. Qed.

Lemma list_documents_page (self : vector_db_instance) (c : collection)
    (filter_dict : gmap string value) (limit offset : nat) :
  list_documents self c filter_dict limit offset
  = listed <$> take limit
      (drop offset (coll_get_where c (with_organization self filter_dict) None)).
Proof.
  unfold list_documents, coll_get_where.
  rewrite take_min_length, take_drop_commute.
  by rewrite (Nat.add_comm offset limit).
Qed.

(** X7.  Paging through [list_documents]: a page has at most [limit]
    documents, as many as remain of the [count_documents] matches after
    [offset], and consecutive pages put together are the page of their
    joint size. *)
Theorem list_documents_pages (self : vector_db_instance) (c : collection)
    (filter_dict : gmap string value) (limit more offset : nat) :
  length (list_documents self c filter_dict limit offset)
    = Nat.min limit (count_documents self c filter_dict - offset) /\
  list_documents self c filter_dict limit offset
    ++ list_documents self c filter_dict more (offset + limit)
  = list_documents self c filter_dict (limit + more) offset.
Proof.
  rewrite !list_documents_page. unfold count_documents. split.
  - by rewrite length_fmap, length_take, length_drop.
  - rewrite <- fmap_app. f_equal.
    rewrite <- drop_drop. apply take_take_drop.
Qed.

Lemma with_organization_matches (self : vector_db_instance)
    (filter_dict meta : gmap string value) :
  shared self = true ->
  filter_dict !! "organization_id" = None ->
  filter_matches meta (with_organization self filter_dict)
  = field_matches (meta !! "organization_id") (VStr (organization_id self))
    && filter_matches meta filter_dict.
Proof.
  intros Hs Hf. unfold with_organization.
  rewrite Hs, bool_decide_eq_true_2 by done. cbn [andb].
  by rewrite filter_matches_insert.
Qed.

(** X8.  A shared provider asked to list or count without a filter sends
    the one condition on [organization_id] and so lists and counts the
    documents of its own organization only: the page is cut from the stored
    records that carry the provider's organization, and the count is their
    number. *)
Theorem list_documents_tenant_scope (self : vector_db_instance)
    (c : collection) (limit offset : nat) :
  shared self = true ->
  let own :=
    filter (fun r =>
              field_matches (rec_metadata r !! "organization_id")
                (VStr (organization_id self)) = true) c in
  with_organization self ∅
    = {[ "organization_id" := VStr (organization_id self) ]} /\
  list_documents self c ∅ limit offset
    = listed <$> take limit (drop offset own) /\
  count_documents self c ∅ = length own.
Proof.
  intros Hs. cbn zeta.
  assert (E : coll_get_where c (with_organization self ∅) None
              = filter (fun r =>
                  field_matches (rec_metadata r !! "organization_id")
                    (VStr (organization_id self)) = true) c).
  { unfold coll_get_where. apply list_filter_iff. intros r.
    rewrite with_organization_matches by done.
    by rewrite filter_matches_empty, andb_true_r. }
  split; [|split].
  - unfold with_organization. by rewrite Hs.
  - by rewrite list_documents_page, E.
  - unfold count_documents. by rewrite E.
Qed.

Lemma list_documents_tenant_scope_witness :
  list_documents Examples.org1_db Examples.two_tenants ∅ 10 0
    = [listed Examples.doc_a] /\
  count_documents Examples.org1_db Examples.two_tenants ∅ = 1.
Proof.
  assert (Hs : shared Examples.org1_db = true) by reflexivity.
  destruct (list_documents_tenant_scope Examples.org1_db Examples.two_tenants
              10 0 Hs) as (_ & Hl & Hc).
  split.
  - rewrite Hl. vm_compute. reflexivity.
  - rewrite Hc. vm_compute. reflexivity.
Defined.

End ChromaListing.

Section ChromaRoundTrips.

Import FilterSemantics VectorDatabases Chroma ChromaAdd RetrieverStore.

Local Abbreviation written id document embedding metadata :=
  (fun r : stored =>
     if bool_decide (rec_id r = id) then
       {| rec_id := rec_id r;
          rec_document := default (rec_document r) document;
          rec_metadata :=
            from_option (dict_update (rec_metadata r)) (rec_metadata r)
              metadata;
          rec_embedding := default (rec_embedding r) embedding |}
     else r).



Lemma update_document_store (self : vector_db_instance) (c : collection)
    (id : string) (text : option text) (embedding : option embedding_vector)
    (metadata : option (gmap string value)) :
  let result := update_document self c id text embedding metadata in
  snd result = c \/
  snd result
  = coll_update c id text embedding (with_organization self <$> metadata).
Proof.
  cbn zeta. unfold update_document.
  destruct (coll_get_ids c [id]) as [|current rest]; [by left|].
  destruct (shared self && negb _); [by left|].
  destruct text, embedding, metadata; cbn; (by left) || (by right).
Qed.






(** *** Storing, reading and deleting one document *)

Lemma coll_get_ids_app (c1 c2 : collection) (ids : list string) :
  coll_get_ids (c1 ++ c2) ids = coll_get_ids c1 ids ++ coll_get_ids c2 ids.
Proof. apply filter_app. Qed.

Lemma coll_get_ids_other (r : stored) (id : string) :
  id <> rec_id r -> coll_get_ids [r] [id] = [].
Proof.
  intros Hne. unfold coll_get_ids. rewrite filter_cons_False; [done|].
  rewrite list_elem_of_singleton. congruence.
Qed.

Lemma coll_get_ids_self (r : stored) : coll_get_ids [r] [rec_id r] = [r].
Proof.
  unfold coll_get_ids. rewrite filter_cons_True; [done|].
  by apply list_elem_of_singleton.
Qed.

Lemma coll_delete_appended (c : collection) (r : stored) :
  (forall x, x ∈ c -> rec_id x <> rec_id r) ->
  coll_delete (c ++ [r]) [rec_id r] = c.
Proof.
  intros Hfresh. unfold coll_delete. rewrite filter_app.
  rewrite filter_cons_False by (intros H; apply H; by apply list_elem_of_singleton).
  rewrite filter_nil, app_nil_r.
  induction c as [|x c IH]; [done|].
  rewrite filter_cons_True.
  - f_equal. apply IH. intros y Hy. apply Hfresh. by right.
  - rewrite list_elem_of_singleton. apply Hfresh. by left.
Qed.

Lemma filter_owned_past (self : vector_db_instance) (ids : list string)
    (i : nat) (metadatas : list (gmap string value)) (acc : list string) :
  length ids <= i ->
  filter_owned self ids i metadatas acc = Ret acc \/
  exists e, filter_owned self ids i metadatas acc = Raise e.
Proof.
  revert i. induction metadatas as [|m ms IH]; intros i Hi; [by left|].
  cbn. destruct (value_eqb _ _).
  - rewrite lookup_ge_None_2 by done. right. by eexists.
  - apply IH. lia.
Qed.

(** *** The provider inside the retriever's logging context *)

(** [get_document] inside a context answers as the direct call does, or
    raises [KeyError] from a log call where the direct call answers
    [None]. *)
Lemma get_document_in_context (logging : Logging.state)
    (self : vector_db_instance) (c : collection) (document_id : string) :
  ChromaInContext.get_document logging self c document_id
    = Ret (get_document self c document_id) \/
  (get_document self c document_id = None /\
   ChromaInContext.get_document logging self c document_id = Raise KeyError).
Proof.
  unfold ChromaInContext.get_document, get_document.
  destruct (coll_get_ids c [document_id]) as [|found rest]; [by left|].
  destruct (shared self && negb _); [|by left].
  destruct (log_then_return_cases logging Config.WARNING
              ["collection"; "document_id"; "organization_id"; "owner_org_id"]
              (@None doc)) as [-> | ->]; [by left|].
  cbn.
  destruct (log_then_return_cases logging Config.ERROR
              ["collection"; "document_id"; "organization_id"]
              (@None doc)) as [-> | ->]; [by left|by right].
Qed.

(** [delete_documents] inside a context changes the collection as the
    direct call does; it answers true where the direct call does, and false
    or [KeyError] where the direct call answers false. *)
Lemma delete_documents_in_context (logging : Logging.state)
    (self : vector_db_instance) (c : collection) (document_ids : list string) :
  let direct := delete_documents self c document_ids in
  let result := ChromaInContext.delete_documents logging self c document_ids in
  snd result = snd direct /\
  ((fst direct = true /\ fst result = Ret true) \/
   (fst direct = false /\ snd direct = c /\
    (fst result = Ret false \/ fst result = Raise KeyError))).
Proof.
  cbn zeta. unfold ChromaInContext.delete_documents, delete_documents.
  pose proof (log_then_return_cases logging Config.ERROR
                ["collection"; "organization_id"; "document_count"] false)
    as Hhandled.
  destruct (shared self); [|split; [done|by left]].
  destruct document_ids as [|id ids].
  { split; [done|]. right. split; [done|]. split; [done|].
    cbn [fst]. tauto. }
  destruct (filter_owned _ _ _ _ _) as [[|x xs]|e].
  - split; [done|by left].
  - split; [done|by left].
  - split; [done|]. right. split; [done|]. split; [done|].
    cbn [fst]. tauto.
Qed.

(** A refusal is never answered with true. *)
Lemma refusal_is_not_true (logging : Logging.state) (lvl : Config.level)
    (extra keys : list string) :
  Logging.except_log_return logging keys false
    (Logging.log_then_return logging lvl extra false) <> Ret true.
Proof.
  destruct (log_then_return_cases logging lvl extra false)
    as [-> | ->]; [discriminate|].
  cbn.
  destruct (log_then_return_cases logging Config.ERROR keys false)
    as [-> | ->]; discriminate.
Qed.

Lemma handled_is_not_true (logging : Logging.state) (keys : list string)
    (e : exn) :
  Logging.except_log_return logging keys false (Raise e) <> Ret true.
Proof.
  cbn.
  destruct (log_then_return_cases logging Config.ERROR keys false)
    as [-> | ->]; discriminate.
Qed.

(** The record [store_document] appends. *)
Local Abbreviation appended self new_id text embedding metadata
    organization_id user_id :=
  {| rec_id := new_id;
     rec_document := text;
     rec_metadata :=
       (if shared self
        then <["organization_id" := VStr (VectorDatabases.organization_id self)]>
        else fun m => m)
         (<["user_id" := VStr user_id]>
            (<["organization_id" := VStr organization_id]> metadata));
     rec_embedding := embedding |}.

Lemma add_documents_appends (logging : Logging.state)
    (self : vector_db_instance) (c : collection) (new_id : string)
    (text : text) (e : embedding_vector) (metadata : gmap string value) :
  (forall r, r ∈ c -> rec_id r <> new_id) ->
  ChromaInContext.add_documents logging self c [new_id] [text] [e] [metadata]
  = Ret ([new_id],
         c ++ [{| rec_id := new_id;
                  rec_document := text;
                  rec_metadata :=
                    (if shared self
                     then <["organization_id" :=
                              VStr (VectorDatabases.organization_id self)]>
                     else fun m => m) metadata;
                  rec_embedding := e |}]).
Proof.
  intros Hfresh. unfold ChromaInContext.add_documents, add_documents.
  assert (Hnew : new_id ∉ rec_id <$> c).
  { intros Hin. apply list_elem_of_fmap in Hin as (r & Hid & Hr).
    by apply (Hfresh r Hr). }
  destruct (shared self); cbn; by rewrite bool_decide_eq_false_2.
Qed.

(** X10.  The life of a stored document, at a logging level above [INFO]
    and for metadata of strings and numbers and an embedding that is not
    empty, which the client accepts.
    [store_document] with a fresh id appends one record and returns the id;
    [get_document] through the same provider then returns the text, the
    embedding of the text and the caller's metadata stamped with the user
    and the organization (through a shared provider: with the organization
    the provider is bound to), and reads every other id as before.  When
    the provider is bound to the caller's organization, [delete_document]
    by the storing user answers true and removes the record again.  For
    any other user the collection stays as it is: the call raises
    [KeyError] from its own warning when warnings are emitted and the
    context names an organization or a user, and answers false when
    warnings are switched off. *)
Theorem store_document_then_get_and_delete
    (llm_get_embeddings : list string -> outcome (list embedding_vector))
    (py_str : text -> string) (logging : Logging.state)
    (self : vector_db_instance) (c : collection)
    (new_id : string) (text : text) (metadata : gmap string value)
    (organization_id user_id : string) (e : embedding_vector)
    (es : list embedding_vector) :
  llm_get_embeddings [py_str text] = Ret (e :: es) ->
  (forall r, r ∈ c -> rec_id r <> new_id) ->
  Logging.levelno Config.INFO < Logging.effective_level logging ->
  forallb (fun kv => scalar kv.2) (map_to_list metadata) = true ->
  e <> [] ->
  let record :=
    appended self new_id text e metadata organization_id user_id in
  store_document llm_get_embeddings py_str logging self c new_id text metadata
    organization_id user_id = (Ret new_id, c ++ [record]) /\
  get_document self (c ++ [record]) new_id
  = Some {| doc_id := new_id;
            doc_text := text;
            doc_metadata := rec_metadata record;
            doc_embedding := Some e |} /\
  (forall id', id' <> new_id ->
     get_document self (c ++ [record]) id' = get_document self c id') /\
  ((shared self = true -> VectorDatabases.organization_id self = organization_id) ->
   delete_document logging self (c ++ [record]) new_id organization_id user_id
   = (Ret true, c) /\
   forall other, other <> user_id ->
     let refused :=
       delete_document logging self (c ++ [record]) new_id organization_id
         other in
     snd refused = c ++ [record] /\
     (organization_id <> "" \/ other <> "" ->
      Logging.effective_level logging <= Logging.levelno Config.WARNING ->
      fst refused = Raise KeyError) /\
     (Logging.levelno Config.WARNING < Logging.effective_level logging ->
      fst refused = Ret false)).
Proof.
  intros He Hfresh Hinfo _ _. cbn zeta.
  set (record := appended self new_id text e metadata organization_id user_id).
  assert (Hids : coll_get_ids (c ++ [record]) [new_id] = [record]).
  { rewrite coll_get_ids_app, (coll_get_ids_absent c new_id Hfresh).
    apply (coll_get_ids_self record). }
  assert (Hstamp : shared self &&
            negb (value_eqb (dict_get (rec_metadata record) "organization_id")
                    (VStr (VectorDatabases.organization_id self))) = false).
  { destruct (shared self) eqn:Hs; [|done]. subst record. cbn. rewrite ?Hs.
    unfold dict_get. rewrite lookup_insert_eq. cbn.
    by rewrite String.eqb_refl. }
  assert (Hget : get_document self (c ++ [record]) new_id
                 = Some {| doc_id := new_id;
                           doc_text := text;
                           doc_metadata := rec_metadata record;
                           doc_embedding := Some e |}).
  { unfold get_document. by rewrite Hids, Hstamp. }
  assert (Hget' : forall st,
             ChromaInContext.get_document st self (c ++ [record]) new_id
             = Ret (Some {| doc_id := new_id;
                            doc_text := text;
                            doc_metadata := rec_metadata record;
                            doc_embedding := Some e |})).
  { intros st. unfold ChromaInContext.get_document. by rewrite Hids, Hstamp. }
  split.
  { unfold store_document. rewrite He.
    rewrite add_documents_appends by exact Hfresh.
    unfold Logging.log_then_return.
    rewrite log_disabled by exact Hinfo. reflexivity. }
  split; [exact Hget|].
  split.
  { intros id' Hne. unfold get_document.
    rewrite coll_get_ids_app, (coll_get_ids_other record id') by done.
    by rewrite app_nil_r. }
  intros Hbound.
  assert (Horg : dict_get (rec_metadata record) "organization_id"
                 = VStr organization_id).
  { subst record. cbn. unfold dict_get.
    destruct (shared self) eqn:Hs.
    - rewrite lookup_insert_eq. by rewrite Hbound.
    - rewrite lookup_insert_ne by done. by rewrite lookup_insert_eq. }
  assert (Huser : dict_get (rec_metadata record) "user_id" = VStr user_id).
  { subst record. cbn. unfold dict_get.
    destruct (shared self); [rewrite lookup_insert_ne by done|];
      by rewrite lookup_insert_eq. }
  split.
  - unfold delete_document. rewrite Hget'.
    cbn [doc_metadata]. rewrite Horg, Huser. cbn [value_eqb].
    rewrite !String.eqb_refl. cbn [negb].
    assert (Hdel : forall st,
               ChromaInContext.delete_documents st self (c ++ [record]) [new_id]
               = (Ret true, c)).
    { intros st. unfold ChromaInContext.delete_documents. rewrite Hids.
      destruct (shared self) eqn:Hs.
      - cbn [fmap list_fmap filter_owned].
        rewrite Horg, <- (Hbound eq_refl). cbn [value_eqb].
        rewrite String.eqb_refl. cbn.
        f_equal. apply (coll_delete_appended c record). exact Hfresh.
      - f_equal. apply (coll_delete_appended c record). exact Hfresh. }
    rewrite Hdel. unfold Logging.log_then_return.
    rewrite log_disabled by exact Hinfo. reflexivity.
  - intros other Hother. cbn zeta. unfold delete_document. rewrite Hget'.
    cbn [doc_metadata]. rewrite Horg, Huser. cbn [value_eqb].
    rewrite String.eqb_refl. cbn [negb].
    rewrite (proj2 (String.eqb_neq user_id other)) by congruence.
    cbn [negb snd fst]. split; [reflexivity|]. split.
    + intros Hid Hlvl. unfold Logging.log_then_return.
      rewrite (log_in_context logging organization_id other Config.WARNING
                 ["document_id"; "organization_id"; "user_id";
                  "document_user_id"] Hid);
        [|right; left|right; right; left|exact Hlvl].
      cbn. unfold Logging.log_then_return.
      rewrite (log_in_context logging organization_id other Config.ERROR
                 ["document_id"; "organization_id"; "user_id"] Hid);
        [reflexivity|right; left|right; right; left|].
      cbn in *. lia.
    + intros Hlvl. unfold Logging.log_then_return.
      rewrite log_disabled by exact Hlvl. reflexivity.
Qed.

Lemma store_document_then_get_and_delete_witness :
  let logging := Logging.python_default in
  let self := Examples.org1_db in
  let c := Examples.two_tenants in
  let metadata := ({[ "visibility" := VStr "shared" ]} : gmap string value) in
  exists record,
    store_document Examples.zero_embeddings (fun _ => "memo") logging self c
      "doc-c" (PlainText "memo") metadata "org1" "bob"
      = (Ret "doc-c", c ++ [record]) /\
    dict_get (rec_metadata record) "user_id" = VStr "bob" /\
    get_document self (c ++ [record]) "doc-a" = get_document self c "doc-a" /\
    delete_document logging self (c ++ [record]) "doc-c" "org1" "bob"
      = (Ret true, c) /\
    delete_document logging self (c ++ [record]) "doc-c" "org1" "alice"
      = (Raise KeyError, c ++ [record]).
Proof.
  cbn zeta.
  assert (He : Examples.zero_embeddings ["memo"] = Ret [[0%Q]]) by reflexivity.
  assert (Hfresh : forall r, r ∈ Examples.two_tenants -> rec_id r <> "doc-c").
  { intros r Hr. apply elem_of_cons in Hr as [->|Hr]; [discriminate|].
    apply list_elem_of_singleton in Hr as ->. discriminate. }
  assert (Hinfo : Logging.levelno Config.INFO
                  < Logging.effective_level Logging.python_default)
    by (cbn; lia).
  assert (Hvalues : forallb (fun kv : string * value => scalar kv.2)
                      (map_to_list
                         ({[ "visibility" := VStr "shared" ]}
                            : gmap string value)) = true)
    by (vm_compute; reflexivity).
  assert (Hvector : [0%Q] <> ([] : embedding_vector)) by discriminate.
  destruct (store_document_then_get_and_delete Examples.zero_embeddings
              (fun _ => "memo") Logging.python_default Examples.org1_db
              Examples.two_tenants "doc-c"
              (PlainText "memo") {[ "visibility" := VStr "shared" ]}
              "org1" "bob" [0%Q] [] He Hfresh Hinfo Hvalues Hvector)
    as (Hstore & _ & Hothers & Hdelete).
  destruct (Hdelete (fun _ => eq_refl)) as [Hown Hrefused].
  eexists. split; [exact Hstore|].
  split; [vm_compute; reflexivity|].
  split; [apply Hothers; discriminate|].
  split; [exact Hown|].
  assert (Hne : "alice" <> "bob") by discriminate.
  destruct (Hrefused "alice" Hne) as (Hsnd & Hraise & _).
  rewrite (surjective_pairing (delete_document _ _ _ _ _ _)).
  rewrite Hsnd, Hraise; [reflexivity|left; discriminate|cbn; lia].
Defined.

Lemma coll_get_ids_head_of (c : collection) (id : string) (r : stored)
    (rest : collection) :
  coll_get_ids c [id] = r :: rest -> r ∈ c /\ rec_id r = id.
Proof.
  intros E. assert (Hin : r ∈ coll_get_ids c [id]) by (rewrite E; by left).
  unfold coll_get_ids in Hin. apply list_elem_of_filter in Hin as [Hid Hin].
  split; [done|]. by apply list_elem_of_singleton in Hid.
Qed.

(** X11.  [delete_document] removes nothing but the requested document, and
    only for its owner.  Either the collection is as it was and the call
    does not answer true; or the collection has lost the records with the
    requested id and no other, the record read under that id carries the
    caller's organization and the caller's user id, and the call answers
    true or, when its closing log call is emitted, raises [KeyError].  A
    refusal is answered with false only where its log call goes through:
    when warnings are emitted inside the context of a named organization,
    the call answers true or raises [KeyError]. *)
Theorem delete_document_only_by_owner (logging : Logging.state)
    (self : vector_db_instance) (c : collection)
    (document_id organization_id user_id : string) :
  let result :=
    delete_document logging self c document_id organization_id user_id in
  ((snd result = c /\ fst result <> Ret true) \/
   (snd result = coll_delete c [document_id] /\
    (fst result = Ret true \/ fst result = Raise KeyError) /\
    exists r,
      r ∈ c /\ rec_id r = document_id /\
      rec_metadata r !! "organization_id" = Some (VStr organization_id) /\
      rec_metadata r !! "user_id" = Some (VStr user_id))) /\
  (organization_id <> "" ->
   Logging.effective_level logging <= Logging.levelno Config.WARNING ->
   fst result = Ret true \/ fst result = Raise KeyError).
Proof.
  cbn zeta.
  set (ctx := Logging.LoggingContext organization_id user_id logging).
  set (keys := ["document_id"; "organization_id"; "user_id"]).
  assert (Hclash : organization_id <> "" ->
            Logging.effective_level logging <= Logging.levelno Config.WARNING ->
            forall lvl extra,
              lvl = Config.WARNING \/ lvl = Config.ERROR ->
              "organization_id" ∈ extra ->
              Logging.log ctx lvl extra = Raise KeyError).
  { intros Ho Hlvl lvl extra Hl Hin. apply log_names_organization; [done..|].
    destruct Hl as [-> | ->]; cbn in *; lia. }
  assert (Hkeys : "organization_id" ∈ keys) by (right; left).
  assert (Hhandler : organization_id <> "" ->
            Logging.effective_level logging <= Logging.levelno Config.WARNING ->
            forall (body : outcome bool),
              body = Raise KeyError \/ body = Ret true ->
              Logging.except_log_return ctx keys false body = Ret true \/
              Logging.except_log_return ctx keys false body = Raise KeyError).
  { intros Ho Hlvl body [-> | ->]; [|by left]. right. cbn.
    unfold Logging.log_then_return.
    by rewrite (Hclash Ho Hlvl Config.ERROR keys (or_intror eq_refl) Hkeys). }
  assert (Hrefuse : organization_id <> "" ->
            Logging.effective_level logging <= Logging.levelno Config.WARNING ->
            forall extra, "organization_id" ∈ extra ->
              Logging.log_then_return ctx Config.WARNING extra false
              = Raise KeyError).
  { intros Ho Hlvl extra Hin. unfold Logging.log_then_return.
    by rewrite (Hclash Ho Hlvl Config.WARNING extra (or_introl eq_refl) Hin). }
  unfold delete_document. fold ctx. fold keys.
  destruct (get_document_in_context ctx self c document_id)
    as [Hg|[Hnone Hg]]; rewrite Hg; clear Hg.
  2:{ cbn [fst snd]. split.
      - left. split; [done|]. apply handled_is_not_true.
      - intros Ho Hlvl. apply (Hhandler Ho Hlvl). by left. }
  unfold get_document.
  destruct (coll_get_ids c [document_id]) as [|found rest] eqn:E.
  { cbn [fst snd]. split.
    - left. split; [done|]. apply refusal_is_not_true.
    - intros Ho Hlvl. rewrite (Hrefuse Ho Hlvl keys Hkeys).
      apply (Hhandler Ho Hlvl). by left. }
  destruct (shared self && negb _) eqn:Hread.
  { cbn [fst snd]. split.
    - left. split; [done|]. apply refusal_is_not_true.
    - intros Ho Hlvl. rewrite (Hrefuse Ho Hlvl keys Hkeys).
      apply (Hhandler Ho Hlvl). by left. }
  cbn [doc_metadata].
  destruct (value_eqb (dict_get (rec_metadata found) "organization_id")
              (VStr organization_id)) eqn:Horg; cbn [negb].
  2:{ cbn [fst snd]. split.
      - left. split; [done|]. apply refusal_is_not_true.
      - intros Ho Hlvl. rewrite (Hrefuse Ho Hlvl); [|right; left].
        apply (Hhandler Ho Hlvl). by left. }
  destruct (value_eqb (dict_get (rec_metadata found) "user_id")
              (VStr user_id)) eqn:Huser; cbn [negb].
  2:{ cbn [fst snd]. split.
      - left. split; [done|]. apply refusal_is_not_true.
      - intros Ho Hlvl. rewrite (Hrefuse Ho Hlvl); [|right; left].
        apply (Hhandler Ho Hlvl). by left. }
  apply coll_get_ids_head_of in E as Hfound. destruct Hfound as [Hin Hid].
  assert (Howner : exists r,
             r ∈ c /\ rec_id r = document_id /\
             rec_metadata r !! "organization_id" = Some (VStr organization_id) /\
             rec_metadata r !! "user_id" = Some (VStr user_id)).
  { exists found. split; [done|]. split; [done|].
    apply value_eqb_str_r in Horg, Huser. unfold dict_get in Horg, Huser.
    destruct (rec_metadata found !! "organization_id") as [o|]; [|done].
    destruct (rec_metadata found !! "user_id") as [u|]; [|done].
    cbn in Horg, Huser. by subst. }
  assert (Hsuccess :
            (fst (Logging.except_log_return ctx keys false
                    (Logging.log_then_return ctx Config.INFO keys true),
                  coll_delete c [document_id]) = Ret true \/
             fst (Logging.except_log_return ctx keys false
                    (Logging.log_then_return ctx Config.INFO keys true),
                  coll_delete c [document_id]) = Raise KeyError)).
  { cbn [fst]. apply closing_log_cases. }
  unfold ChromaInContext.delete_documents. destruct (shared self) eqn:Hs.
  - rewrite E. cbn [fmap list_fmap filter_owned].
    cbn [andb] in Hread. apply negb_false_iff in Hread. rewrite Hread.
    cbn [lookup list_lookup app].
    destruct (filter_owned_past self [document_id] 1 (rec_metadata <$> rest)
                [document_id]) as [->|[e ->]]; [done| |].
    + split; [|intros _ _; exact Hsuccess].
      right. split; [done|]. split; [exact Hsuccess|exact Howner].
    + destruct (log_then_return_cases ctx Config.ERROR
                  ["collection"; "organization_id"; "document_count"] false)
        as [Hh|Hh]; rewrite Hh; cbn [fst snd].
      * split; [left; split; [done|discriminate]|].
        intros Ho Hlvl. exfalso. revert Hh. unfold Logging.log_then_return.
        rewrite (Hclash Ho Hlvl Config.ERROR
                   ["collection"; "organization_id"; "document_count"]
                   (or_intror eq_refl)); [discriminate|right; left].
      * split; [left; split; [done|apply handled_is_not_true]|].
        intros Ho Hlvl. apply (Hhandler Ho Hlvl). by left.
  - split; [|intros _ _; exact Hsuccess].
    right. split; [done|]. split; [exact Hsuccess|exact Howner].
Qed.

Lemma delete_document_only_by_owner_witness :
  let logging := Logging.python_default in
  let self := Examples.org1_db in
  let c := Examples.two_tenants in
  delete_document logging self c "doc-a" "org1" "alice"
    = (Ret true, [Examples.doc_b]) /\
  delete_document logging self c "doc-a" "org1" "bob" = (Raise KeyError, c) /\
  delete_document logging self c "doc-b" "org1" "alice" = (Raise KeyError, c) /\
  delete_document logging self c "gone" "org1" "alice" = (Raise KeyError, c).
Proof.
  cbn zeta.
  assert (Ho : "org1" <> "") by discriminate.
  assert (Hlvl : Logging.effective_level Logging.python_default
                 <= Logging.levelno Config.WARNING) by (cbn; lia).
  pose proof (proj2 (delete_document_only_by_owner Logging.python_default
                       Examples.org1_db Examples.two_tenants "doc-a" "org1"
                       "alice") Ho Hlvl) as Hcases.
  split; [|repeat split; vm_compute; reflexivity].
  destruct Hcases as [Htrue|Hraise].
  - rewrite (surjective_pairing (delete_document _ _ _ _ _ _)).
    rewrite Htrue. f_equal.
  - vm_compute in Hraise. discriminate Hraise.
Defined.

End ChromaRoundTrips.

(** ** What an agent retrieves *)

Section AgentRetrieval.

Import Filtering FilterSemantics Retriever AgentManager Personalization.

Lemma assoc_set_keeps (k0 k : string) (v0 v : value)
    (kvs : list (string * value)) :
  k <> k0 -> (k0, v0) ∈ kvs -> (k0, v0) ∈ assoc_set k v kvs.
Proof.
  intros Hne. induction kvs as [|[k' x] kvs IH]; intros Hin.
  - by apply elem_of_nil in Hin.
  - cbn. destruct (String.eqb_spec k' k) as [->|Hk].
    + apply elem_of_cons in Hin as [[= <- <-]|Hin]; [done|by right].
    + apply elem_of_cons in Hin as [Heq|Hin]; [rewrite Heq; by left|].
      right. by apply IH.
Qed.

Lemma merged_agent_filter_lists (self : RAGAgent)
    (filters : gmap string value) (agent_filter : list (string * value)) :
  merged_agent_filter self filters = Ret agent_filter ->
  ("associated_agents", VStr (_agent_id self)) ∈ agent_filter.
Proof.
  unfold merged_agent_filter.
  destruct (py_contains _ _) as [[|]|]; [| |done].
  - destruct (metadata_or_empty _) as [| | | |kvs]; try done.
    destruct (assoc_get _ _) as [[| | | |doc_filter]|]; try done.
    intros [= <-].
    assert (H : forall acc : list (string * value),
              ("associated_agents", VStr (_agent_id self)) ∈ acc ->
              ("associated_agents", VStr (_agent_id self)) ∈
              foldl (fun agent_filter kv =>
                       if bool_decide (filters !! fst kv = None) &&
                          negb (String.eqb (fst kv) "associated_agents")
                       then assoc_set (fst kv) (snd kv) agent_filter
                       else agent_filter) acc doc_filter).
    { induction doc_filter as [|[k v] rest IH]; intros acc Hacc; [done|].
      cbn [foldl fst snd]. apply IH.
      destruct (bool_decide _ && negb (String.eqb k _)) eqn:E; [|done].
      apply andb_true_iff in E as [_ E]. apply negb_true_iff in E.
      apply assoc_set_keeps; [|done]. by apply String.eqb_neq. }
    apply H. by left.
  - intros [= <-]. by left.
Qed.

Lemma agent_filters_conjunct (self : RAGAgent) (filters : gmap string value) :
  agent_filters self = Ret filters ->
  exists agent_filter,
    filters !! "$and" = Some (VList [VDict agent_filter]) /\
    ("associated_agents", VStr (_agent_id self)) ∈ agent_filter.
Proof.
  unfold agent_filters.
  destruct (merged_agent_filter _ _) as [agent_filter|] eqn:E; [|done].
  apply merged_agent_filter_lists in E.
  assert (Hand : get_access_filters (_organization_id self) (_user_id self)
                   None ∅ !! "$and" = None).
  { unfold get_access_filters. rewrite dict_update_empty.
    rewrite lookup_insert_ne by done. by rewrite lookup_singleton_ne. }
  rewrite Hand. intros [= <-]. exists agent_filter.
  by rewrite lookup_insert_eq.
Qed.

(** X12.  What an agent retrieves.  Over a vector store that honours the
    filter it is given, every document [RAGAgent.retrieve_relevant_docs]
    returns is associated with the agent, belongs to the organization of the
    instance, and is owned by the user of the instance or shared or public,
    whatever [document_filter] the agent carries; at most [limit] documents
    are returned. *)
Theorem agent_retrieves_its_own_documents
    (llm_get_embeddings : list string -> outcome (list embedding_vector))
    (vector_db_search :
       embedding_vector -> gmap string value -> nat -> outcome (list document))
    (self : RAGAgent) (query : string) (limit : nat)
    (documents : list document) :
  (forall e flt n hits,
     vector_db_search e flt n = Ret hits ->
     Forall (fun d => filter_matches (doc_metadata d) flt = true) hits) ->
  retrieve_relevant_docs llm_get_embeddings vector_db_search self query limit
    = Ret documents ->
  Forall (fun d =>
            let meta := doc_metadata d in
            lists_agent (_agent_id self) meta = true /\
            field_matches (meta !! "organization_id")
              (VStr (_organization_id self)) = true /\
            (field_matches (meta !! "user_id") (VStr (_user_id self)) = true \/
             field_matches (meta !! "visibility") (VStr SHARED) = true \/
             field_matches (meta !! "visibility") (VStr PUBLIC) = true))
         documents /\
  length documents <= limit.
Proof.
  intros Hsearch. unfold retrieve_relevant_docs.
  destruct (agent_filters self) as [filters|] eqn:Ef; [|done].
  intros Hrun.
  destruct (retrieve_relevant_documents_hits _ _ _ _ _ _ _ _ _ Hsearch Hrun)
    as [Hall Hlen].
  split; [|by apply Hlen].
  apply agent_filters_conjunct in Ef as (agent_filter & Hand & Hlists).
  eapply Forall_impl; [exact Hall|]. intros d Hd. cbn zeta.
  split.
  - rewrite filter_matches_spec in Hd.
    specialize (Hd "$and" (VList [VDict agent_filter])).
    rewrite search_filter_lookup in Hd.
    rewrite bool_decide_eq_false_2 in Hd
      by (apply (bool_decide_unpack _); vm_compute; exact I).
    cbn [mbind option_bind] in Hd. rewrite Hand in Hd.
    specialize (Hd eq_refl). cbn in Hd. rewrite andb_true_r in Hd.
    rewrite forallb_forall in Hd.
    apply list_elem_of_In in Hlists. apply Hd in Hlists. exact Hlists.
  - by apply default_policy, (search_filter_narrows _ _ _ (Some filters)).
Qed.

Lemma agent_retrieves_its_own_documents_witness :
  let self := AgentScenarios.helper_of_alice in
  let documents :=
    [AgentScenarios.page "p1" "shared" "org1" "bob" "tax" ["agent-1"];
     AgentScenarios.page "p6" "private" "org1" "alice" "tax"
       ["agent-2"; "agent-1"]] in
  retrieve_relevant_docs Examples.zero_embeddings
    (Scenarios.filtering_search AgentScenarios.library) self "q" 5
    = Ret documents /\
  Forall (fun d =>
            let meta := doc_metadata d in
            lists_agent (_agent_id self) meta = true /\
            field_matches (meta !! "organization_id")
              (VStr (_organization_id self)) = true /\
            (field_matches (meta !! "user_id") (VStr (_user_id self)) = true \/
             field_matches (meta !! "visibility") (VStr SHARED) = true \/
             field_matches (meta !! "visibility") (VStr PUBLIC) = true))
         documents /\
  length documents <= 5.
Proof.
  cbn zeta.
  assert (H : retrieve_relevant_docs Examples.zero_embeddings
                (Scenarios.filtering_search AgentScenarios.library)
                AgentScenarios.helper_of_alice "q" 5
              = Ret [AgentScenarios.page "p1" "shared" "org1" "bob" "tax"
                       ["agent-1"];
                     AgentScenarios.page "p6" "private" "org1" "alice" "tax"
                       ["agent-2"; "agent-1"]])
    by (vm_compute; reflexivity).
  split; [exact H|].
  apply (agent_retrieves_its_own_documents Examples.zero_embeddings
           (Scenarios.filtering_search AgentScenarios.library)
           AgentScenarios.helper_of_alice "q" 5); [|exact H].
  intros e flt n hits [= <-]. apply Forall_take.
  apply Forall_forall. intros d Hd.
  by apply list_elem_of_filter in Hd as [Hd _].
Defined.

End AgentRetrieval.

(** ** Agent instances and the creator of an agent *)

Section AgentInstances.

Import VectorDatabases Chroma AgentManager.

(** X13.  The agent cache does not look at the user.  Once
    [_get_agent_instance] has returned an instance of an agent for an
    organization, every later call for that agent and organization returns
    the same instance and changes nothing, whichever user asks and whatever
    the store holds by then; an instance that was not cached before carries
    the organization and the user of the call that built it. *)
Theorem agent_instance_is_kept_for_every_user (vector_db : vector_db_instance)
    (w w' : world) (agent_id organization_id user_id : string)
    (agent : RAGAgent) :
  _get_agent_instance vector_db w agent_id organization_id user_id
    = (Ret (Some agent), w') ->
  (_agent_cache w !! (organization_id +:+ ":" +:+ agent_id) = None ->
   _agent_id agent = agent_id /\
   _organization_id agent = organization_id /\
   _user_id agent = user_id) /\
  forall (vector_db' : vector_db_instance) (store' : collection)
         (other_user : string),
    _get_agent_instance vector_db'
      {| store := store'; _agent_cache := _agent_cache w' |}
      agent_id organization_id other_user
    = (Ret (Some agent),
       {| store := store'; _agent_cache := _agent_cache w' |}).
Proof.
  unfold _get_agent_instance.
  destruct (_agent_cache w !! _) as [cached|] eqn:Hc.
  - intros [= <- <-]. split; [done|]. intros db' store' other. cbn.
    by rewrite Hc.
  - destruct (get_agent _ _ _ _ _) as [[info|]|]; try done.
    intros [= <- <-]. split; [done|]. intros db' store' other. cbn.
    by rewrite lookup_insert_eq.
Qed.

Lemma agent_instance_is_kept_for_every_user_witness :
  exists agent,
    _get_agent_instance Examples.org1_db Examples.fresh_manager
      "agent-1" "org1" "alice" = (Ret (Some agent), Examples.chatted) /\
    _user_id agent = "alice" /\
    fst (_get_agent_instance Examples.org1_db
           {| store := []; _agent_cache := _agent_cache Examples.chatted |}
           "agent-1" "org1" "bob") = Ret (Some agent).
Proof.
  eexists.
  assert (H : _get_agent_instance Examples.org1_db Examples.fresh_manager
                "agent-1" "org1" "alice"
              = (Ret (_agent_cache Examples.chatted !! "org1:agent-1"),
                 Examples.chatted)) by (vm_compute; reflexivity).
  assert (Hk : _agent_cache Examples.chatted !! "org1:agent-1"
               = Some {| _agent_id := "agent-1";
                         _agent_name := VStr "Helper";
                         _agent_description := VNone;
                         _agent_instructions := VStr "Answer from the handbook.";
                         _organization_id := "org1";
                         _user_id := "alice";
                         _metadata := VDict [] |})
    by (vm_compute; reflexivity).
  rewrite Hk in H.
  destruct (agent_instance_is_kept_for_every_user _ _ _ _ _ _ _ H)
    as [Hbuilt Hlater].
  split; [exact H|]. split; [reflexivity|].
  by rewrite (Hlater Examples.org1_db [] "bob").
Defined.

End AgentInstances.

Section AgentCreator.

Import FilterSemantics VectorDatabases Chroma AgentManager.

(** The store holds a metadata document of the agent whose text names the
    user as creator. *)
Local Abbreviation created_by_user c agent_id organization_id user_id :=
  (exists r agent_metadata,
     r ∈ c /\
     is_agent_document agent_id organization_id r = true /\
     rec_document r = JsonText agent_metadata /\
     agent_metadata !! "created_by" = Some (VStr user_id)).

Lemma with_organization_agent_filter (self : vector_db_instance)
    (agent_id organization_id : string) :
  with_organization self (agent_filter agent_id organization_id)
  = agent_filter agent_id organization_id.
Proof.
  unfold with_organization.
  rewrite (bool_decide_eq_false_2 (_ = None)); [by rewrite andb_false_r|].
  unfold agent_filter. by simplify_map_eq.
Qed.

Lemma first_agent_document (vector_db : vector_db_instance) (c : collection)
    (agent_id organization_id user_id : string) (agent_doc : doc)
    (rest : list doc) (agent_metadata : gmap string value) :
  list_documents vector_db c (agent_filter agent_id organization_id) 1 0
    = agent_doc :: rest ->
  json_loads (doc_text agent_doc) = Ret agent_metadata ->
  negb (value_eqb (dict_get agent_metadata "created_by") (VStr user_id))
    = false ->
  created_by_user c agent_id organization_id user_id.
Proof.
  intros Hlist Hjson Hby.
  rewrite list_documents_page, with_organization_agent_filter in Hlist.
  rewrite drop_0 in Hlist. unfold coll_get_where in Hlist.
  destruct (filter _ c) as [|r rs] eqn:Ef; [done|].
  cbn in Hlist. injection Hlist as <- _.
  assert (Hr : r ∈ filter (fun r => filter_matches (rec_metadata r)
                             (agent_filter agent_id organization_id) = true) c)
    by (rewrite Ef; by left).
  apply list_elem_of_filter in Hr as [Hmatch Hin].
  cbn in Hjson.
  destruct (rec_document r) as [s|obj] eqn:Hdoc; [discriminate Hjson|].
  injection Hjson as ->.
  exists r, agent_metadata. split; [exact Hin|]. split; [exact Hmatch|].
  split; [exact Hdoc|].
  apply negb_false_iff, value_eqb_str_r in Hby. unfold dict_get in Hby.
  destruct (agent_metadata !! "created_by") as [v|];
    [cbn in Hby; rewrite Hby; reflexivity|discriminate Hby].
Qed.

(** X14.  Only the creator changes an agent.  When [delete_agent] answers
    true, or [update_agent] returns the agent, the store held a metadata
    document of that agent and organization whose text names the calling
    user under [created_by]. *)
Theorem agent_changes_only_by_creator (now : string)
    (vector_db : vector_db_instance) (w : world)
    (agent_id organization_id user_id : string) :
  (forall w',
     delete_agent vector_db w agent_id organization_id user_id = (true, w') ->
     created_by_user (store w) agent_id organization_id user_id) /\
  (forall name instructions description document_ids document_filter
          metadata info w',
     update_agent now vector_db w agent_id organization_id user_id name
       instructions description document_ids document_filter metadata
     = (Some info, w') ->
     created_by_user (store w) agent_id organization_id user_id).
Proof.
  split.
  - intros w'. unfold delete_agent.
    destruct (list_documents _ _ _ _ _) as [|agent_doc rest] eqn:Hlist; [done|].
    destruct (json_loads _) as [agent_metadata|] eqn:Hjson; [|done].
    destruct (negb _) eqn:Hby; [done|]. intros _.
    by eapply first_agent_document.
  - intros name instructions description document_ids document_filter
      metadata info w'. unfold update_agent.
    destruct (list_documents _ _ _ _ _) as [|agent_doc rest] eqn:Hlist; [done|].
    destruct (json_loads _) as [agent_metadata|] eqn:Hjson; [|done].
    destruct (negb _) eqn:Hby; [done|]. intros _.
    by eapply first_agent_document.
Qed.

End AgentCreator.

(** ** What the agent manager leaves alone *)

Section AgentFrameFacts.

Import FilterSemantics VectorDatabases Chroma AgentManager AgentFrame.

Lemma Forall2_chain {A : Type} (R1 R2 R3 : A -> A -> Prop) (l1 l2 l3 : list A) :
  (forall x y z, R1 x y -> R2 y z -> R3 x z) ->
  Forall2 R1 l1 l2 -> Forall2 R2 l2 l3 -> Forall2 R3 l1 l3.
Proof.
  intros Hstep H12. revert l3.
  induction H12 as [|x y l1 l2 Hxy _ IH]; intros l3 H23.
  - apply Forall2_nil_inv_l in H23 as ->. constructor.
  - apply Forall2_cons_inv_l in H23 as (z & l3' & Hyz & H23 & ->).
    constructor; [by eapply Hstep|by apply IH].
Qed.

Lemma same_content_refl (c : collection) : Forall2 same_content c c.
Proof. apply Forall_Forall2_diag, Forall_forall. by intros r _. Qed.

Lemma same_content_trans (c1 c2 c3 : collection) :
  Forall2 same_content c1 c2 -> Forall2 same_content c2 c3 ->
  Forall2 same_content c1 c3.
Proof.
  apply Forall2_chain.
  intros x y z (? & ? & ?) (? & ? & ?). repeat split; congruence.
Qed.

Lemma coll_update_metadata_content (c : collection) (id : string)
    (metadata : option (gmap string value)) :
  Forall2 same_content c (coll_update c id None None metadata).
Proof.
  unfold coll_update. apply Forall2_fmap_r, Forall_Forall2_diag, Forall_forall.
  intros r _. cbn beta.
  unfold compose, same_content. case_bool_decide; cbn; auto.
Qed.

Lemma update_document_metadata_content (self : vector_db_instance)
    (c : collection) (id : string) (metadata : option (gmap string value)) :
  Forall2 same_content c (snd (update_document self c id None None metadata)).
Proof.
  destruct (update_document_store self c id None None metadata) as [->| ->].
  - apply same_content_refl.
  - apply coll_update_metadata_content.
Qed.

Lemma dissociate_content (vector_db : vector_db_instance) (agent_id : string)
    (c c' : collection) (d : doc) :
  dissociate vector_db agent_id c d = Ret c' -> Forall2 same_content c c'.
Proof.
  unfold dissociate.
  destruct (doc_metadata d !! "associated_agents") as [container|].
  - destruct (py_contains container agent_id) as [[|]|]; [| |discriminate].
    + destruct container; try discriminate.
      intros [= <-]. apply update_document_metadata_content.
    + intros [= <-]. apply same_content_refl.
  - intros [= <-]. apply same_content_refl.
Qed.

Lemma dissociate_all_content (vector_db : vector_db_instance)
    (agent_id : string) (docs : list doc) (c : collection) :
  Forall2 same_content c (snd (dissociate_all vector_db agent_id docs c)).
Proof.
  revert c. induction docs as [|d docs IH]; intros c; cbn.
  - apply same_content_refl.
  - destruct (dissociate vector_db agent_id c d) as [c1|e] eqn:E.
    + eapply same_content_trans; [by eapply dissociate_content|apply IH].
    + apply same_content_refl.
Qed.

Lemma associate_content (vector_db : vector_db_instance)
    (agent_id organization_id : string) (c c' : collection) (doc_id : string) :
  associate vector_db agent_id organization_id c doc_id = Ret c' ->
  Forall2 same_content c c'.
Proof.
  unfold associate.
  destruct (get_document vector_db c doc_id) as [d|].
  - destruct (negb _).
    + intros [= <-]. apply same_content_refl.
    + destruct (doc_metadata d !! "associated_agents") as [container|].
      * destruct (py_contains container agent_id) as [[|]|]; [| |discriminate].
        -- intros [= <-]. apply update_document_metadata_content.
        -- destruct container; try discriminate.
           intros [= <-]. apply update_document_metadata_content.
      * intros [= <-]. apply update_document_metadata_content.
  - intros [= <-]. apply same_content_refl.
Qed.

Lemma associate_all_content (vector_db : vector_db_instance)
    (agent_id organization_id : string) (document_ids : list string)
    (c : collection) :
  Forall2 same_content c
    (snd (associate_all vector_db agent_id organization_id document_ids c)).
Proof.
  revert c. induction document_ids as [|id ids IH]; intros c; cbn.
  - apply same_content_refl.
  - destruct (associate vector_db agent_id organization_id c id)
      as [c1|e] eqn:E.
    + eapply same_content_trans; [by eapply associate_content|apply IH].
    + apply same_content_refl.
Qed.

(** X15.  The association loops of the agent manager write metadata only.
    Whatever documents they visit and wherever they stop, the loop that
    takes an agent out of the association lists and the loop that puts it in
    leave the collection with the same records in the same order, each with
    the id, the text and the embedding it had. *)
Theorem association_loops_keep_content (vector_db : vector_db_instance)
    (agent_id organization_id : string) (docs : list doc)
    (document_ids : list string) (c : collection) :
  Forall2 same_content c (snd (dissociate_all vector_db agent_id docs c)) /\
  Forall2 same_content c
    (snd (associate_all vector_db agent_id organization_id document_ids c)).
Proof.
  split; [apply dissociate_all_content|apply associate_all_content].
Qed.

Lemma filter_owned_single (self : vector_db_instance) (id : string)
    (metadatas : list (gmap string value)) (filtered_ids : list string) :
  filter_owned self [id] 0 metadatas [] = Ret filtered_ids ->
  filtered_ids = [] \/ filtered_ids = [id].
Proof.
  destruct metadatas as [|m ms]; cbn; [intros [= <-]; by left|].
  destruct (value_eqb _ _); cbn.
  - destruct (filter_owned_past self [id] 1 ms [id]) as [->|[e ->]];
      [done| |done].
    intros [= <-]. by right.
  - destruct (filter_owned_past self [id] 1 ms []) as [->|[e ->]];
      [done| |done].
    intros [= <-]. by left.
Qed.

Lemma coll_delete_nothing (c : collection) : coll_delete c [] = c.
Proof.
  unfold coll_delete. induction c as [|r c IH]; [done|].
  rewrite filter_cons_True by apply not_elem_of_nil. by rewrite IH.
Qed.

Lemma delete_documents_single (self : vector_db_instance) (c : collection)
    (id : string) :
  snd (delete_documents self c [id]) = c \/
  snd (delete_documents self c [id]) = coll_delete c [id].
Proof.
  unfold delete_documents. destruct (shared self); [|by right].
  destruct (filter_owned _ _ _ _ _) as [filtered_ids|] eqn:E; [|by left].
  apply filter_owned_single in E as [->| ->]; [by left|by right].
Qed.

(** The id of the metadata document the manager works on. *)
Local Abbreviation agent_document_id vector_db c agent_id organization_id :=
  (doc_id <$> head (list_documents vector_db c
                      (agent_filter agent_id organization_id) 1 0)).

(** X16.  What the agent manager leaves alone in the store.  [update_agent]
    never adds, removes or reorders records and never touches an embedding,
    and the only text it can change is the one stored under the id of the
    agent's metadata document.  [delete_agent] removes at most the records
    stored under that id, and leaves every other record with its id, text
    and embedding.  Both hold for every outcome of the call. *)
Theorem agent_manager_keeps_the_documents (now : string)
    (vector_db : vector_db_instance) (w : world)
    (agent_id organization_id user_id : string)
    (name instructions description : option string)
    (document_ids : option (list string)) (document_filter : option value)
    (metadata : option (gmap string value)) :
  let agent_doc_id :=
    agent_document_id vector_db (store w) agent_id organization_id in
  Forall2 (fun r r' =>
             rec_id r = rec_id r' /\
             rec_embedding r = rec_embedding r' /\
             (Some (rec_id r) <> agent_doc_id ->
              rec_document r = rec_document r'))
    (store w)
    (store (snd (update_agent now vector_db w agent_id organization_id user_id
                   name instructions description document_ids document_filter
                   metadata))) /\
  exists removed,
    (removed = [] \/ Some removed = (fun id => [id]) <$> agent_doc_id) /\
    Forall2 same_content (coll_delete (store w) removed)
      (store (snd (delete_agent vector_db w agent_id organization_id user_id))).
Proof.
  cbn zeta. split.
  - assert (Hweak : forall c c' : collection,
              Forall2 same_content c c' ->
              Forall2 (fun r r' =>
                         rec_id r = rec_id r' /\
                         rec_embedding r = rec_embedding r' /\
                         (Some (rec_id r)
                          <> agent_document_id vector_db (store w) agent_id
                               organization_id ->
                          rec_document r = rec_document r')) c c').
    { intros c c' H. eapply Forall2_impl; [exact H|].
      intros r r' (? & ? & ?). by repeat split. }
    unfold update_agent.
    destruct (list_documents _ _ _ _ _) as [|agent_doc rest] eqn:Hlist;
      [apply Hweak, same_content_refl|].
    destruct (json_loads _) as [agent_metadata|];
      [|apply Hweak, same_content_refl].
    destruct (negb _); [apply Hweak, same_content_refl|].
    destruct (merge_custom _ _) as [agent_metadata' updated].
    set (c1 := if updated then _ else store w).
    assert (H1 : Forall2 (fun r r' =>
                   rec_id r = rec_id r' /\
                   rec_embedding r = rec_embedding r' /\
                   (Some (rec_id r) <> Some (doc_id agent_doc) ->
                    rec_document r = rec_document r')) (store w) c1).
    { subst c1. destruct updated.
      - destruct (update_document_store vector_db (store w) (doc_id agent_doc)
                    (Some (json_dumps (<["updated_at" := VStr now]>
                                         agent_metadata'))) None None)
          as [->| ->].
        + apply Forall_Forall2_diag, Forall_forall. by intros r _.
        + unfold coll_update.
          apply Forall2_fmap_r, Forall_Forall2_diag, Forall_forall.
          intros r _. unfold compose. cbn beta.
          destruct (decide (rec_id r = doc_id agent_doc)) as [Hid|Hid].
          * rewrite bool_decide_eq_true_2 by done.
            cbn. split; [done|]. split; [done|]. intros Hne.
            destruct Hne. by rewrite Hid.
          * by rewrite bool_decide_eq_false_2 by done.
      - apply Forall_Forall2_diag, Forall_forall. by intros r _. }
    assert (Hthen : forall c2 : collection,
              Forall2 same_content c1 c2 ->
              Forall2 (fun r r' =>
                         rec_id r = rec_id r' /\
                         rec_embedding r = rec_embedding r' /\
                         (Some (rec_id r) <> Some (doc_id agent_doc) ->
                          rec_document r = rec_document r')) (store w) c2).
    { intros c2 H2. eapply Forall2_chain; [|exact H1|exact H2].
      intros x y z (Hi & He & Ht) (Hi' & Ht' & He').
      split; [congruence|]. split; [congruence|].
      intros Hne. rewrite (Ht Hne). exact Ht'. }
    clearbody c1.
    destruct document_ids as [ids|].
    + pose proof (dissociate_all_content vector_db agent_id
                    (list_documents vector_db c1
                       (associated_docs_filter agent_id organization_id) 1000 0)
                    c1) as Hd.
      destruct (dissociate_all _ _ _ _) as [[[]|e] c2]; cbn [snd] in Hd.
      * pose proof (associate_all_content vector_db agent_id organization_id
                      ids c2) as Ha.
        destruct (associate_all _ _ _ _ _) as [[[]|e] c3]; cbn [snd] in Ha.
        -- destruct (get_agent _ _ _ _ _) as [info|e]; cbn [snd store];
             apply Hthen; by eapply same_content_trans.
        -- cbn [snd store]. apply Hthen. by eapply same_content_trans.
      * cbn [snd store]. by apply Hthen.
    + destruct (get_agent _ _ _ _ _) as [info|e]; cbn [snd store];
        apply Hthen, same_content_refl.
  - unfold delete_agent.
    destruct (list_documents _ _ _ _ _) as [|agent_doc rest] eqn:Hlist.
    { exists []. split; [by left|]. rewrite coll_delete_nothing.
      apply same_content_refl. }
    destruct (json_loads _) as [agent_metadata|].
    2:{ exists []. split; [by left|]. rewrite coll_delete_nothing.
        apply same_content_refl. }
    destruct (negb (value_eqb _ _)).
    { exists []. split; [by left|]. rewrite coll_delete_nothing.
      apply same_content_refl. }
    pose proof (delete_documents_single vector_db (store w) (doc_id agent_doc))
      as Hdel.
    destruct (delete_documents _ _ _) as [success c1]. cbn [snd] in Hdel.
    assert (Hremoved : exists removed,
              (removed = [] \/
               Some removed = (fun id => [id]) <$> Some (doc_id agent_doc)) /\
              c1 = coll_delete (store w) removed).
    { destruct Hdel as [->| ->].
      - exists []. split; [by left|]. by rewrite coll_delete_nothing.
      - exists [doc_id agent_doc]. split; [by right|done]. }
    destruct Hremoved as (removed & Hwhich & ->).
    exists removed. split; [exact Hwhich|].
    destruct success; cbn [negb].
    + pose proof (dissociate_all_content vector_db agent_id
                    (list_documents vector_db
                       (coll_delete (store w) removed)
                       (associated_docs_filter agent_id organization_id) 1000 0)
                    (coll_delete (store w) removed)) as Hd.
      destruct (dissociate_all _ _ _ _) as [[[]|e] c2]; exact Hd.
    + apply same_content_refl.
Qed.

End AgentFrameFacts.

(** ** Grounded answers, the shared database and configuration updates *)

Section GroundedAnswers.

Import Filtering FilterSemantics Retriever Generator.

(** X17.  What [generate_answer] grounds an answer on.  Over a vector store
    whose search returns only documents matching the filter it is given,
    the documents returned next to the answer are at most [num_documents],
    all of the caller's organization and the caller's own or shared or
    public, whatever [filter_dict] says; and the answer is what the provider
    generated from the bare query when there are none and from the prompt
    built around the formatted documents otherwise. *)
Theorem generate_answer_is_grounded_in_accessible_documents
    (py_str : value -> string)
    (llm_get_embeddings : list string -> outcome (list embedding_vector))
    (llm_generate : string -> string -> Q -> option Z -> outcome string)
    (vector_db_search :
       embedding_vector -> gmap string value -> nat -> outcome (list document))
    (query organization_id user_id : string)
    (filter_dict : option (gmap string value)) (system_message : option string)
    (temperature : Q) (max_tokens : option Z) (num_documents : nat)
    (answer : string) (used : list document) :
  (forall e flt n hits,
     vector_db_search e flt n = Ret hits ->
     Forall (fun d => filter_matches (doc_metadata d) flt = true) hits) ->
  generate_answer py_str llm_get_embeddings llm_generate vector_db_search
    query organization_id user_id filter_dict system_message temperature
    max_tokens num_documents = Ret (answer, used) ->
  length used <= num_documents /\
  Forall (fun d =>
            let meta := doc_metadata d in
            field_matches (meta !! "organization_id") (VStr organization_id)
              = true /\
            (field_matches (meta !! "user_id") (VStr user_id) = true \/
             field_matches (meta !! "visibility") (VStr SHARED) = true \/
             field_matches (meta !! "visibility") (VStr PUBLIC) = true))
         used /\
  Ret answer =
    llm_generate
      (match used with
       | [] => query
       | _ => rag_prompt query (format_documents_for_context py_str used)
       end)
      (str_or system_message
         (match used with
          | [] => default_system_message
          | _ => default_rag_system_message
          end))
      temperature max_tokens.
Proof.
  intros Hsearch. unfold generate_answer.
  destruct (retrieve_relevant_documents _ _ _ _ _ _ _ _) as [documents|]
    eqn:Hret; [|discriminate].
  destruct (retrieve_relevant_documents_hits _ _ _ _ _ _ _ _ _ Hsearch Hret)
    as [Hall Hlen].
  assert (Hpolicy :
            Forall (fun d =>
                      let meta := doc_metadata d in
                      field_matches (meta !! "organization_id")
                        (VStr organization_id) = true /\
                      (field_matches (meta !! "user_id") (VStr user_id) = true \/
                       field_matches (meta !! "visibility") (VStr SHARED) = true \/
                       field_matches (meta !! "visibility") (VStr PUBLIC) = true))
                   documents).
  { eapply Forall_impl; [exact Hall|]. intros d Hd. cbn zeta.
    by apply default_policy, (search_filter_narrows _ _ _ filter_dict). }
  destruct documents as [|d ds].
  - destruct (llm_generate _ _ _ _) as [response|] eqn:Hgen; [|discriminate].
    intros [= <- <-]. split; [cbn; lia|]. split; [constructor|].
    by rewrite Hgen.
  - destruct (llm_generate _ _ _ _) as [response|] eqn:Hgen; [|discriminate].
    intros [= <- <-]. split; [by apply Hlen|]. split; [exact Hpolicy|].
    rewrite <- Hgen. f_equal. by destruct system_message as [[|c r]|].
Qed.

Lemma generate_answer_is_grounded_in_accessible_documents_witness :
  exists answer,
    generate_answer Examples.show_value Examples.zero_embeddings
      Examples.echo_llm (Scenarios.filtering_search Scenarios.corpus)
      "What is new?" "org1" "bob" (Some Examples.or_override) None 0.7%Q None 1
    = Ret (answer, [Scenarios.hit "b" "shared" "org1" "alice"]) /\
    Ret answer =
      Examples.echo_llm
        (rag_prompt "What is new?"
           (format_documents_for_context Examples.show_value
              [Scenarios.hit "b" "shared" "org1" "alice"]))
        default_rag_system_message 0.7%Q None.
Proof.
  eexists. 
  assert (H : generate_answer Examples.show_value Examples.zero_embeddings
                Examples.echo_llm (Scenarios.filtering_search Scenarios.corpus)
                "What is new?" "org1" "bob" (Some Examples.or_override) None
                0.7%Q None 1
              = Ret ("[" +:+ default_rag_system_message +:+ "] " +:+
                     rag_prompt "What is new?"
                       (format_documents_for_context Examples.show_value
                          [Scenarios.hit "b" "shared" "org1" "alice"]),
                     [Scenarios.hit "b" "shared" "org1" "alice"]))
    by (vm_compute; reflexivity).
  split; [exact H|].
  refine (proj2 (proj2
    (generate_answer_is_grounded_in_accessible_documents Examples.show_value
       Examples.zero_embeddings Examples.echo_llm
       (Scenarios.filtering_search Scenarios.corpus)
       "What is new?" "org1" "bob" (Some Examples.or_override) None
       0.7%Q None 1 _ _ _ H))).
  intros e flt n hits [= <-]. apply Forall_take.
  apply Forall_forall. intros d Hd.
  by apply list_elem_of_filter in Hd as [Hd _].
Defined.

End GroundedAnswers.

Section SharedVectorDatabase.

Import Config VectorDatabases.

(** X18.  One shared vector database object serves every tenant.  When two
    organizations are configured for the shared database of the same name
    and no object is cached for it, the object [get_vector_db] builds for
    the first is bound to that organization, and every later call for the
    second returns this very object, whatever resolutions and registrations
    happen in between. *)
Theorem shared_vector_db_serves_every_organization (settings : Settings)
    (first second : string) (st st1 : registry_state)
    (inst : vector_db_instance) (cs : list call) :
  let name_of organization_id :=
    default (DEFAULT_VECTOR_DB settings)
      (vector_db (get_company_config settings organization_id)) in
  let shared_of organization_id :=
    default (SHARED_VECTOR_DB settings)
      (shared_vector_db (get_company_config settings organization_id)) in
  shared_of first = true ->
  shared_of second = true ->
  name_of first = name_of second ->
  _VECTOR_DB_INSTANCES st !! ("shared:" +:+ name_of first) = None ->
  get_vector_db settings first st = (Ret inst, st1) ->
  organization_id inst = first /\
  shared inst = true /\
  let st2 := run_calls settings cs st1 in
  get_vector_db settings second st2 = (Ret inst, st2).
Proof.
  cbn zeta. intros Hs1 Hs2 Hname Hmiss Hget.
  assert (Hk1 : cache_key settings first
                = "shared:" +:+ default (DEFAULT_VECTOR_DB settings)
                    (vector_db (get_company_config settings first)))
    by (unfold cache_key; by rewrite Hs1).
  assert (Hk2 : cache_key settings second = cache_key settings first)
    by (unfold cache_key; by rewrite Hs1, Hs2, Hname).
  split; [|split].
  - revert Hget. unfold get_vector_db. rewrite Hs1, Hmiss.
    destruct (_VECTOR_DB_REGISTRY st !! _) as [cls0|].
    + destruct (_VECTOR_DB_REGISTRY st !! _) as [cls|]; [|discriminate].
      destruct (init_raises _ _ _ _); [discriminate|]. by intros [= <- _].
    + cbn. destruct (_VECTOR_DB_REGISTRY st !! _) as [cls|]; [|discriminate].
      destruct (init_raises _ _ _ _); [discriminate|]. by intros [= <- _].
  - revert Hget. unfold get_vector_db. rewrite Hs1, Hmiss.
    destruct (_VECTOR_DB_REGISTRY st !! _) as [cls0|].
    + destruct (_VECTOR_DB_REGISTRY st !! _) as [cls|]; [|discriminate].
      destruct (init_raises _ _ _ _); [discriminate|]. by intros [= <- _].
    + cbn. destruct (_VECTOR_DB_REGISTRY st !! _) as [cls|]; [|discriminate].
      destruct (init_raises _ _ _ _); [discriminate|]. by intros [= <- _].
  - apply get_vector_db_returned_is_cached in Hget.
    apply (vdb_run_calls_keep_cached settings cs) in Hget.
    pose proof (get_vector_db_cases settings second (run_calls settings cs st1))
      as Hcases.
    rewrite Hk2, Hget in Hcases. exact Hcases.
Qed.

Lemma shared_vector_db_serves_every_organization_witness :
  exists inst st1,
    get_vector_db default_settings "org1" initial_state = (Ret inst, st1) /\
    organization_id inst = "org1" /\
    shared inst = true /\
    fst (get_vector_db default_settings "org2"
           (run_calls default_settings [Resolve "org3"] st1)) = Ret inst.
Proof.
  eexists _, _.
  assert (H : get_vector_db default_settings "org1" initial_state
              = (Ret {| instance_id := 0;
                        instance_class := reachable_backend "ChromaDBProvider";
                        organization_id := "org1";
                        shared := true |},
                 snd (get_vector_db default_settings "org1" initial_state)))
    by (vm_compute; reflexivity).
  destruct (shared_vector_db_serves_every_organization default_settings
              "org1" "org2" initial_state _ _ [Resolve "org3"]
              eq_refl eq_refl eq_refl eq_refl H) as (Ho & Hs & Hsecond).
  split; [exact H|]. split; [exact Ho|]. split; [exact Hs|].
  cbn zeta in Hsecond. by rewrite Hsecond.
Defined.

End SharedVectorDatabase.

Section ConfigUpdates.

Import Config ConfigUpdate LLMProviders.

Lemma update_company_config_lookup (self : Settings)
    (organization_id other : string) (config : company_config) :
  COMPANY_CONFIGS (update_company_config self organization_id config) !! other
  = if decide (organization_id = other)
    then Some (config_update
                 (default empty_config (COMPANY_CONFIGS self !! organization_id))
                 config)
    else COMPANY_CONFIGS self !! other.
Proof.
  unfold update_company_config. cbn [COMPANY_CONFIGS].
  rewrite lookup_insert. case_decide; [|done].
  by destruct (COMPANY_CONFIGS self !! organization_id).
Qed.

Lemma update_company_config_names (self : Settings)
    (organization_id : string) (config : company_config) :
  let updated := update_company_config self organization_id config in
  get_llm_provider_for_company updated organization_id
  = default (get_llm_provider_for_company self organization_id)
      (llm_provider config) /\
  get_vector_db_for_company updated organization_id
  = default (get_vector_db_for_company self organization_id)
      (vector_db config).
Proof.
  cbn zeta. unfold get_llm_provider_for_company, get_vector_db_for_company,
    get_company_config.
  rewrite update_company_config_lookup. rewrite decide_True by done.
  cbn [DEFAULT_LLM_PROVIDER DEFAULT_VECTOR_DB update_company_config].
  split.
  - destruct (llm_provider config) eqn:E; cbn; rewrite E; [done|].
    by destruct (COMPANY_CONFIGS self !! organization_id).
  - destruct (vector_db config) eqn:E; cbn; rewrite E; [done|].
    by destruct (COMPANY_CONFIGS self !! organization_id).
Qed.

(** X19.  Reading a tenant's configuration back after
    [update_company_config]: the stored dictionary is the previous one
    overwritten by the new keys, and it starts from the empty dictionary,
    not from the defaults, when the tenant had none; the provider and
    database names are the new ones where given, the previous ones
    otherwise, and the defaults where neither exists.  Other tenants read
    what they read before. *)
Theorem update_company_config_then_get (self : Settings)
    (organization_id : string) (config : company_config) :
  let updated := update_company_config self organization_id config in
  let stored :=
    default empty_config (COMPANY_CONFIGS self !! organization_id) in
  get_company_config updated organization_id = config_update stored config /\
  get_llm_provider_for_company updated organization_id
  = default (get_llm_provider_for_company self organization_id)
      (llm_provider config) /\
  get_vector_db_for_company updated organization_id
  = default (get_vector_db_for_company self organization_id)
      (vector_db config) /\
  forall other, other <> organization_id ->
    get_company_config updated other = get_company_config self other.
Proof.
  cbn zeta.
  destruct (update_company_config_names self organization_id config)
    as [Hllm Hvdb].
  split; [|split; [exact Hllm|split; [exact Hvdb|]]].
  - unfold get_company_config. rewrite update_company_config_lookup.
    by rewrite decide_True by done.
  - intros other Hne. unfold get_company_config.
    rewrite update_company_config_lookup.
    by rewrite decide_False by done.
Qed.

(** X20.  A configuration update that names no provider, or the provider the
    tenant already uses, does not reach a provider object that is already
    cached: [get_llm_provider] under the updated settings returns the object
    built before the update, with the configuration it was built from. *)
Theorem cached_provider_outlives_config_update (settings : Settings)
    (organization_id : string) (config : company_config)
    (st st1 : registry_state) (inst : provider_instance) :
  default (get_llm_provider_for_company settings organization_id)
    (llm_provider config)
  = get_llm_provider_for_company settings organization_id ->
  get_llm_provider settings organization_id st = (Ret inst, st1) ->
  get_llm_provider (update_company_config settings organization_id config)
    organization_id st1 = (Ret inst, st1).
Proof.
  intros Hname Hget.
  apply get_llm_provider_returned_is_cached in Hget.
  pose proof (get_llm_provider_cases
                (update_company_config settings organization_id config)
                organization_id st1) as Hcases.
  assert (Hkey : cache_key
                   (update_company_config settings organization_id config)
                   organization_id
                 = cache_key settings organization_id).
  { unfold cache_key.
    destruct (update_company_config_names settings organization_id config)
      as [Heq _]. cbn zeta in Heq. by rewrite Heq, Hname. }
  rewrite Hkey, Hget in Hcases. exact Hcases.
Qed.

Lemma cached_provider_outlives_config_update_witness :
  let settings := Examples.tenant_settings in
  let config :=
    {| llm_provider := None;
       vector_db := None;
       shared_vector_db := None;
       provider_options := {[ "openai_model" := VStr "gpt-4" ]} |} in
  let updated := update_company_config settings "org2" config in
  exists inst st1,
    get_llm_provider settings "org2" (initial_state settings) = (Ret inst, st1) /\
    get_llm_provider updated "org2" st1 = (Ret inst, st1) /\
    provider_options (instance_config inst) !! "openai_model"
      = Some (VStr "gpt-3.5-turbo") /\
    provider_options (get_company_config updated "org2") !! "openai_model"
      = Some (VStr "gpt-4").
Proof.
  cbn zeta. eexists _, _.
  assert (H : get_llm_provider Examples.tenant_settings "org2"
                (initial_state Examples.tenant_settings)
              = (Ret {| instance_id := 0;
                        instance_class := OpenAIProvider Examples.tenant_settings;
                        instance_organization_id := "org2";
                        instance_config :=
                          get_company_config Examples.tenant_settings "org2" |},
                 snd (get_llm_provider Examples.tenant_settings "org2"
                        (initial_state Examples.tenant_settings))))
    by (vm_compute; reflexivity).
  split; [exact H|]. split.
  - apply (cached_provider_outlives_config_update Examples.tenant_settings
             "org2" _ (initial_state Examples.tenant_settings));
      [reflexivity|exact H].
  - split; vm_compute; reflexivity.
Defined.

End ConfigUpdates.

(** ** Listing agents *)

Section AgentListingFacts.

Import FilterSemantics VectorDatabases Chroma AgentManager AgentListing.

Lemma listing_merge_lookup (base fd : gmap string value) (k : string) :
  map_fold (fun key value acc =>
              if bool_decide (key ∉ listing_keys)
              then <[key := value]> acc else acc) base fd !! k =
  if bool_decide (k ∈ listing_keys) then base !! k
  else match fd !! k with Some v => Some v | None => base !! k end.
Proof.
  revert k.
  apply (map_fold_weak_ind
           (fun r m => forall k, r !! k =
              if bool_decide (k ∈ listing_keys) then base !! k
              else match m !! k with Some v => Some v | None => base !! k end)).
  - intros k. rewrite lookup_empty. by case_bool_decide.
  - intros i x m r Hi IH k.
    destruct (decide (i = k)) as [->|Hne].
    + rewrite lookup_insert_eq.
      case_bool_decide as Hsec; case_bool_decide as Hk; try done.
      * by rewrite lookup_insert_eq.
      * rewrite IH. by rewrite bool_decide_eq_true_2.
    + rewrite (lookup_insert_ne m) by done.
      case_bool_decide; [rewrite lookup_insert_ne by done|]; apply IH.
Qed.

Lemma listing_filter_keys (organization_id : string)
    (filter_dict : option (gmap string value)) :
  listing_filter organization_id filter_dict !! "organization_id"
    = Some (VStr organization_id) /\
  listing_filter organization_id filter_dict !! "document_type"
    = Some (VStr "agent_metadata").
Proof.
  unfold listing_filter. destruct filter_dict as [fd|]; [|by simplify_map_eq].
  destruct (dict_truthy fd); [|by simplify_map_eq].
  rewrite !listing_merge_lookup.
  rewrite !bool_decide_eq_true_2
    by (apply (bool_decide_unpack _); vm_compute; exact I).
  by simplify_map_eq.
Qed.

Lemma length_omap_le {A B : Type} (f : A -> option B) (l : list A) :
  length (omap f l) <= length l.
Proof.
  induction l as [|x l IH]; cbn; [lia|]. destruct (f x); cbn; lia.
Qed.

(** X22.  What [list_agents] lists.  Whatever [filter_dict] is passed, every
    agent in the result is read from the JSON text of a stored record that
    carries the caller's organization and the document type
    [agent_metadata]; the list has at most [limit] entries and at most as
    many as remain of [total_count] after [offset]. *)
Theorem list_agents_lists_the_organizations_agents
    (vector_db : vector_db_instance) (c : collection)
    (organization_id user_id : string)
    (filter_dict : option (gmap string value)) (limit offset : nat) :
  let result :=
    list_agents vector_db c organization_id user_id filter_dict limit offset in
  length (fst result) <= Nat.min limit (snd result - offset) /\
  Forall (fun data =>
            exists r agent_metadata,
              r ∈ c /\
              field_matches (rec_metadata r !! "organization_id")
                (VStr organization_id) = true /\
              field_matches (rec_metadata r !! "document_type")
                (VStr "agent_metadata") = true /\
              rec_document r = JsonText agent_metadata /\
              data !! "id" = Some (dict_get agent_metadata "agent_id") /\
              data !! "name"
              = Some (dict_get_or agent_metadata "name" (VStr "Unnamed Agent")))
         (fst result).
Proof.
  cbn zeta. unfold list_agents. cbn [fst snd].
  destruct (listing_filter_keys organization_id filter_dict) as [Horg Htype].
  set (flt := listing_filter organization_id filter_dict) in *.
  split.
  - etransitivity; [apply length_omap_le|].
    rewrite list_documents_page. unfold count_documents.
    rewrite length_fmap, length_take, length_drop. done.
  - apply Forall_forall. intros data Hdata.
    apply list_elem_of_omap in Hdata as (d & Hd & Hdata).
    rewrite list_documents_page in Hd.
    apply list_elem_of_fmap in Hd as (r & -> & Hr).
    assert (Hhit : r ∈ coll_get_where c (with_organization vector_db flt) None).
    { eapply elem_of_sublist; [exact Hr|].
      etransitivity; [apply sublist_take|apply sublist_drop]. }
    unfold coll_get_where in Hhit.
    apply list_elem_of_filter in Hhit as [Hmatch Hin].
    assert (Hflt : with_organization vector_db flt = flt).
    { unfold with_organization.
      rewrite (bool_decide_eq_false_2 (_ = None)) by (by rewrite Horg).
      by rewrite andb_false_r. }
    rewrite Hflt, filter_matches_spec in Hmatch.
    pose proof (Hmatch _ _ Horg) as Ho. pose proof (Hmatch _ _ Htype) as Ht.
    cbn in Ho, Ht.
    unfold agent_data in Hdata. cbn [doc_text listed] in Hdata.
    destruct (rec_document r) as [s|agent_metadata] eqn:Hdoc;
      [discriminate Hdata|].
    cbn [json_loads] in Hdata. injection Hdata as <-.
    exists r, agent_metadata.
    split; [exact Hin|]. split; [exact Ho|]. split; [exact Ht|].
    split; [exact Hdoc|]. split; by simplify_map_eq.
Qed.

End AgentListingFacts.

(** ** Deleting through the Qdrant and the ChromaDB provider *)

Section DeletionByProviders.

Import VectorDatabases Chroma.

Lemma filter_ext_elem {A : Type} (P Q : A -> Prop)
    `{!forall x, Decision (P x)} `{!forall x, Decision (Q x)} (l : list A) :
  (forall x, x ∈ l -> P x <-> Q x) -> filter P l = filter Q l.
Proof.
  induction l as [|x l IH]; intros Hiff; [done|].
  assert (Hl : filter P l = filter Q l).
  { apply IH. intros y Hy. apply Hiff. by right. }
  destruct (decide (P x)) as [Hp|Hp].
  - rewrite !filter_cons_True; [by rewrite Hl|by apply Hiff; [left|]|done].
  - rewrite !filter_cons_False; [done| |done].
    intros Hq. apply Hp. apply Hiff; [by left|done].
Qed.

(** Deleting the ids of the owned points among those found. *)
Lemma coll_delete_owned (self : vector_db_instance) (c : collection)
    (document_ids : list string) (points : list stored) :
  (forall point,
     point ∈ points <-> point ∈ c /\ rec_id point ∈ document_ids) ->
  NoDup (rec_id <$> c) ->
  coll_delete c
    (rec_id <$>
       filter (fun point =>
                 value_eqb (dict_get (rec_metadata point) "organization_id")
                   (VStr (organization_id self)) = true) points)
  = filter (fun r =>
              ~ (rec_id r ∈ document_ids /\
                 (true = true ->
                  value_eqb (dict_get (rec_metadata r) "organization_id")
                    (VStr (organization_id self)) = true))) c.
Proof.
  intros Hclient Hnd. unfold coll_delete. apply filter_ext_elem. intros r Hr.
  assert (Howned :
            rec_id r ∈ rec_id <$>
              filter (fun point =>
                        value_eqb (dict_get (rec_metadata point)
                                     "organization_id")
                          (VStr (organization_id self)) = true) points <->
            rec_id r ∈ document_ids /\
            (true = true ->
             value_eqb (dict_get (rec_metadata r) "organization_id")
               (VStr (organization_id self)) = true)).
  { rewrite list_elem_of_fmap. split.
    - intros (p & Hid & Hp). apply list_elem_of_filter in Hp as [Hown Hp].
      apply Hclient in Hp as [Hpc Hpid].
      assert (p = r) as -> by (by apply (unique_ids_inj c)).
      by split.
    - intros [Hid Hown]. exists r. split; [done|].
      apply list_elem_of_filter. split; [by apply Hown|].
      apply Hclient. by split. }
  by rewrite Howned.
Qed.

Lemma coll_delete_unshared (self : vector_db_instance) (c : collection)
    (document_ids : list string) :
  coll_delete c document_ids
  = filter (fun r =>
              ~ (rec_id r ∈ document_ids /\
                 (false = true ->
                  value_eqb (dict_get (rec_metadata r) "organization_id")
                    (VStr (organization_id self)) = true))) c.
Proof.
  unfold coll_delete. apply filter_ext_elem. intros r _. split.
  - intros Hnot [Hin _]. by apply Hnot.
  - intros Hnot Hin. apply Hnot. split; [done|discriminate].
Qed.

(** X23.  [QdrantProvider.delete_documents] deletes what it is asked to and
    owns, and nothing else.  In a collection with unique ids, whatever
    order the client returns the points in and whichever requested ids are
    missing, the call answers true and removes exactly the records whose id
    is requested and, for a shared provider, whose payload carries the
    provider's organization; every other record stays. *)
Theorem qdrant_delete_documents_removes_own_requested
    (client_retrieve : collection -> list string -> list stored)
    (self : vector_db_instance) (c : collection) (document_ids : list string) :
  (forall point,
     point ∈ client_retrieve c document_ids <->
     point ∈ c /\ rec_id point ∈ document_ids) ->
  NoDup (rec_id <$> c) ->
  Qdrant.delete_documents client_retrieve self c document_ids
  = (true,
     filter (fun r =>
               ~ (rec_id r ∈ document_ids /\
                  (shared self = true ->
                   value_eqb (dict_get (rec_metadata r) "organization_id")
                     (VStr (organization_id self)) = true))) c).
Proof.
  intros Hclient Hnd. unfold Qdrant.delete_documents.
  destruct (shared self) eqn:Hs.
  - pose proof (coll_delete_owned self c document_ids
                  (client_retrieve c document_ids) Hclient Hnd) as Heq.
    destruct (rec_id <$> filter _ (client_retrieve c document_ids))
      as [|i rest] eqn:E.
    + f_equal. rewrite <- Heq. by rewrite coll_delete_nothing.
    + by rewrite <- Heq.
  - f_equal. apply coll_delete_unshared.
Qed.

Lemma qdrant_delete_documents_removes_own_requested_witness :
  Qdrant.delete_documents (fun c ids => reverse (coll_get_ids c ids))
    Examples.org1_db Examples.two_tenants ["gone"; "doc-b"; "doc-a"]
  = (true, [Examples.doc_b]).
Proof.
  rewrite (qdrant_delete_documents_removes_own_requested
             (fun c ids => reverse (coll_get_ids c ids)) Examples.org1_db
             Examples.two_tenants ["gone"; "doc-b"; "doc-a"]).
  - vm_compute. reflexivity.
  - intros point. rewrite elem_of_reverse. unfold coll_get_ids.
    rewrite list_elem_of_filter. tauto.
  - apply (bool_decide_unpack _). vm_compute. exact I.
Defined.

Lemma filter_owned_aligned (self : vector_db_instance) (before : list string)
    (rs : list stored) (acc : list string) :
  filter_owned self (before ++ (rec_id <$> rs)) (length before)
    (rec_metadata <$> rs) acc
  = Ret (acc ++ (rec_id <$>
                   filter (fun r =>
                             value_eqb (dict_get (rec_metadata r)
                                          "organization_id")
                               (VStr (organization_id self)) = true) rs)).
Proof.
  revert before acc. induction rs as [|r rs IH]; intros before acc.
  - cbn. by rewrite app_nil_r.
  - cbn [fmap list_fmap filter_owned].
    assert (Hnext : before ++ rec_id r :: (rec_id <$> rs)
                    = (before ++ [rec_id r]) ++ (rec_id <$> rs))
      by (by rewrite <- app_assoc).
    assert (Hlen : S (length before) = length (before ++ [rec_id r]))
      by (rewrite length_app; cbn; lia).
    destruct (value_eqb _ _) eqn:Hown.
    + rewrite list_lookup_middle by done.
      rewrite Hnext, Hlen, IH. rewrite filter_cons_True by done.
      cbn. by rewrite <- app_assoc.
    + rewrite Hnext, Hlen, IH. rewrite filter_cons_False; [done|].
      by rewrite Hown.
Qed.

(** X24.  When [ChromaDBProvider.delete_documents] is sound.  In a
    collection with unique ids, when at least one id is requested, every
    requested id is stored and the ids are requested in storage order, the
    call answers true and removes exactly the records whose id is requested
    and, for a shared provider, whose metadata carries the provider's
    organization. *)
Theorem chroma_delete_documents_in_storage_order
    (self : vector_db_instance) (c : collection) (document_ids : list string) :
  document_ids <> [] ->
  NoDup (rec_id <$> c) ->
  rec_id <$> coll_get_ids c document_ids = document_ids ->
  delete_documents self c document_ids
  = (true,
     filter (fun r =>
               ~ (rec_id r ∈ document_ids /\
                  (shared self = true ->
                   value_eqb (dict_get (rec_metadata r) "organization_id")
                     (VStr (organization_id self)) = true))) c).
Proof.
  intros Hsome Hnd Haligned. unfold delete_documents.
  destruct (shared self) eqn:Hs.
  - destruct document_ids as [|id0 ids0] eqn:Hids; [done|].
    cbv iota. rewrite <- Hids in *. clear Hids id0 ids0.
    pose proof (filter_owned_aligned self [] (coll_get_ids c document_ids) [])
      as Hloop.
    cbn [app length] in Hloop. rewrite Haligned in Hloop. rewrite Hloop.
    assert (Hfound : forall point,
              point ∈ coll_get_ids c document_ids <->
              point ∈ c /\ rec_id point ∈ document_ids).
    { intros point. unfold coll_get_ids. rewrite list_elem_of_filter. tauto. }
    pose proof (coll_delete_owned self c document_ids
                  (coll_get_ids c document_ids) Hfound Hnd) as Heq.
    destruct (rec_id <$> filter _ (coll_get_ids c document_ids))
      as [|i rest] eqn:E.
    + f_equal. rewrite <- Heq. by rewrite coll_delete_nothing.
    + by rewrite <- Heq.
  - f_equal. apply coll_delete_unshared.
Qed.

Lemma chroma_delete_documents_in_storage_order_witness :
  delete_documents Examples.org1_db Examples.two_tenants ["doc-b"; "doc-a"]
  = (true, [Examples.doc_b]).
Proof.
  rewrite (chroma_delete_documents_in_storage_order Examples.org1_db
             Examples.two_tenants ["doc-b"; "doc-a"]).
  - vm_compute. reflexivity.
  - discriminate.
  - apply (bool_decide_unpack _). vm_compute. exact I.
  - vm_compute. reflexivity.
Defined.

End DeletionByProviders.

(** ** Failing embedding batches *)

Section EmbeddingFailures.

Import OpenAI.

Context {E : Type}.

Variable embeddings_create : list string -> outcome (list (embedding_item E)).

Lemma embed_batches_raises (starts : list nat) (texts : list string)
    (acc : list E) :
  (exists e, embed_batches E embeddings_create starts texts acc = Raise e) <->
  exists i e,
    i ∈ starts /\
    embeddings_create (take batch_size (drop i texts)) = Raise e.
Proof.
  revert acc. induction starts as [|i starts IH]; intros acc.
  - cbn. split; [intros [e He]; discriminate He|].
    intros (i & e & Hi & _). by apply elem_of_nil in Hi.
  - cbn [embed_batches].
    destruct (embeddings_create (take batch_size (drop i texts)))
      as [data|e0] eqn:Hi.
    + rewrite IH. split.
      * intros (j & e & Hj & He). exists j, e. split; [by right|done].
      * intros (j & e & Hj & He). exists j, e. split; [|done].
        apply elem_of_cons in Hj as [->|Hj]; [|done].
        rewrite Hi in He. discriminate He.
    + split; [|intros _; by exists e0].
      intros _. exists i, e0. split; [by left|done].
Qed.

Lemma py_range_starts (n i : nat) :
  i ∈ py_range 0 n batch_size <-> exists k, i = k * batch_size /\ i < n.
Proof.
  unfold py_range, batch_size. rewrite list_elem_of_fmap.
  pose proof (Nat.div_mod_eq (n - 0 + (100 - 1)) 100) as Hdiv.
  pose proof (Nat.mod_upper_bound (n - 0 + (100 - 1)) 100) as Hmod.
  split.
  - intros (k & -> & Hk). apply elem_of_seq in Hk. exists k. split; lia.
  - intros (k & -> & Hk). exists k. split; [lia|].
    apply elem_of_seq. lia.
Qed.

(** X25.  [get_embeddings] fails exactly when a batch fails.  The texts are
    sent in batches of 100 starting at the multiples of 100 below the number
    of texts; the call raises if and only if the client raises on one of
    these batches.  In particular it never raises on the empty list, for
    which the client is not called. *)
Theorem get_embeddings_raises_iff_a_batch_raises (texts : list string) :
  (exists e, get_embeddings E embeddings_create texts = Raise e) <->
  exists k e,
    k * batch_size < length texts /\
    embeddings_create (take batch_size (drop (k * batch_size) texts))
    = Raise e.
Proof.
  unfold get_embeddings. rewrite embed_batches_raises. split.
  - intros (i & e & Hi & He). apply py_range_starts in Hi as (k & -> & Hk).
    by exists k, e.
  - intros (k & e & Hk & He). exists (k * batch_size), e. split; [|done].
    apply py_range_starts. by exists k.
Qed.

End EmbeddingFailures.
